(** * The netstack core: [stack.Stack] of pkg/tcpip/stack/stack.go

    A shallow embedding of the registry part of the gVisor network stack:
    the route table, the NIC map, endpoint construction and [FindRoute].
    Every definition is named after the Go function it embeds.  What
    stack.go uses from other files ([tcpip], [header], nic.go, route.go)
    is either modelled from the specification, and says so, or is taken
    as an interface (a class) that the theorems quantify over. *)

From Stdlib Require Import ZArith Lia.
From Stdlib.Strings Require Import Byte.
From stdpp Require Import gmap strings list fin_maps sorting.

Local Open Scope Z_scope.

(** ** Go runtime: panics and machine integers *)

(** A Go call either returns or panics. *)
Inductive Exec (A : Type) : Type :=
  | Ret (a : A)
  | Panic (msg : string).
Arguments Ret {A} a.
Arguments Panic {A} msg.

Definition ebind {A B} (m : Exec A) (k : A -> Exec B) : Exec B :=
  match m with
  | Ret a => k a
  | Panic msg => Panic msg
  end.

Notation "x <-! m ; k" := (ebind m (fun x => k))
  (at level 100, m at next level, right associativity, only parsing).

(** [int] on the 64-bit targets gVisor builds for, and [int32]. *)
Definition wrap_int (z : Z) : Z := (z + 2 ^ 63) mod 2 ^ 64 - 2 ^ 63.
Definition wrap_int32 (z : Z) : Z := (z + 2 ^ 31) mod 2 ^ 32 - 2 ^ 31.

(** ** Package tcpip *)

Module tcpip.

(** Modelled from the spec: [tcpip.Address] is declared in tcpip.go.  An
    address is the sequence of its bytes; the zero value [tcpip.Address{}]
    has none. *)
Definition Address := list byte.

#[global] Instance byte_eq_dec : EqDecision byte := Byte.byte_eq_dec.

Definition BitLen (a : Address) : Z := 8 * Z.of_nat (length a).

Definition NICID := Z.
Definition NetworkProtocolNumber := Z.
Definition TransportProtocolNumber := Z.

(** Modelled from the spec: [tcpip.Subnet] is declared in tcpip.go.  The
    spec calls a route's destination a CIDR, and [Prefix] its prefix
    length. *)
Record Subnet := mkSubnet {
  ID : Address;
  Prefix : Z
}.

#[global] Instance Subnet_eq_dec : EqDecision Subnet.
Proof. solve_decision. Defined.

(** Modelled from the spec: [tcpip.Route] is declared in tcpip.go.
    "Route: {destination CIDR, gateway address, outgoing NIC-id, optional
    source hint, optional MTU}". *)
Record Route := mkRoute {
  Destination : Subnet;
  Gateway : Address;
  NIC : NICID;
  SourceHint : Address;
  MTU : Z
}.

#[global] Instance Route_eq_dec : EqDecision Route.
Proof. solve_decision. Defined.

(** The zero value [tcpip.Route{}]. *)
Definition Route_zero : Route :=
  mkRoute (mkSubnet [] 0) [] 0 [] 0.

(** Modelled from the spec: [Route.Equal] is declared in tcpip.go.
    "Routes are equal iff all lookup-key fields match (destination,
    type-of-service, scope, NIC)"; of these the record has the
    destination and the NIC. *)
Definition Equal (r to : Route) : bool :=
  bool_decide (Destination r = Destination to) && bool_decide (NIC r = NIC to).

(** Modelled from the spec: [tcpip.RouteList] is declared in tcpip.go.
    "routeTable: ordered sequence of Route"; the sequence is the one of the
    nodes from [Front] along [Next]. *)
Definition RouteList := list Route.

(** The errors of [tcpip.Error] that stack.go creates, and [ErrOther] for
    whatever a collaborator returns. *)
Inductive Error :=
  | ErrUnknownProtocol
  | ErrUnknownNICID
  | ErrDuplicateNICID
  | ErrInvalidNICID
  | ErrNotPermitted
  | ErrNotSupported
  | ErrNoSuchFile
  | ErrBadLocalAddress
  | ErrNetworkUnreachable
  | ErrHostUnreachable
  | ErrOther (code : Z).

#[global] Instance Error_eq_dec : EqDecision Error.
Proof. solve_decision. Defined.

(** A Go result pair [(T, tcpip.Error)] of which exactly one side is set. *)
Inductive result (A : Type) : Type :=
  | Ok (a : A)
  | Err (e : Error).
Arguments Ok {A} a.
Arguments Err {A} e.

(** [Subnet.Contains] lives in tcpip.go; it is taken as an interface. *)
Class SubnetOps := {
  Contains : Subnet -> Address -> bool
}.

End tcpip.

(** ** The route table (component A) *)

Section RouteTable.

Implicit Types (table : tcpip.RouteList) (route r : tcpip.Route).

(** The loop of [addRouteLocked], from the node [n] on: the part of the
    list from [n] to the back after the insertion. *)
Fixpoint addRouteLocked_from (routePrefix : Z) route (n : tcpip.RouteList)
  : tcpip.RouteList :=
  match n with
  | [] => [route]                                  (* PushBack(route) *)
  | e :: next =>
      if tcpip.Prefix (tcpip.Destination e) <? routePrefix
      then route :: e :: next                      (* InsertBefore(n, route) *)
      else e :: addRouteLocked_from routePrefix route next
  end.

Definition addRouteLocked route table : tcpip.RouteList :=
  let routePrefix := tcpip.Prefix (tcpip.Destination route) in
  addRouteLocked_from routePrefix route table.

(** The loop of [removeRoutesLocked]: the list that is left and the
    counter, which is a Go [int]. *)
Fixpoint removeRoutesLocked_from (match_ : tcpip.Route -> bool)
    (count : Z) (rt : tcpip.RouteList) : tcpip.RouteList * Z :=
  match rt with
  | [] => ([], count)
  | route :: next =>
      if match_ route
      then removeRoutesLocked_from match_ (wrap_int (count + 1)) next
      else
        let '(rest, c) := removeRoutesLocked_from match_ count next in
        (route :: rest, c)
  end.

Definition removeRoutesLocked (match_ : tcpip.Route -> bool) table
  : tcpip.RouteList * Z :=
  removeRoutesLocked_from match_ 0 table.

(** [SetRouteTable]: [Reset], then [addRouteLocked] for each element in
    slice order (each iteration has its own [r], as from Go 1.22). *)
Definition setRouteTable (new : list tcpip.Route) : tcpip.RouteList :=
  foldl (fun acc r => addRouteLocked r acc) [] new.

(** The table is sorted longest prefix first. *)
Definition prefix_ge r1 r2 : Prop :=
  tcpip.Prefix (tcpip.Destination r2) <= tcpip.Prefix (tcpip.Destination r1).

Definition sortedByPrefix table : Prop := StronglySorted prefix_ge table.

End RouteTable.

(** ** Package header

    The address classification of pkg/tcpip/header is an interface here:
    [FindRoute] and [CheckLocalAddress] are stated over any implementation
    of it. *)

Module header.

Class Pkg := {
  IPv4ProtocolNumber : tcpip.NetworkProtocolNumber;
  IPv4Broadcast : tcpip.Address;
  IsV4MulticastAddress : tcpip.Address -> bool;
  IsV6MulticastAddress : tcpip.Address -> bool;
  IsV4LoopbackAddress : tcpip.Address -> bool;
  IsV6LoopbackAddress : tcpip.Address -> bool;
  IsV6LinkLocalUnicastAddress : tcpip.Address -> bool;
  IsV6LinkLocalMulticastAddress : tcpip.Address -> bool
}.

End header.

(** ** NICs, protocols and factories as the stack sees them *)

(** Objects the stack only holds references to. *)
Definition LinkEndpoint := Z.
Definition CoordinatorNIC := Z.
Definition AssignableAddressEndpoint := Z.
Definition Endpoint := Z.
Definition WaiterQueue := Z.
Definition DeferAct := Z.

Inductive PrimaryEndpointBehavior :=
  | CanBePrimaryEndpoint
  | FirstPrimaryEndpoint
  | NeverPrimaryEndpoint.

(** The [nic] struct of nic.go.  stack.go reads and writes the fields [id],
    [name], [Primary] and [NetworkLinkEndpoint]; the rest of a NIC's state
    is seen through its methods, which are carried as the answers this NIC
    gives.  [Primary] is only ever set by [SetNICCoordinator], to a NIC
    whose link endpoint is a [CoordinatorNIC]; it is kept as that
    coordinator.  The reference counts of address endpoints ([DecRef]) are
    not tracked. *)
Module nic.

Record t := mk {
  id : tcpip.NICID;
  name : string;
  NetworkLinkEndpoint : LinkEndpoint;
  Primary : option CoordinatorNIC;
  Enabled : bool;
  forwarding : tcpip.NetworkProtocolNumber -> tcpip.result bool;
  primaryEndpoint : tcpip.NetworkProtocolNumber -> tcpip.Address ->
                    tcpip.Address -> option AssignableAddressEndpoint;
  findEndpoint : tcpip.NetworkProtocolNumber -> tcpip.Address ->
                 PrimaryEndpointBehavior -> option AssignableAddressEndpoint;
  getAddressOrCreateTempInner : tcpip.NetworkProtocolNumber -> tcpip.Address ->
                 bool -> PrimaryEndpointBehavior -> option AssignableAddressEndpoint;
  hasAddress : tcpip.NetworkProtocolNumber -> tcpip.Address -> bool;
  CheckLocalAddress : tcpip.NetworkProtocolNumber -> tcpip.Address -> bool
}.

(** Modelled from the spec: [nic.Name] is declared in nic.go; it gives the
    NIC's "human-readable name". *)
Definition Name (n : t) : string := name n.

End nic.

(** [NICOptions]; the fields [Context], [QDisc], [DeliverLinkPackets] and
    [EnableExperimentIPOption] are only handed on to [newNIC]. *)
Module NICOptions.
Record t := mk {
  Name : string;
  Disabled : bool
}.
End NICOptions.

(** The [NetworkProtocol] and [TransportProtocol] interfaces, as far as
    stack.go calls them here. *)
Module NetworkProtocol.
Record t := mk { Number : tcpip.NetworkProtocolNumber }.
End NetworkProtocol.

Module TransportProtocol.
Record t := mk {
  Number : tcpip.TransportProtocolNumber;
  NewEndpoint : tcpip.NetworkProtocolNumber -> WaiterQueue -> tcpip.result Endpoint;
  NewRawEndpoint : tcpip.NetworkProtocolNumber -> WaiterQueue -> tcpip.result Endpoint
}.
End TransportProtocol.

(** The [RawFactory] interface; the stack argument of its methods is the
    stack that owns the factory. *)
Module RawFactory.
Record t := mk {
  NewUnassociatedEndpoint : tcpip.NetworkProtocolNumber ->
    tcpip.TransportProtocolNumber -> WaiterQueue -> tcpip.result Endpoint;
  NewPacketEndpoint : bool -> tcpip.NetworkProtocolNumber -> WaiterQueue ->
    tcpip.result Endpoint
}.
End RawFactory.

(** Calls that leave the stack: to link endpoints, coordinators, NIC
    teardown and endpoint factories.  The functions below return the calls
    they made, in order. *)
Inductive Call :=
  | CallSetOnCloseAction (ep : LinkEndpoint) (id : tcpip.NICID)
  | CallEnable (id : tcpip.NICID)
  | CallDelNIC (b : CoordinatorNIC) (id : tcpip.NICID)
  | CallRemove (id : tcpip.NICID) (closeLinkEndpoint : bool)
  | CallDeferAct (act : DeferAct)
  | CallNewUnassociatedEndpoint (network transport : Z)
  | CallNewPacketEndpoint (cooked : bool) (netProto : Z)
  | CallProtoNewRawEndpoint (transport network : Z).

(** ** The Stack *)

(** The fields of [Stack] that the functions below use.  The locks [mu] and
    [routeMu] have no counterpart: every function is embedded as one
    uninterrupted critical section. *)
Record Stack := mkStack {
  transportProtocols : gmap Z TransportProtocol.t;
  networkProtocols : gmap Z NetworkProtocol.t;
  rawFactory : option RawFactory.t;
  routeTable : tcpip.RouteList;
  nics : gmap Z nic.t;
  defaultForwardingEnabled : gset Z;
  nicIDGen : Z;
  handleLocal : bool
}.

Definition set_routeTable (rt : tcpip.RouteList) (s : Stack) : Stack :=
  mkStack (transportProtocols s) (networkProtocols s) (rawFactory s) rt
          (nics s) (defaultForwardingEnabled s) (nicIDGen s) (handleLocal s).

Definition set_nics (m : gmap Z nic.t) (s : Stack) : Stack :=
  mkStack (transportProtocols s) (networkProtocols s) (rawFactory s)
          (routeTable s) m (defaultForwardingEnabled s) (nicIDGen s)
          (handleLocal s).

Definition set_nicIDGen (g : Z) (s : Stack) : Stack :=
  mkStack (transportProtocols s) (networkProtocols s) (rawFactory s)
          (routeTable s) (nics s) (defaultForwardingEnabled s) g
          (handleLocal s).

(** The part of [Options] that reaches the fields above.  A protocol
    factory "may only query the stack"; it is represented by the protocol
    it returns. *)
Module Options.
Record t := mk {
  NetworkProtocols : list NetworkProtocol.t;
  TransportProtocols : list TransportProtocol.t;
  HandleLocal : bool;
  RawFactory : option RawFactory.t
}.
End Options.

(** Modelled from the spec: [stack.Route] and its constructors are declared
    in route.go.  A route is represented by the constructor it was made
    with and the arguments of that call; the spec speaks of a route's
    outgoing NIC, gateway and MTU, which are among them. *)
Inductive Route :=
  | makeRoute (netProto : tcpip.NetworkProtocolNumber)
      (gateway localAddr remoteAddr : tcpip.Address)
      (outgoingNIC localAddressNIC : nic.t)
      (localAddressEndpoint : AssignableAddressEndpoint)
      (handleLocal multicastLoop : bool) (mtu : Z)
  | makeLocalRoute (netProto : tcpip.NetworkProtocolNumber)
      (localAddr remoteAddr : tcpip.Address)
      (outgoingNIC localAddressNIC : nic.t)
      (localAddressEndpoint : AssignableAddressEndpoint).

Definition Route_outgoingNIC (r : Route) : nic.t :=
  match r with
  | makeRoute _ _ _ _ o _ _ _ _ _ => o
  | makeLocalRoute _ _ _ o _ _ => o
  end.

(** What route.go decides: whether a constructed route passes validation,
    and whether a route is an outbound broadcast. *)
Class RoutePkg := {
  constructAndValidateRoute :
    tcpip.NetworkProtocolNumber -> AssignableAddressEndpoint ->
    nic.t -> nic.t -> tcpip.Address -> tcpip.Address -> tcpip.Address ->
    bool -> bool -> Z -> option Route;
  IsOutboundBroadcast : Route -> bool
}.

(** What nic.go and the coordinator do when the stack calls them. *)
Class NICPkg := {
  newNIC : Stack -> tcpip.NICID -> LinkEndpoint -> NICOptions.t -> nic.t;
  setForwarding : nic.t -> tcpip.NetworkProtocolNumber -> bool ->
                  nic.t * tcpip.result bool;
  enable : nic.t -> nic.t * option tcpip.Error;
  remove : nic.t -> bool -> option DeferAct * option tcpip.Error;
  DelNIC : CoordinatorNIC -> nic.t -> option tcpip.Error
}.

(** Go leaves the order of [range] over a map open: it is some enumeration
    of the entries. *)
Class GoRuntime := {
  rangeNICs : gmap Z nic.t -> list (Z * nic.t);
  rangeNICs_perm : forall m, rangeNICs m ≡ₚ map_to_list m;
  rangeProtos : gset Z -> list Z;
  rangeProtos_perm : forall X, rangeProtos X ≡ₚ elements X
}.

(** ** Operations of the Stack *)

Section Operations.

Context `{!header.Pkg} `{!tcpip.SubnetOps} `{!RoutePkg} `{!NICPkg} `{!GoRuntime}.

(** [New]: the maps are filled in the order of the option slices, a later
    protocol with the same number replacing an earlier one. *)
Definition New (opts : Options.t) : Stack :=
  {| transportProtocols :=
       foldl (fun m p => <[TransportProtocol.Number p := p]> m) ∅
             (Options.TransportProtocols opts);
     networkProtocols :=
       foldl (fun m p => <[NetworkProtocol.Number p := p]> m) ∅
             (Options.NetworkProtocols opts);
     rawFactory := Options.RawFactory opts;
     routeTable := [];
     nics := ∅;
     defaultForwardingEnabled := ∅;
     nicIDGen := 0;
     handleLocal := Options.HandleLocal opts |}.

(** [NextNICID]: the counter is advanced before the overflow test. *)
Definition NextNICID (s : Stack) : Stack * Exec tcpip.NICID :=
  let next := wrap_int32 (nicIDGen s + 1) in
  (set_nicIDGen next s,
   if next <? 0 then Panic "NICID overflow" else Ret next).

(** *** Route table *)

Definition SetRouteTable (s : Stack) (table : list tcpip.Route) : Stack :=
  set_routeTable (setRouteTable table) s.

Definition GetRouteTable (s : Stack) : list tcpip.Route := routeTable s.

Definition AddRoute (s : Stack) (route : tcpip.Route) : Stack :=
  set_routeTable (addRouteLocked route (routeTable s)) s.

Definition RemoveRoutes (s : Stack) (match_ : tcpip.Route -> bool) : Stack * Z :=
  let '(rt, count) := removeRoutesLocked match_ (routeTable s) in
  (set_routeTable rt s, count).

Definition ReplaceRoute (s : Stack) (route : tcpip.Route) : Stack :=
  let '(rt, _) :=
    removeRoutesLocked (fun rt => tcpip.Equal rt route) (routeTable s) in
  set_routeTable (addRouteLocked route rt) s.

(** *** Endpoint construction *)

Definition NewRawEndpoint (s : Stack) (transport network : Z)
    (waiterQueue : WaiterQueue) (associated : bool)
  : list Call * tcpip.result Endpoint :=
  match rawFactory s with
  | None => ([], tcpip.Err tcpip.ErrNotPermitted)
  | Some f =>
      if negb associated then
        ([CallNewUnassociatedEndpoint network transport],
         RawFactory.NewUnassociatedEndpoint f network transport waiterQueue)
      else
        match transportProtocols s !! transport with
        | None => ([], tcpip.Err tcpip.ErrUnknownProtocol)
        | Some t =>
            ([CallProtoNewRawEndpoint transport network],
             TransportProtocol.NewRawEndpoint t network waiterQueue)
        end
  end.

Definition NewPacketEndpoint (s : Stack) (cooked : bool) (netProto : Z)
    (waiterQueue : WaiterQueue) : list Call * tcpip.result Endpoint :=
  match rawFactory s with
  | None => ([], tcpip.Err tcpip.ErrNotPermitted)
  | Some f =>
      ([CallNewPacketEndpoint cooked netProto],
       RawFactory.NewPacketEndpoint f cooked netProto waiterQueue)
  end.

(** *** NIC lifecycle *)

Definition HasNIC (s : Stack) (id : tcpip.NICID) : bool :=
  bool_decide (is_Some (nics s !! id)).

(** The loop over [defaultForwardingEnabled] in [CreateNICWithOptions]. *)
Fixpoint applyDefaultForwarding (n : nic.t) (protos : list Z) : Exec nic.t :=
  match protos with
  | [] => Ret n
  | proto :: rest =>
      match setForwarding n proto true with
      | (n', tcpip.Ok _) => applyDefaultForwarding n' rest
      | (_, tcpip.Err _) => Panic "newNIC(...).setForwarding(..., true)"
      end
  end.

(** The outcome is the stack afterwards, the outside calls made and the
    returned error. *)
Definition CreateNICWithOptions (s : Stack) (id : tcpip.NICID)
    (ep : LinkEndpoint) (opts : NICOptions.t)
  : Exec (Stack * list Call * option tcpip.Error) :=
  if bool_decide (id = 0) then Ret (s, [], Some tcpip.ErrInvalidNICID)
  else if bool_decide (is_Some (nics s !! id)) then
    Ret (s, [], Some tcpip.ErrDuplicateNICID)
  else if negb (bool_decide (NICOptions.Name opts = EmptyString))
          && existsb (fun '(_, n) => bool_decide (nic.Name n = NICOptions.Name opts))
                     (rangeNICs (nics s)) then
    Ret (s, [], Some tcpip.ErrDuplicateNICID)
  else
    n <-! applyDefaultForwarding (newNIC s id ep opts)
                                 (rangeProtos (defaultForwardingEnabled s));
    if negb (NICOptions.Disabled opts) then
      let '(n', err) := enable n in
      Ret (set_nics (<[id := n']> (nics s)) s,
           [CallSetOnCloseAction ep id; CallEnable id], err)
    else
      Ret (set_nics (<[id := n]> (nics s)) s,
           [CallSetOnCloseAction ep id], None).

Definition CreateNIC (s : Stack) (id : tcpip.NICID) (ep : LinkEndpoint) :=
  CreateNICWithOptions s id ep (NICOptions.mk EmptyString false).

Definition CheckNIC (s : Stack) (id : tcpip.NICID) : bool :=
  match nics s !! id with
  | None => false
  | Some n => nic.Enabled n
  end.

(** The route loop of [removeNICLocked]. *)
Fixpoint removeNICLocked_routes (id : tcpip.NICID) (rt : tcpip.RouteList)
  : tcpip.RouteList :=
  match rt with
  | [] => []
  | r :: next =>
      if bool_decide (tcpip.NIC r = id)
      then removeNICLocked_routes id next
      else r :: removeNICLocked_routes id next
  end.

Definition removeNICLocked (s : Stack) (id : tcpip.NICID)
  : Stack * list Call * (option DeferAct * option tcpip.Error) :=
  match nics s !! id with
  | None => (s, [], (None, Some tcpip.ErrUnknownNICID))
  | Some n =>
      let s1 := set_nics (delete id (nics s)) s in
      let '(calls, delErr) :=
        match nic.Primary n with
        | Some b => ([CallDelNIC b id], DelNIC b n)
        | None => ([], None)
        end in
      match delErr with
      | Some err => (s1, calls, (None, Some err))
      | None =>
          let s2 := set_routeTable (removeNICLocked_routes id (routeTable s1)) s1 in
          (s2, calls ++ [CallRemove id true], remove n true)
      end
  end.

Definition runDeferAct (deferAct : option DeferAct) : list Call :=
  match deferAct with
  | Some act => [CallDeferAct act]
  | None => []
  end.

Definition RemoveNIC (s : Stack) (id : tcpip.NICID)
  : Stack * list Call * option tcpip.Error :=
  let '(s', calls, (deferAct, err)) := removeNICLocked s id in
  (s', calls ++ runDeferAct deferAct, err).

(** [SetNICStack] compares two [*Stack] pointers, so stacks live in a
    store and are named by their address. *)
Definition SetNICStack (h : gmap Z Stack) (s : Z) (id : tcpip.NICID) (peer : Z)
  : Exec (gmap Z Stack * list Call * (tcpip.NICID * option tcpip.Error)) :=
  match h !! s with
  | None => Panic "nil pointer dereference"
  | Some st =>
      match nics st !! id with
      | None => Ret (h, [], (0, Some tcpip.ErrUnknownNICID))
      | Some n =>
          if bool_decide (s = peer) then Ret (h, [], (id, None))
          else
            let st1 := set_nics (delete id (nics st)) st in
            let '(st2, _) :=
              RemoveRoutes st1 (fun r => bool_decide (tcpip.NIC r = id)) in
            let ne := nic.NetworkLinkEndpoint n in
            let '(deferAct, err) := remove n false in
            let calls := CallRemove id false :: runDeferAct deferAct in
            let h1 := <[s := st2]> h in
            match err with
            | Some e => Ret (h1, calls, (0, Some e))
            | None =>
                match h1 !! peer with
                | None => Panic "nil pointer dereference"
                | Some p =>
                    let '(p1, next) := NextNICID p in
                    id' <-! next;
                    out <-! CreateNICWithOptions p1 id' ne
                              (NICOptions.mk (nic.Name n) false);
                    let '(p2, calls2, err2) := out in
                    Ret (<[peer := p2]> h1, calls ++ calls2, (id', err2))
                end
            end
      end
  end.

(** *** Addresses and routing *)

Definition CheckNetworkProtocol (s : Stack) (protocol : Z) : bool :=
  bool_decide (is_Some (networkProtocols s !! protocol)).

Definition CheckLocalAddress (s : Stack) (nicID : tcpip.NICID)
    (protocol : Z) (addr : tcpip.Address) : tcpip.NICID :=
  if negb (bool_decide (nicID = 0)) then
    match nics s !! nicID with
    | None => 0
    | Some n =>
        if bool_decide (protocol = header.IPv4ProtocolNumber) then nic.id n
        else if nic.CheckLocalAddress n protocol addr then nic.id n
        else 0
    end
  else
    match List.find (fun '(_, n) => nic.CheckLocalAddress n protocol addr)
                    (rangeNICs (nics s)) with
    | Some (_, n) => nic.id n
    | None => 0
    end.

Definition getAddressEP (n : nic.t) (localAddr remoteAddr srcHint : tcpip.Address)
    (netProto : Z) : option AssignableAddressEndpoint :=
  if bool_decide (tcpip.BitLen localAddr = 0)
  then nic.primaryEndpoint n netProto remoteAddr srcHint
  else nic.findEndpoint n netProto localAddr CanBePrimaryEndpoint.

Definition findLocalRouteFromNICRLocked (s : Stack) (localAddressNIC : nic.t)
    (localAddr remoteAddr : tcpip.Address) (netProto : Z) : option Route :=
  match nic.getAddressOrCreateTempInner localAddressNIC netProto localAddr
          false NeverPrimaryEndpoint with
  | None => None
  | Some localAddressEndpoint =>
      let outgoingNIC :=
        if nic.hasAddress localAddressNIC netProto remoteAddr
        then Some localAddressNIC
        else
          snd <$> List.find (fun '(_, n) => nic.hasAddress n netProto remoteAddr)
                            (rangeNICs (nics s)) in
      match outgoingNIC with
      | None => None
      | Some outgoingNIC =>
          let r := makeLocalRoute netProto localAddr remoteAddr outgoingNIC
                                  localAddressNIC localAddressEndpoint in
          if IsOutboundBroadcast r then None else Some r
      end
  end.

(** First non-nil answer of [f] along a [range] over the NICs. *)
Fixpoint firstRoute (f : nic.t -> option Route) (l : list (Z * nic.t))
  : option Route :=
  match l with
  | [] => None
  | (_, n) :: rest =>
      match f n with
      | Some r => Some r
      | None => firstRoute f rest
      end
  end.

Definition findLocalRouteRLocked (s : Stack) (localAddressNICID : tcpip.NICID)
    (localAddr remoteAddr : tcpip.Address) (netProto : Z) : option Route :=
  let localAddr :=
    if bool_decide (tcpip.BitLen localAddr = 0) then remoteAddr else localAddr in
  if bool_decide (localAddressNICID = 0) then
    firstRoute (fun localAddressNIC =>
                  findLocalRouteFromNICRLocked s localAddressNIC localAddr
                                               remoteAddr netProto)
               (rangeNICs (nics s))
  else
    match nics s !! localAddressNICID with
    | Some localAddressNIC =>
        findLocalRouteFromNICRLocked s localAddressNIC localAddr remoteAddr netProto
    | None => None
    end.

Definition isNICForwarding (n : nic.t) (proto : Z) : Exec bool :=
  match nic.forwarding n proto with
  | tcpip.Ok forwarding => Ret forwarding
  | tcpip.Err tcpip.ErrUnknownProtocol =>
      Panic "expected network protocol to be available on NIC"
  | tcpip.Err tcpip.ErrNotSupported => Ret false
  | tcpip.Err _ => Panic "nic.forwarding"
  end.

Definition findRouteWithLocalAddrFromAnyInterfaceRLocked (s : Stack)
    (outgoingNIC : nic.t) (localAddr remoteAddr srcHint gateway : tcpip.Address)
    (netProto : Z) (multicastLoop : bool) (mtu : Z) : option Route :=
  firstRoute
    (fun aNIC =>
       match getAddressEP aNIC localAddr remoteAddr srcHint netProto with
       | None => None
       | Some addressEndpoint =>
           constructAndValidateRoute netProto addressEndpoint aNIC outgoingNIC
             gateway localAddr remoteAddr (handleLocal s) multicastLoop mtu
       end)
    (rangeNICs (nics s)).

(** The loop of [FindRoute] over the route table, from the node [rt] on.
    It returns the route the closure returns, if any, and [chosenRoute]
    as the loop leaves it. *)
Fixpoint findRoute_table (s : Stack) (id : tcpip.NICID)
    (localAddr remoteAddr : tcpip.Address) (netProto : Z)
    (multicastLoop needRoute onlyGlobalAddresses : bool)
    (chosenRoute : tcpip.Route) (rt : tcpip.RouteList)
  : Exec (option Route * tcpip.Route) :=
  match rt with
  | [] => Ret (None, chosenRoute)
  | route :: next =>
      let continue_ chosen :=
        findRoute_table s id localAddr remoteAddr netProto multicastLoop
                        needRoute onlyGlobalAddresses chosen next in
      if negb (bool_decide (tcpip.BitLen remoteAddr = 0))
         && negb (tcpip.Contains (tcpip.Destination route) remoteAddr)
      then continue_ chosenRoute
      else
        match nics s !! tcpip.NIC route with
        | None => continue_ chosenRoute
        | Some n =>
            if negb (nic.Enabled n) then continue_ chosenRoute
            else
              let addressEndpoint :=
                if bool_decide (id = 0) || bool_decide (id = tcpip.NIC route)
                then getAddressEP n localAddr remoteAddr
                                  (tcpip.SourceHint route) netProto
                else None in
              match addressEndpoint with
              | Some addressEndpoint =>
                  let gateway : tcpip.Address :=
                    if needRoute then tcpip.Gateway route else [] in
                  match constructAndValidateRoute netProto addressEndpoint n n
                          gateway localAddr remoteAddr (handleLocal s)
                          multicastLoop (tcpip.MTU route) with
                  | None => Panic "non-forwarding route validation failed"
                  | Some r => Ret (Some r, chosenRoute)
                  end
              | None =>
                  let locallyGenerated :=
                    negb (bool_decide (id = 0))
                    || negb (bool_decide (localAddr = [])) in
                  if onlyGlobalAddresses
                     && tcpip.Equal chosenRoute tcpip.Route_zero then
                    fwd <-! isNICForwarding n netProto;
                    if fwd then
                      if locallyGenerated then continue_ route
                      else
                        match findRouteWithLocalAddrFromAnyInterfaceRLocked s n
                                localAddr remoteAddr (tcpip.SourceHint route)
                                (tcpip.Gateway route) netProto multicastLoop
                                (tcpip.MTU route) with
                        | Some r => Ret (Some r, chosenRoute)
                        | None => continue_ chosenRoute
                        end
                    else continue_ chosenRoute
                  else continue_ chosenRoute
              end
        end
  end.

(** The branch of [FindRoute] for a given interface when no route is
    needed. *)
Definition findRoute_direct (s : Stack) (id : tcpip.NICID)
    (localAddr remoteAddr : tcpip.Address) (netProto : Z)
    (multicastLoop isLoopback : bool) : tcpip.result Route :=
  let direct :=
    match nics s !! id with
    | Some n =>
        if nic.Enabled n then
          match getAddressEP n localAddr remoteAddr [] netProto with
          | Some addressEndpoint =>
              Some (makeRoute netProto [] localAddr remoteAddr n n
                              addressEndpoint (handleLocal s) multicastLoop 0)
          | None => None
          end
        else None
    | None => None
    end in
  match direct with
  | Some r => tcpip.Ok r
  | None =>
      if isLoopback then tcpip.Err tcpip.ErrBadLocalAddress
      else tcpip.Err tcpip.ErrNetworkUnreachable
  end.

(** The part of [FindRoute] after the loop over the route table. *)
Definition findRoute_chosen (s : Stack) (id : tcpip.NICID)
    (localAddr remoteAddr : tcpip.Address) (netProto : Z)
    (multicastLoop needRoute : bool) (chosenRoute : tcpip.Route)
  : Exec (tcpip.result Route) :=
  let fallback :=
    if needRoute then tcpip.Err tcpip.ErrHostUnreachable
    else if header.IsV6LoopbackAddress remoteAddr
         then tcpip.Err tcpip.ErrBadLocalAddress
         else tcpip.Err tcpip.ErrNetworkUnreachable in
  if negb (tcpip.Equal chosenRoute tcpip.Route_zero) then
    match nics s !! tcpip.NIC chosenRoute with
    | None => Panic "chosen route must have a valid NIC"
    | Some n =>
        let gateway : tcpip.Address :=
          if needRoute then tcpip.Gateway chosenRoute else [] in
        if negb (bool_decide (id = 0)) then
          let r :=
            match nics s !! id with
            | Some aNIC =>
                match getAddressEP aNIC localAddr remoteAddr
                        (tcpip.SourceHint chosenRoute) netProto with
                | Some addressEndpoint =>
                    constructAndValidateRoute netProto addressEndpoint aNIC n
                      gateway localAddr remoteAddr (handleLocal s)
                      multicastLoop (tcpip.MTU chosenRoute)
                | None => None
                end
            | None => None
            end in
          match r with
          | Some r => Ret (tcpip.Ok r)
          | None => Ret (tcpip.Err tcpip.ErrHostUnreachable)
          end
        else
          match findRouteWithLocalAddrFromAnyInterfaceRLocked s n localAddr
                  remoteAddr (tcpip.SourceHint chosenRoute) gateway netProto
                  multicastLoop (tcpip.MTU chosenRoute) with
          | Some r => Ret (tcpip.Ok r)
          | None => Ret fallback
          end
    end
  else Ret fallback.

Definition FindRoute (s : Stack) (id : tcpip.NICID)
    (localAddr remoteAddr : tcpip.Address) (netProto : Z)
    (multicastLoop : bool) : Exec (tcpip.result Route) :=
  if negb (CheckNetworkProtocol s netProto) then
    Ret (tcpip.Err tcpip.ErrUnknownProtocol)
  else
    let isLinkLocal :=
      header.IsV6LinkLocalUnicastAddress remoteAddr
      || header.IsV6LinkLocalMulticastAddress remoteAddr in
    let isLocalBroadcast := bool_decide (remoteAddr = header.IPv4Broadcast) in
    let isMulticast :=
      header.IsV4MulticastAddress remoteAddr
      || header.IsV6MulticastAddress remoteAddr in
    let isLoopback :=
      header.IsV4LoopbackAddress remoteAddr
      || header.IsV6LoopbackAddress remoteAddr in
    let needRoute :=
      negb (isLocalBroadcast || isMulticast || isLinkLocal || isLoopback) in
    let localRoute :=
      if handleLocal s && negb isMulticast && negb isLocalBroadcast
      then findLocalRouteRLocked s id localAddr remoteAddr netProto
      else None in
    match localRoute with
    | Some r => Ret (tcpip.Ok r)
    | None =>
        if negb (bool_decide (id = 0)) && negb needRoute then
          Ret (findRoute_direct s id localAddr remoteAddr netProto
                                multicastLoop isLoopback)
        else
          let onlyGlobalAddresses :=
            negb (header.IsV6LinkLocalUnicastAddress localAddr)
            && negb isLinkLocal in
          out <-! findRoute_table s id localAddr remoteAddr netProto
                    multicastLoop needRoute onlyGlobalAddresses
                    tcpip.Route_zero (routeTable s);
          match out with
          | (Some r, _) => Ret (tcpip.Ok r)
          | (None, chosenRoute) =>
              findRoute_chosen s id localAddr remoteAddr netProto
                               multicastLoop needRoute chosenRoute
          end
    end.

End Operations.

(** ** The classes of remote address that [FindRoute] tells apart *)

Section Classification.

Context `{!header.Pkg}.

Definition isLinkLocal (remoteAddr : tcpip.Address) : bool :=
  header.IsV6LinkLocalUnicastAddress remoteAddr
  || header.IsV6LinkLocalMulticastAddress remoteAddr.

Definition isLocalBroadcast (remoteAddr : tcpip.Address) : bool :=
  bool_decide (remoteAddr = header.IPv4Broadcast).

Definition isMulticast (remoteAddr : tcpip.Address) : bool :=
  header.IsV4MulticastAddress remoteAddr
  || header.IsV6MulticastAddress remoteAddr.

Definition isLoopback (remoteAddr : tcpip.Address) : bool :=
  header.IsV4LoopbackAddress remoteAddr
  || header.IsV6LoopbackAddress remoteAddr.

Definition needRoute (remoteAddr : tcpip.Address) : bool :=
  negb (isLocalBroadcast remoteAddr || isMulticast remoteAddr
        || isLinkLocal remoteAddr || isLoopback remoteAddr).

(** [FindRoute] looks for a local route first when the stack handles
    local traffic and the remote is neither multicast nor the local
    broadcast address. *)
Definition triesLocalRoute (s : Stack) (remoteAddr : tcpip.Address) : bool :=
  handleLocal s && negb (isMulticast remoteAddr)
  && negb (isLocalBroadcast remoteAddr).

End Classification.

(** ** Sequences of route-table calls *)

Inductive RouteOp :=
  | OpAddRoute (r : tcpip.Route)
  | OpSetRouteTable (table : list tcpip.Route).

Definition runRouteOp (s : Stack) (op : RouteOp) : Stack :=
  match op with
  | OpAddRoute r => AddRoute s r
  | OpSetRouteTable table => SetRouteTable s table
  end.

Definition runRouteOps (s : Stack) (ops : list RouteOp) : Stack :=
  foldl runRouteOp s ops.

Definition isSetRouteTable (op : RouteOp) : bool :=
  match op with
  | OpSetRouteTable _ => true
  | OpAddRoute _ => false
  end.

(** Every way stack.go changes the route table: [AddRoute],
    [SetRouteTable], [RemoveRoutes] (also from [SetNICStack]),
    [ReplaceRoute] and the purge of [removeNICLocked]. *)
Inductive tableStep : tcpip.RouteList -> tcpip.RouteList -> Prop :=
  | step_AddRoute r T : tableStep T (addRouteLocked r T)
  | step_SetRouteTable new T : tableStep T (setRouteTable new)
  | step_RemoveRoutes match_ T : tableStep T (removeRoutesLocked match_ T).1
  | step_ReplaceRoute r T :
      tableStep T
        (addRouteLocked r
           (removeRoutesLocked (fun rt => tcpip.Equal rt r) T).1)
  | step_removeNIC id T : tableStep T (removeNICLocked_routes id T).

(** The tables a stack can hold: [New] starts with the empty one. *)
Inductive reachableTable : tcpip.RouteList -> Prop :=
  | reachable_New : reachableTable []
  | reachable_step T T' :
      reachableTable T -> tableStep T T' -> reachableTable T'.

(** [x] occurs somewhere before [y] in [l]. *)
Definition appearsBefore {A} (x y : A) (l : list A) : Prop :=
  exists l1 l2 l3, l = l1 ++ x :: l2 ++ y :: l3.

(** ** Implementations of the interfaces used in the examples *)

Module sample.

(** Big-endian value of an address. *)
Definition toZ (a : tcpip.Address) : Z :=
  foldl (fun acc b => 256 * acc + Z.of_N (Byte.to_N b)) 0 a.

Definition byteAt (a : tcpip.Address) (i : nat) : Z :=
  match a !! i with
  | Some b => Z.of_N (Byte.to_N b)
  | None => 0
  end.

Definition is4 (a : tcpip.Address) : bool := bool_decide (length a = 4%nat).
Definition is16 (a : tcpip.Address) : bool := bool_decide (length a = 16%nat).

(** The usual classes of RFC 1122, RFC 5771 and RFC 4291. *)
Definition headerPkg : header.Pkg :=
  {| header.IPv4ProtocolNumber := 2048;
     header.IPv4Broadcast := [xff; xff; xff; xff];
     header.IsV4MulticastAddress a :=
       is4 a && (Z.land (byteAt a 0) 240 =? 224);
     header.IsV6MulticastAddress a := is16 a && (byteAt a 0 =? 255);
     header.IsV4LoopbackAddress a := is4 a && (byteAt a 0 =? 127);
     header.IsV6LoopbackAddress a := is16 a && (toZ a =? 1);
     header.IsV6LinkLocalUnicastAddress a :=
       is16 a && (byteAt a 0 =? 254) && (Z.land (byteAt a 1) 192 =? 128);
     header.IsV6LinkLocalMulticastAddress a :=
       is16 a && (byteAt a 0 =? 255) && (Z.land (byteAt a 1) 15 =? 2) |}.

(** CIDR containment: same length and the same leading [Prefix] bits. *)
Definition subnetOps : tcpip.SubnetOps :=
  {| tcpip.Contains sn a :=
       let host := tcpip.BitLen a - tcpip.Prefix sn in
       bool_decide (length a = length (tcpip.ID sn))
       && (Z.shiftr (toZ a) host =? Z.shiftr (toZ (tcpip.ID sn)) host) |}.

(** Every constructed route passes validation; none is a broadcast. *)
Definition routePkg : RoutePkg :=
  {| constructAndValidateRoute netProto ep localAddressNIC outgoingNIC
       gateway localAddr remoteAddr handleLocal multicastLoop mtu :=
       Some (makeRoute netProto gateway localAddr remoteAddr outgoingNIC
                       localAddressNIC ep handleLocal multicastLoop mtu);
     IsOutboundBroadcast _ := false |}.

(** A NIC that owns the addresses [addrs], for every protocol; an address
    endpoint is named by the position of its address. *)
Definition indexOf (a : tcpip.Address) (addrs : list tcpip.Address) : option Z :=
  (fun p => Z.of_nat (fst p)) <$> list_find (fun x => x = a) addrs.

Definition nicWith (id : tcpip.NICID) (name : string) (ep : LinkEndpoint)
    (primary : option CoordinatorNIC) (enabled : bool)
    (addrs : list tcpip.Address) : nic.t :=
  {| nic.id := id;
     nic.name := name;
     nic.NetworkLinkEndpoint := ep;
     nic.Primary := primary;
     nic.Enabled := enabled;
     nic.forwarding _ := tcpip.Ok false;
     nic.primaryEndpoint _ _ _ := if addrs is [] then None else Some 0;
     nic.findEndpoint _ a _ := indexOf a addrs;
     nic.getAddressOrCreateTempInner _ a _ _ := indexOf a addrs;
     nic.hasAddress _ a := bool_decide (a ∈ addrs);
     nic.CheckLocalAddress _ a := bool_decide (a ∈ addrs) |}.

(** NIC operations that succeed; [delNIC] is what the coordinator
    answers. *)
Definition nicPkg (delNIC : option tcpip.Error) : NICPkg :=
  {| newNIC _ id ep opts :=
       nicWith id (NICOptions.Name opts) ep None false [];
     setForwarding n _ _ := (n, tcpip.Ok false);
     enable n :=
       (nic.mk (nic.id n) (nic.name n) (nic.NetworkLinkEndpoint n)
               (nic.Primary n) true (nic.forwarding n) (nic.primaryEndpoint n)
               (nic.findEndpoint n) (nic.getAddressOrCreateTempInner n)
               (nic.hasAddress n) (nic.CheckLocalAddress n), None);
     remove n closeLinkEndpoint :=
       (if closeLinkEndpoint then Some (nic.NetworkLinkEndpoint n) else None, None);
     DelNIC _ _ := delNIC |}.

(** [range] in key order. *)
Definition goRuntime : GoRuntime :=
  {| rangeNICs := map_to_list;
     rangeNICs_perm m := reflexivity (map_to_list m);
     rangeProtos := elements;
     rangeProtos_perm X := reflexivity (elements X) |}.

Definition ipv4 : NetworkProtocol.t := NetworkProtocol.mk 2048.

Definition stackWith (handleLocal : bool) (nics : gmap Z nic.t)
    (routes : tcpip.RouteList) : Stack :=
  {| transportProtocols := ∅;
     networkProtocols := {[ 2048 := ipv4 ]};
     rawFactory := None;
     routeTable := routes;
     nics := nics;
     defaultForwardingEnabled := ∅;
     nicIDGen := 0;
     handleLocal := handleLocal |}.

Definition route (a : tcpip.Address) (prefix : Z) (nicID : tcpip.NICID)
  : tcpip.Route :=
  tcpip.mkRoute (tcpip.mkSubnet a prefix) [] nicID [] 0.

(** Routes, NICs and stacks of the examples. *)
Definition r0 : tcpip.Route := route [x00; x00; x00; x00] 0 1.
Definition r8 : tcpip.Route := route [x0a; x00; x00; x00] 8 7.
Definition r8' : tcpip.Route := route [x0b; x00; x00; x00] 8 2.
Definition r16 : tcpip.Route := route [x0a; x01; x00; x00] 16 3.
Definition r24 : tcpip.Route := route [xc0; xa8; x01; x00] 24 9.

Definition addr10 : tcpip.Address := [x0a; x00; x00; x01].
Definition addrLoopback : tcpip.Address := [x7f; x00; x00; x01].
Definition addrMulticast : tcpip.Address := [xe0; x00; x00; x01].

Definition eth0 : nic.t := nicWith 1 "eth0" 100 None true [addr10].
Definition lo : nic.t := nicWith 2 "lo" 101 None true [addrLoopback].
(** A NIC attached to the coordinator 50. *)
Definition eth7 : nic.t := nicWith 7 "eth7" 107 (Some 50) true [addr10].

Definition stackEth0 : Stack := stackWith false {[ 1 := eth0 ]} [].
Definition stackLocal : Stack := stackWith true {[ 1 := eth0; 2 := lo ]} [].
Definition stackEth7 : Stack := stackWith false {[ 7 := eth7 ]} [r24; r8].

End sample.

(** ** More operations of the Stack *)

Definition nic_set_name (name : string) (n : nic.t) : nic.t :=
  nic.mk (nic.id n) name (nic.NetworkLinkEndpoint n) (nic.Primary n)
         (nic.Enabled n) (nic.forwarding n) (nic.primaryEndpoint n)
         (nic.findEndpoint n) (nic.getAddressOrCreateTempInner n)
         (nic.hasAddress n) (nic.CheckLocalAddress n).

Definition nic_set_Primary (primary : option CoordinatorNIC) (n : nic.t) : nic.t :=
  nic.mk (nic.id n) (nic.name n) (nic.NetworkLinkEndpoint n) primary
         (nic.Enabled n) (nic.forwarding n) (nic.primaryEndpoint n)
         (nic.findEndpoint n) (nic.getAddressOrCreateTempInner n)
         (nic.hasAddress n) (nic.CheckLocalAddress n).

Definition set_defaultForwardingEnabled (d : gset Z) (s : Stack) : Stack :=
  mkStack (transportProtocols s) (networkProtocols s) (rawFactory s)
          (routeTable s) (nics s) d (nicIDGen s) (handleLocal s).

(** The [CoordinatorNIC] interface of a link endpoint: the type assertion
    [NetworkLinkEndpoint.(CoordinatorNIC)] and [AddNIC]. *)
Class CoordinatorPkg := {
  asCoordinatorNIC : LinkEndpoint -> option CoordinatorNIC;
  AddNIC : CoordinatorNIC -> nic.t -> option tcpip.Error
}.

Section MoreOperations.

Context `{!NICPkg} `{!CoordinatorPkg} `{!GoRuntime}.

Definition NewEndpoint (s : Stack) (transport network : Z)
    (waiterQueue : WaiterQueue) : tcpip.result Endpoint :=
  match transportProtocols s !! transport with
  | None => tcpip.Err tcpip.ErrUnknownProtocol
  | Some t => TransportProtocol.NewEndpoint t network waiterQueue
  end.

Definition NetworkProtocolInstance (s : Stack) (num : Z)
  : option NetworkProtocol.t :=
  networkProtocols s !! num.

Definition TransportProtocolInstance (s : Stack) (num : Z)
  : option TransportProtocol.t :=
  transportProtocols s !! num.

Definition GetNICByID (s : Stack) (id : tcpip.NICID) : tcpip.result nic.t :=
  match nics s !! id with
  | None => tcpip.Err tcpip.ErrNoSuchFile
  | Some n => tcpip.Ok n
  end.

(** Every NIC is created around a [LinkEndpoint], so the type assertion of
    [GetLinkEndpointByName] holds; [None] is the nil result. *)
Definition GetLinkEndpointByName (s : Stack) (name : string)
  : option LinkEndpoint :=
  match List.find (fun '(_, n) => bool_decide (nic.Name n = name))
                  (rangeNICs (nics s)) with
  | Some (_, n) => Some (nic.NetworkLinkEndpoint n)
  | None => None
  end.

Definition EnableNIC (s : Stack) (id : tcpip.NICID)
  : Stack * option tcpip.Error :=
  match nics s !! id with
  | None => (s, Some tcpip.ErrUnknownNICID)
  | Some n =>
      let '(n', err) := enable n in
      (set_nics (<[id := n']> (nics s)) s, err)
  end.

Definition SetNICCoordinator (s : Stack) (id mid : tcpip.NICID)
  : Stack * option tcpip.Error :=
  match nics s !! id with
  | None => (s, Some tcpip.ErrUnknownNICID)
  | Some n =>
      match asCoordinatorNIC (nic.NetworkLinkEndpoint n) with
      | Some _ => (s, Some tcpip.ErrNoSuchFile)
      | None =>
          match nics s !! mid with
          | None => (s, Some tcpip.ErrUnknownNICID)
          | Some m =>
              match asCoordinatorNIC (nic.NetworkLinkEndpoint m) with
              | None => (s, Some tcpip.ErrNotSupported)
              | Some b =>
                  match AddNIC b n with
                  | Some err => (s, Some err)
                  | None =>
                      (set_nics (<[id := nic_set_Primary (Some b) n]> (nics s)) s,
                       None)
                  end
              end
          end
      end
  end.

Definition SetNICName (s : Stack) (id : tcpip.NICID) (name : string)
  : Stack * option tcpip.Error :=
  match nics s !! id with
  | None => (s, Some tcpip.ErrUnknownNICID)
  | Some n => (set_nics (<[id := nic_set_name name n]> (nics s)) s, None)
  end.

Definition FindNICNameFromID (s : Stack) (id : tcpip.NICID) : string :=
  match nics s !! id with
  | None => EmptyString
  | Some n => nic.Name n
  end.

Definition SetNICForwarding (s : Stack) (id : tcpip.NICID) (protocol : Z)
    (enable_ : bool) : Stack * tcpip.result bool :=
  match nics s !! id with
  | None => (s, tcpip.Err tcpip.ErrUnknownNICID)
  | Some n =>
      let '(n', res) := setForwarding n protocol enable_ in
      (set_nics (<[id := n']> (nics s)) s, res)
  end.

Definition NICForwarding (s : Stack) (id : tcpip.NICID) (protocol : Z)
  : tcpip.result bool :=
  match nics s !! id with
  | None => tcpip.Err tcpip.ErrUnknownNICID
  | Some n => nic.forwarding n protocol
  end.

(** The loop of [SetForwardingDefaultAndAllNICs] over the NICs still to
    visit: the NIC map as the calls leave it and the error returned from
    inside the loop, if any. *)
Fixpoint setForwardingAllNICs (protocol : Z) (enable_ : bool) (doneOnce : bool)
    (m : gmap Z nic.t) (l : list (Z * nic.t))
  : Exec (gmap Z nic.t * option tcpip.Error) :=
  match l with
  | [] => Ret (m, None)
  | (id, n) :: rest =>
      match setForwarding n protocol enable_ with
      | (n', tcpip.Err err) =>
          if doneOnce then Panic "nic.setForwarding"
          else Ret (<[id := n']> m, Some err)
      | (n', tcpip.Ok _) =>
          setForwardingAllNICs protocol enable_ true (<[id := n']> m) rest
      end
  end.

Definition SetForwardingDefaultAndAllNICs (s : Stack) (protocol : Z)
    (enable_ : bool) : Exec (Stack * option tcpip.Error) :=
  out <-! setForwardingAllNICs protocol enable_ false (nics s)
            (rangeNICs (nics s));
  match out with
  | (m, Some err) => Ret (set_nics m s, Some err)
  | (m, None) =>
      let d :=
        if enable_ then {[ protocol ]} ∪ defaultForwardingEnabled s
        else defaultForwardingEnabled s ∖ {[ protocol ]} in
      Ret (set_defaultForwardingEnabled d (set_nics m s), None)
  end.

(** The loop of [ReplaceConfig] over the NICs of the loaded stack. *)
Fixpoint replaceConfig_nics (s : Stack) (l : list (Z * nic.t)) : Exec Stack :=
  match l with
  | [] => Ret s
  | (id, n) :: rest =>
      let '(s', next) := NextNICID (set_nics (<[id := n]> (nics s)) s) in
      _ <-! next;
      replaceConfig_nics s' rest
  end.

(** [ReplaceConfig]; [st] is a pointer that may be nil.  The fields
    [tables] and [nftables] are outside the record, as is the back pointer
    [nic.stack]. *)
Definition ReplaceConfig (s : Stack) (st : option Stack) : Exec Stack :=
  match st with
  | None => Panic "stack.Stack cannot be nil when netstack s/r is enabled"
  | Some st =>
      let s1 := SetRouteTable s (GetRouteTable st) in
      replaceConfig_nics (set_nics ∅ s1) (rangeNICs (nics st))
  end.

(** [NewRouteForMulticast]; [None] is the nil result. *)
Definition NewRouteForMulticast `{!RoutePkg} (s : Stack) (nicID : tcpip.NICID)
    (remoteAddr : tcpip.Address) (netProto : Z) : option Route :=
  match nics s !! nicID with
  | None => None
  | Some n =>
      if negb (nic.Enabled n) then None
      else
        match getAddressEP n [] remoteAddr [] netProto with
        | Some addressEndpoint =>
            constructAndValidateRoute netProto addressEndpoint n n []
              [] remoteAddr (handleLocal s) false 0
        | None => None
        end
  end.

End MoreOperations.

(** ** Invariants of the NIC map *)

(** Every NIC is stored under its own id, and no id is 0. *)
Definition nicsWellFormed (s : Stack) : Prop :=
  forall id n, nics s !! id = Some n -> nic.id n = id /\ id <> 0.

(** No two NICs share a name other than the empty one. *)
Definition namesUnique (s : Stack) : Prop :=
  forall i j n m,
    nics s !! i = Some n -> nics s !! j = Some m ->
    nic.Name n <> EmptyString -> nic.Name n = nic.Name m -> i = j.

(** What [CreateNICWithOptions] relies on from nic.go: a new NIC carries
    the id and the name it was created with, and [setForwarding] and
    [enable] change neither. *)
Definition keepsIdentity `{!NICPkg} : Prop :=
  (forall s id ep opts,
     nic.id (newNIC s id ep opts) = id /\
     nic.Name (newNIC s id ep opts) = NICOptions.Name opts) /\
  (forall n protocol enable_,
     nic.id (setForwarding n protocol enable_).1 = nic.id n /\
     nic.Name (setForwarding n protocol enable_).1 = nic.Name n) /\
  (forall n,
     nic.id (enable n).1 = nic.id n /\ nic.Name (enable n).1 = nic.Name n).

(** The entries that the loop of [FindRoute] passes over before it looks
    at addresses: the destination does not contain the (non-empty) remote
    address, or the entry's NIC is not in the map or not enabled. *)
Definition routeUnusable `{!tcpip.SubnetOps} (s : Stack)
    (remoteAddr : tcpip.Address) (route : tcpip.Route) : bool :=
  (negb (bool_decide (tcpip.BitLen remoteAddr = 0))
   && negb (tcpip.Contains (tcpip.Destination route) remoteAddr))
  || match nics s !! tcpip.NIC route with
     | None => true
     | Some n => negb (nic.Enabled n)
     end.

(** ** TransportEndpointInfo *)

(** Modelled from the spec: [TransportEndpointID] is declared in
    registration.go.  "TransportEndpointID: {local address, local port,
    remote address, remote port}". *)
Record TransportEndpointID := mkTransportEndpointID {
  LocalPort : Z;
  LocalAddress : tcpip.Address;
  RemotePort : Z;
  RemoteAddress : tcpip.Address
}.

Record TransportEndpointInfo := mkTransportEndpointInfo {
  NetProto : tcpip.NetworkProtocolNumber;
  TransProto : tcpip.TransportProtocolNumber;
  ID : TransportEndpointID;
  BindNICID : tcpip.NICID;
  BindAddr : tcpip.Address;
  RegisterNICID : tcpip.NICID
}.

(** [tcpip.FullAddress], declared in tcpip.go; [AddrNetProtoLocked] reads
    and replaces its [Addr] and hands the other fields on. *)
Record FullAddress := mkFullAddress {
  FullAddress_NIC : tcpip.NICID;
  Addr : tcpip.Address;
  Port : Z;
  LinkAddr : list byte
}.

Definition FullAddress_zero : FullAddress := mkFullAddress 0 [] 0 [].

Definition set_Addr (a : tcpip.Address) (addr : FullAddress) : FullAddress :=
  mkFullAddress (FullAddress_NIC addr) a (Port addr) (LinkAddr addr).

(** [*tcpip.ErrInvalidEndpointState], an error kind of its own. *)
Definition ErrInvalidEndpointState : tcpip.Error := tcpip.ErrOther 0.

(** What [AddrNetProtoLocked] uses from the packages header and tcpip:
    constants, the test for IPv4-mapped addresses, [AddrFrom4Slice], which
    may panic, and [Address.Unspecified]. *)
Class AddrPkg := {
  IPv6ProtocolNumber : tcpip.NetworkProtocolNumber;
  IPv4AddressSizeBits : Z;
  IPv6AddressSizeBits : Z;
  IPv4AddressSize : nat;
  IPv6AddressSize : nat;
  IsV4MappedAddress : tcpip.Address -> bool;
  IPv4Any : tcpip.Address;
  IPv4Loopback : tcpip.Address;
  IPv6Loopback : tcpip.Address;
  AddrFrom4Slice : list byte -> Exec tcpip.Address;
  Unspecified : tcpip.Address -> bool
}.

Section AddrNetProto.

Context `{!header.Pkg} `{!AddrPkg}.

(** The first [switch] of [AddrNetProtoLocked]: the protocol to use and the
    address with an IPv4-mapped address unwrapped. *)
Definition addrNetProto_unwrap (t : TransportEndpointInfo) (addr : FullAddress)
  : Exec (tcpip.NetworkProtocolNumber * FullAddress) :=
  if bool_decide (tcpip.BitLen (Addr addr) = IPv4AddressSizeBits) then
    Ret (header.IPv4ProtocolNumber, addr)
  else if bool_decide (tcpip.BitLen (Addr addr) = IPv6AddressSizeBits) then
    if IsV4MappedAddress (Addr addr) then
      a <-! AddrFrom4Slice (drop (IPv6AddressSize - IPv4AddressSize) (Addr addr));
      Ret (header.IPv4ProtocolNumber,
           set_Addr (if bool_decide (a = IPv4Any) then [] else a) addr)
    else Ret (NetProto t, addr)
  else Ret (NetProto t, addr).

(** The second [switch]: an address of the other family than the local
    address. *)
Definition addrNetProto_family (t : TransportEndpointInfo) (addr : FullAddress)
  : option tcpip.Error :=
  if bool_decide (tcpip.BitLen (LocalAddress (ID t)) = IPv4AddressSizeBits) then
    if bool_decide (tcpip.BitLen (Addr addr) = IPv6AddressSizeBits)
    then Some ErrInvalidEndpointState else None
  else if bool_decide (tcpip.BitLen (LocalAddress (ID t)) = IPv6AddressSizeBits) then
    if bool_decide (tcpip.BitLen (Addr addr) = IPv4AddressSizeBits)
    then Some tcpip.ErrNetworkUnreachable else None
  else None.

(** The replacement of an unset destination. *)
Definition addrNetProto_default (t : TransportEndpointInfo)
    (netProto : tcpip.NetworkProtocolNumber) (bind : bool) (addr : FullAddress)
  : FullAddress :=
  if negb bind && Unspecified (Addr addr) then
    if Unspecified (LocalAddress (ID t)) then
      if bool_decide (netProto = header.IPv4ProtocolNumber)
      then set_Addr IPv4Loopback addr
      else if bool_decide (netProto = IPv6ProtocolNumber)
           then set_Addr IPv6Loopback addr
           else addr
    else set_Addr (LocalAddress (ID t)) addr
  else addr.

Definition AddrNetProtoLocked (t : TransportEndpointInfo) (addr : FullAddress)
    (v6only bind : bool)
  : Exec (FullAddress * tcpip.NetworkProtocolNumber * option tcpip.Error) :=
  out <-! addrNetProto_unwrap t addr;
  let '(netProto, addr) := out in
  match addrNetProto_family t addr with
  | Some err => Ret (FullAddress_zero, 0, Some err)
  | None =>
      let addr := addrNetProto_default t netProto bind addr in
      if bool_decide (netProto = NetProto t) then Ret (addr, netProto, None)
      else if bool_decide (netProto = header.IPv4ProtocolNumber)
              && bool_decide (NetProto t = IPv6ProtocolNumber) then
        if v6only then Ret (FullAddress_zero, 0, Some tcpip.ErrHostUnreachable)
        else Ret (addr, netProto, None)
      else Ret (FullAddress_zero, 0, Some ErrInvalidEndpointState)
  end.

End AddrNetProto.

(** ** More implementations for the examples *)

Module sample2.

(** Link endpoints from 900 on are coordinators. *)
Definition coordinatorPkg : CoordinatorPkg :=
  {| asCoordinatorNIC ep := if 900 <=? ep then Some ep else None;
     AddNIC _ _ := None |}.

Definition addrPkg : AddrPkg :=
  {| IPv6ProtocolNumber := 34525;
     IPv4AddressSizeBits := 32;
     IPv6AddressSizeBits := 128;
     IPv4AddressSize := 4;
     IPv6AddressSize := 16;
     IsV4MappedAddress a :=
       bool_decide (take 12 a = [x00; x00; x00; x00; x00; x00; x00; x00;
                                 x00; x00; xff; xff]);
     IPv4Any := [x00; x00; x00; x00];
     IPv4Loopback := [x7f; x00; x00; x01];
     IPv6Loopback := [x00; x00; x00; x00; x00; x00; x00; x00;
                      x00; x00; x00; x00; x00; x00; x00; x01];
     AddrFrom4Slice l :=
       if bool_decide (length l = 4%nat) then Ret l
       else Panic "bad address length";
     Unspecified a := forallb (fun b => bool_decide (b = x00)) a |}.

(** A bridge NIC, whose link endpoint is a coordinator. *)
Definition br0 : nic.t := sample.nicWith 3 "br0" 900 None true [].

Definition stackBridge : Stack :=
  sample.stackWith false {[ 1 := sample.eth0; 3 := br0 ]} [sample.r8].

Definition mapped10 : tcpip.Address :=
  [x00; x00; x00; x00; x00; x00; x00; x00; x00; x00; xff; xff;
   x0a; x00; x00; x01].

Definition udp6 (local : tcpip.Address) : TransportEndpointInfo :=
  mkTransportEndpointInfo 34525 17 (mkTransportEndpointID 0 local 0 []) 0 [] 0.

Definition udp4 (local : tcpip.Address) : TransportEndpointInfo :=
  mkTransportEndpointInfo 2048 17 (mkTransportEndpointID 0 local 0 []) 0 [] 0.

(** The route [r8] with a gateway: the same lookup key. *)
Definition r8gw : tcpip.Route :=
  tcpip.mkRoute (tcpip.mkSubnet [x0a; x00; x00; x00] 8)
                [x0a; x00; x00; xfe] 7 [] 1500.

Definition stackRoutes : Stack := sample.stackWith false ∅ [sample.r16; sample.r8; sample.r0].

Definition stackTwo : Stack :=
  sample.stackWith false {[ 1 := sample.eth0; 7 := sample.eth7 ]}
                   [sample.r8; sample.r0].

(** A stack whose id generator is exhausted. *)
Definition stackFull : Stack := set_nicIDGen (2 ^ 31 - 1) sample.stackEth0.

Definition twoStacks : gmap Z Stack :=
  {[ 1 := sample.stackEth7; 2 := sample.stackWith false ∅ [] ]}.

Definition addr8888 : tcpip.Address := [x08; x08; x08; x08].

End sample2.

(** ** The route table as Go links it

    [tcpip.RouteList] is an intrusive list: stack.go calls [Next] on a
    [*tcpip.Route], hands [InsertBefore], [PushBack] and [Remove] a
    [*tcpip.Route], and [removeRoutesLocked] passes [*route], a copy of
    the node with its links, to the predicate.  A predicate that compares
    that copy with Go's [==] compares the links as well.  This view keeps
    the address of every node, so that such a predicate can be written;
    the fields of its nodes, in order, are the table of component A. *)

Module node.

(** Modelled from the spec: the list entry that [tcpip.Route] embeds is
    declared with it in tcpip.go ("List of routes ordered by prefix.  A
    doubly-linked list is convenient for in-place removal during
    iteration").  It holds the addresses of the next and of the previous
    node, nil at the two ends of the list and in a route that is in no
    list. *)
Record RouteEntry := mkRouteEntry {
  next : option Z;
  prev : option Z
}.

#[global] Instance RouteEntry_eq_dec : EqDecision RouteEntry.
Proof. solve_decision. Defined.

(** A Go value of type [tcpip.Route]: the entry and the fields.  Go's [==]
    on two of them compares both. *)
Record Route := mkRoute {
  entry : RouteEntry;
  fields : tcpip.Route
}.

#[global] Instance Route_eq_dec : EqDecision Route.
Proof. solve_decision. Defined.

(** The entry of a route that is in no list. *)
Definition unlinked : RouteEntry := mkRouteEntry None None.

(** The nodes from [Front] along [Next]: the address of each and its
    fields.  The links follow from the order. *)
Definition RouteList := list (Z * tcpip.Route).

(** The loop of [addRouteLocked], from the node [n] on; [route] is the
    address of the new node with its fields. *)
Fixpoint addRouteLocked_from (routePrefix : Z) (route : Z * tcpip.Route)
    (n : RouteList) : RouteList :=
  match n with
  | [] => [route]                                  (* PushBack(route) *)
  | e :: rest =>
      if tcpip.Prefix (tcpip.Destination e.2) <? routePrefix
      then route :: e :: rest                      (* InsertBefore(n, route) *)
      else e :: addRouteLocked_from routePrefix route rest
  end.

Definition addRouteLocked (route : Z * tcpip.Route) (table : RouteList)
  : RouteList :=
  let routePrefix := tcpip.Prefix (tcpip.Destination route.2) in
  addRouteLocked_from routePrefix route table.

(** [AddRoute(route tcpip.Route)]: the parameter is a copy of the caller's
    value in a cell of its own, at the address [p]; [&route] is linked
    into the list, which overwrites the entry of the copy. *)
Definition AddRoute (table : RouteList) (p : Z) (route : Route) : RouteList :=
  addRouteLocked (p, fields route) table.

(** The loop of [removeRoutesLocked].  When the predicate sees a node, the
    nodes behind it are untouched, so its [next] is the node that follows,
    and its [prev] is the last node the loop has kept: [Remove] of a node
    gives its [prev] to the node behind it. *)
Fixpoint removeRoutesLocked_from (match_ : Route -> bool) (count : Z)
    (kept : option Z) (rt : RouteList) : RouteList * Z :=
  match rt with
  | [] => ([], count)
  | (p, route) :: rest =>
      if match_ (mkRoute (mkRouteEntry (fst <$> head rest) kept) route)
      then removeRoutesLocked_from match_ (wrap_int (count + 1)) kept rest
      else
        let '(rest', c) := removeRoutesLocked_from match_ count (Some p) rest in
        ((p, route) :: rest', c)
  end.

Definition removeRoutesLocked (match_ : Route -> bool) (table : RouteList)
  : RouteList * Z :=
  removeRoutesLocked_from match_ 0 None table.

Definition RemoveRoutes (table : RouteList) (match_ : Route -> bool)
  : RouteList * Z :=
  removeRoutesLocked match_ table.

(** [GetRouteTable] appends [*r] for every node: the copies carry the
    links. *)
Fixpoint GetRouteTable_from (before : option Z) (rt : RouteList) : list Route :=
  match rt with
  | [] => []
  | (p, route) :: rest =>
      mkRoute (mkRouteEntry (fst <$> head rest) before) route
      :: GetRouteTable_from (Some p) rest
  end.

Definition GetRouteTable (table : RouteList) : list Route :=
  GetRouteTable_from None table.

End node.

(** A route value as a caller makes it, in no list. *)
Definition fresh (r : tcpip.Route) : node.Route :=
  node.mkRoute node.unlinked r.

(** * Properties *)

(** ** The route table *)

Section RouteTableFacts.

Implicit Types (T n : tcpip.RouteList) (r e : tcpip.Route) (s : Stack).


(** The insertion splits the list from the cursor on in two and puts the
    route in between; the front part has no prefix below the route's, and
    the back part starts with one that is. *)
Lemma addRouteLocked_from_split p r n :
  exists l1 l2,
    n = l1 ++ l2 /\
    addRouteLocked_from p r n = l1 ++ r :: l2 /\
    Forall (fun e => p <= tcpip.Prefix (tcpip.Destination e)) l1 /\
    (forall e, head l2 = Some e -> tcpip.Prefix (tcpip.Destination e) < p).
Proof.
  induction n as [|e next IH]; simpl.
  - exists [], []. repeat split; [constructor | discriminate].
  - destruct (Z.ltb_spec (tcpip.Prefix (tcpip.Destination e)) p) as [Hlt|Hge].
    + exists [], (e :: next). repeat split; [constructor|].
      intros e' [= <-]. exact Hlt.
    + destruct IH as (l1 & l2 & -> & -> & Hall & Hhd).
      exists (e :: l1), l2. repeat split; [|exact Hhd].
      constructor; [exact Hge | exact Hall].
Qed.

Lemma addRouteLocked_from_elem p r n x :
  x ∈ addRouteLocked_from p r n <-> x = r \/ x ∈ n.
Proof.
  destruct (addRouteLocked_from_split p r n) as (l1 & l2 & -> & -> & _).
  rewrite !elem_of_app, elem_of_cons. tauto.
Qed.

Lemma sortedByPrefix_cons e n :
  sortedByPrefix (e :: n) <-> Forall (prefix_ge e) n /\ sortedByPrefix n.
Proof. apply StronglySorted_cons. Qed.

Lemma addRouteLocked_sorted r T :
  sortedByPrefix T -> sortedByPrefix (addRouteLocked r T).
Proof.
  unfold addRouteLocked.
  induction T as [|e next IH]; simpl; intros Hs.
  - apply sortedByPrefix_cons. split; constructor.
  - apply sortedByPrefix_cons in Hs as [Hall Hnext].
    destruct (Z.ltb_spec (tcpip.Prefix (tcpip.Destination e))
                         (tcpip.Prefix (tcpip.Destination r))) as [Hlt|Hge].
    + apply sortedByPrefix_cons. split.
      * constructor; [unfold prefix_ge; lia|].
        eapply Forall_impl; [exact Hall|].
        unfold prefix_ge. intros; lia.
      * apply sortedByPrefix_cons. auto.
    + apply sortedByPrefix_cons. split; [|auto].
      apply Forall_forall. intros x Hx.
      apply addRouteLocked_from_elem in Hx as [->|Hx]; [exact Hge|].
      rewrite Forall_forall in Hall. auto.
Qed.

Lemma setRouteTable_sorted_from acc new :
  sortedByPrefix acc ->
  sortedByPrefix (foldl (fun acc r => addRouteLocked r acc) acc new).
Proof.
  revert acc. induction new as [|r new IH]; simpl; intros acc Hacc; [done|].
  apply IH, addRouteLocked_sorted, Hacc.
Qed.

Lemma setRouteTable_sorted new : sortedByPrefix (setRouteTable new).
Proof. apply setRouteTable_sorted_from. constructor. Qed.

Lemma runRouteOps_snoc s ops op :
  runRouteOps s (ops ++ [op]) = runRouteOp (runRouteOps s ops) op.
Proof. unfold runRouteOps. by rewrite foldl_app. Qed.


(** The list that is left does not depend on the counter. *)
Lemma removeRoutesLocked_from_fst match_ count T :
  (removeRoutesLocked_from match_ count T).1 =
    List.filter (fun r => negb (match_ r)) T.
Proof.
  revert count. induction T as [|r next IH]; simpl; intros count; [done|].
  destruct (match_ r); simpl; [apply IH|].
  specialize (IH count).
  destruct (removeRoutesLocked_from match_ count next). simpl in *. by f_equal.
Qed.

Lemma filter_addRouteLocked_from p r n :
  List.filter (fun x => negb (bool_decide (x = r))) (addRouteLocked_from p r n) =
  List.filter (fun x => negb (bool_decide (x = r))) n.
Proof.
  destruct (addRouteLocked_from_split p r n) as (l1 & l2 & -> & -> & _).
  rewrite !List.filter_app. simpl.
  by rewrite bool_decide_eq_true_2.
Qed.

Lemma filter_absent r T :
  r ∉ T -> List.filter (fun x => negb (bool_decide (x = r))) T = T.
Proof.
  induction T as [|e T IH]; simpl; intros Hr; [done|].
  apply not_elem_of_cons in Hr as [Hne Hr].
  rewrite bool_decide_eq_false_2 by congruence. simpl. by rewrite IH.
Qed.


Lemma removeNICLocked_routes_filter id T :
  removeNICLocked_routes id T =
    List.filter (fun r => negb (bool_decide (tcpip.NIC r = id))) T.
Proof.
  induction T as [|r T IH]; simpl; [done|].
  destruct (bool_decide (tcpip.NIC r = id)); simpl; by rewrite IH.
Qed.

Lemma sortedByPrefix_filter (f : tcpip.Route -> bool) T :
  sortedByPrefix T -> sortedByPrefix (List.filter f T).
Proof.
  induction T as [|e T IH]; simpl; intros Hs; [exact Hs|].
  apply sortedByPrefix_cons in Hs as [Hall Hs].
  destruct (f e); [|auto].
  apply sortedByPrefix_cons. split; [|auto].
  apply Forall_forall. intros x Hx.
  apply list_elem_of_In, filter_In in Hx as [Hx _].
  rewrite Forall_forall in Hall. by apply Hall, list_elem_of_In.
Qed.

Lemma tableStep_sorted T T' :
  tableStep T T' -> sortedByPrefix T -> sortedByPrefix T'.
Proof.
  intros Hstep Hs. destruct Hstep.
  - by apply addRouteLocked_sorted.
  - apply setRouteTable_sorted.
  - unfold removeRoutesLocked. rewrite removeRoutesLocked_from_fst.
    by apply sortedByPrefix_filter.
  - apply addRouteLocked_sorted.
    unfold removeRoutesLocked. rewrite removeRoutesLocked_from_fst.
    by apply sortedByPrefix_filter.
  - rewrite removeNICLocked_routes_filter. by apply sortedByPrefix_filter.
Qed.

(** Invariant 3 of the data model: every table the stack can hold is
    sorted longest prefix first. *)
Lemma reachableTable_sorted T : reachableTable T -> sortedByPrefix T.
Proof.
  induction 1 as [|T T' _ IH Hstep]; [constructor|].
  by apply (tableStep_sorted T T').
Qed.

End RouteTableFacts.

Section RouteTableClaims.

Implicit Types (T : tcpip.RouteList) (r e : tcpip.Route) (s : Stack).

(** C3.  Whatever sequence of [AddRoute] and [SetRouteTable] calls is
    made, [GetRouteTable] returns a list sorted by non-increasing
    destination prefix length, for every table the stack starts from
    that is itself sorted (as the empty table of [New] and every table
    built by these calls is) and, if [SetRouteTable] is among the calls,
    for any starting table at all. *)
Theorem route_table_stays_sorted s (ops : list RouteOp) :
  sortedByPrefix (routeTable s) \/ existsb isSetRouteTable ops = true ->
  sortedByPrefix (GetRouteTable (runRouteOps s ops)).
Proof.
  induction ops as [|op ops IH] using rev_ind; intros Hstart.
  - destruct Hstart as [Hs|Hset]; [exact Hs | discriminate].
  - rewrite runRouteOps_snoc.
    destruct op as [r|table]; simpl.
    + apply addRouteLocked_sorted, IH.
      destruct Hstart as [Hs|Hset]; [by left|right].
      rewrite existsb_app in Hset. simpl in Hset.
      by rewrite !orb_false_r in Hset.
    + apply setRouteTable_sorted.
Qed.

(** C4, as amended.  In a sorted table [AddRoute] puts the route after
    every entry whose prefix is at least as long as its own and before
    every entry whose prefix is strictly shorter; the entries that were
    there keep their order. *)
Theorem AddRoute_position s r :
  sortedByPrefix (routeTable s) ->
  exists l1 l2,
    routeTable s = l1 ++ l2 /\
    GetRouteTable (AddRoute s r) = l1 ++ r :: l2 /\
    Forall (fun e => tcpip.Prefix (tcpip.Destination r)
                     <= tcpip.Prefix (tcpip.Destination e)) l1 /\
    Forall (fun e => tcpip.Prefix (tcpip.Destination e)
                     < tcpip.Prefix (tcpip.Destination r)) l2.
Proof.
  intros Hs. simpl. unfold addRouteLocked.
  destruct (addRouteLocked_from_split
              (tcpip.Prefix (tcpip.Destination r)) r (routeTable s))
    as (l1 & l2 & HT & Hadd & Hl1 & Hhd).
  exists l1, l2. repeat split; [exact HT | exact Hadd | exact Hl1 |].
  rewrite HT in Hs. apply StronglySorted_app in Hs as (_ & _ & Hs2).
  destruct l2 as [|e l2]; [constructor|].
  pose proof (Hhd e eq_refl) as He.
  apply sortedByPrefix_cons in Hs2 as [Hall _].
  constructor; [exact He|].
  eapply Forall_impl; [exact Hall|]. unfold prefix_ge. intros; lia.
Qed.


(** With a predicate that compares the five fields, [AddRoute(r)] followed
    by [RemoveRoutes] gives back a table that held no entry with the
    fields of [r]. *)
Lemma AddRoute_RemoveRoutes_fields s r :
  r ∉ routeTable s ->
  GetRouteTable (RemoveRoutes (AddRoute s r) (fun x => bool_decide (x = r))).1
    = routeTable s.
Proof.
  intros Hr. unfold RemoveRoutes, removeRoutesLocked.
  pose proof (removeRoutesLocked_from_fst (fun x => bool_decide (x = r)) 0
                (routeTable (AddRoute s r))) as Hfst.
  destruct (removeRoutesLocked_from _ 0 (routeTable (AddRoute s r))) as [rt c].
  simpl in *. subst rt. unfold addRouteLocked.
  rewrite filter_addRouteLocked_from. by apply filter_absent.
Qed.

End RouteTableClaims.

(** ** The linked view of the route table *)

Section RouteListLinks.

Implicit Types (T : node.RouteList) (r : node.Route) (x e : tcpip.Route).

(** The fields of the nodes are the table of component A: insertion and
    removal by a predicate of the fields commute with forgetting the
    addresses. *)
Lemma node_addRouteLocked_from_fields k (n : Z * tcpip.Route) T :
  (node.addRouteLocked_from k n T).*2 = addRouteLocked_from k n.2 T.*2.
Proof.
  induction T as [|e T IH]; [done|].
  cbn [node.addRouteLocked_from fmap list_fmap addRouteLocked_from].
  destruct (tcpip.Prefix (tcpip.Destination e.2) <? k); [done|].
  cbn [fmap list_fmap]. f_equal. exact IH.
Qed.

Lemma node_AddRoute_fields T p r :
  (node.AddRoute T p r).*2 = addRouteLocked (node.fields r) T.*2.
Proof. apply node_addRouteLocked_from_fields. Qed.

Lemma node_removeRoutesLocked_from_fields (f : tcpip.Route -> bool) c kept T :
  ((node.removeRoutesLocked_from (fun v => f (node.fields v)) c kept T).1.*2,
   (node.removeRoutesLocked_from (fun v => f (node.fields v)) c kept T).2)
  = removeRoutesLocked_from f c T.*2.
Proof.
  revert c kept. induction T as [|[p x] T IH]; intros c kept; [done|].
  rewrite fmap_cons.
  cbn [node.removeRoutesLocked_from removeRoutesLocked_from snd node.fields].
  destruct (f x); [apply IH|].
  specialize (IH c (Some p)).
  destruct (node.removeRoutesLocked_from _ c (Some p) T) as [rest' c1].
  destruct (removeRoutesLocked_from f c T.*2) as [rest2 c2].
  cbn [fst snd] in *. rewrite fmap_cons. by injection IH as <- <-.
Qed.

Lemma node_RemoveRoutes_fields (f : tcpip.Route -> bool) T :
  ((node.RemoveRoutes T (fun v => f (node.fields v))).1.*2,
   (node.RemoveRoutes T (fun v => f (node.fields v))).2)
  = removeRoutesLocked f T.*2.
Proof. apply node_removeRoutesLocked_from_fields. Qed.

Lemma node_GetRouteTable_from_fields before T :
  node.fields <$> node.GetRouteTable_from before T = T.*2.
Proof.
  revert before. induction T as [|[p x] T IH]; intros before; [done|].
  cbn [node.GetRouteTable_from]. rewrite !fmap_cons. by rewrite IH.
Qed.

Lemma node_GetRouteTable_fields T :
  node.fields <$> node.GetRouteTable T = T.*2.
Proof. apply node_GetRouteTable_from_fields. Qed.

Lemma node_addRouteLocked_from_length k (n : Z * tcpip.Route) T :
  length (node.addRouteLocked_from k n T) = S (length T).
Proof.
  induction T as [|e T IH]; simpl; [done|].
  destruct (tcpip.Prefix (tcpip.Destination e.2) <? k); simpl; [done|].
  by rewrite IH.
Qed.

(** A predicate of the fields that holds of no entry removes nothing. *)
Lemma node_removeRoutesLocked_from_none (f : tcpip.Route -> bool) c kept T :
  (forall x, x ∈ T.*2 -> f x = false) ->
  node.removeRoutesLocked_from (fun v => f (node.fields v)) c kept T = (T, c).
Proof.
  revert kept. induction T as [|[p x] T IH]; simpl; intros kept Hall; [done|].
  rewrite (Hall x) by apply list_elem_of_here.
  rewrite IH; [done|]. intros y Hy. by apply Hall, list_elem_of_further.
Qed.

(** A predicate of the fields that holds of the new route and of no other
    entry removes the new node and nothing else. *)
Lemma node_removeRoutesLocked_from_added (f : tcpip.Route -> bool)
    k p x c kept T :
  f x = true ->
  (forall e, e ∈ T.*2 -> f e = false) ->
  node.removeRoutesLocked_from (fun v => f (node.fields v)) c kept
    (node.addRouteLocked_from k (p, x) T) = (T, wrap_int (c + 1)).
Proof.
  intros Hx. revert kept.
  induction T as [|[q e] T IH]; intros kept Hall.
  - simpl. by rewrite Hx.
  - change (node.addRouteLocked_from k (p, x) ((q, e) :: T))
      with (if tcpip.Prefix (tcpip.Destination e) <? k
            then (p, x) :: (q, e) :: T
            else (q, e) :: node.addRouteLocked_from k (p, x) T).
    destruct (tcpip.Prefix (tcpip.Destination e) <? k).
    + change (node.removeRoutesLocked_from (fun v => f (node.fields v)) c kept
                ((p, x) :: (q, e) :: T))
        with (if f x
              then node.removeRoutesLocked_from (fun v => f (node.fields v))
                     (wrap_int (c + 1)) kept ((q, e) :: T)
              else let '(rest', c0) :=
                     node.removeRoutesLocked_from (fun v => f (node.fields v))
                       c (Some p) ((q, e) :: T) in
                   ((p, x) :: rest', c0)).
      rewrite Hx. by apply node_removeRoutesLocked_from_none.
    + simpl. rewrite (Hall e) by apply list_elem_of_here.
      rewrite IH; [done|]. intros y Hy. by apply Hall, list_elem_of_further.
Qed.

(** Go's [==] against a value that is in no list: a node with a neighbour
    on either side is not equal to it. *)
Lemma node_removeRoutesLocked_from_linked r c kept T :
  node.entry r = node.unlinked ->
  is_Some kept \/ (2 <= length T)%nat ->
  node.removeRoutesLocked_from (fun v => bool_decide (v = r)) c kept T = (T, c).
Proof.
  intros Hr. revert kept.
  induction T as [|[p x] T IH]; intros kept Hlinked; [done|].
  simpl.
  rewrite bool_decide_eq_false_2.
  - rewrite IH; [done|]. left. by exists p.
  - intros <-. simpl in Hr. unfold node.unlinked in Hr.
    injection Hr as Hnext Hprev.
    destruct Hlinked as [[a ->]|Hlen]; [discriminate|].
    destruct T as [|[q y] T]; simpl in *; [lia | discriminate].
Qed.

(** C6, as amended.  Written with [Route.Equal], which compares the
    destination and the NIC: from a table that holds no entry equal to
    the route, [AddRoute(r)] followed by [RemoveRoutes] of the entries
    equal to [r] removes one node, the new one, and gives back the table
    as it was, node for node, so [GetRouteTable] returns what it returned
    before.  Written with Go's [==] on the route values, which also
    compares the links of the copy that the predicate is handed, and a
    route [r] that is in no list: the same holds of the empty table only;
    from any other table nothing is removed and the new node stays. *)
Theorem AddRoute_RemoveRoutes T (p : Z) r :
  ((forall x, x ∈ T.*2 -> tcpip.Equal x (node.fields r) = false) ->
   node.RemoveRoutes (node.AddRoute T p r)
     (fun v => tcpip.Equal (node.fields v) (node.fields r)) = (T, 1) /\
   node.GetRouteTable
     (node.RemoveRoutes (node.AddRoute T p r)
        (fun v => tcpip.Equal (node.fields v) (node.fields r))).1
     = node.GetRouteTable T) /\
  (node.entry r = node.unlinked ->
   node.RemoveRoutes (node.AddRoute [] p r) (fun v => bool_decide (v = r))
     = ([], 1) /\
   (T <> [] ->
    node.RemoveRoutes (node.AddRoute T p r) (fun v => bool_decide (v = r))
      = (node.AddRoute T p r, 0))).
Proof.
  split.
  - intros Hall.
    assert (node.RemoveRoutes (node.AddRoute T p r)
              (fun v => tcpip.Equal (node.fields v) (node.fields r)) = (T, 1))
      as Hrun.
    { unfold node.RemoveRoutes, node.removeRoutesLocked, node.AddRoute,
        node.addRouteLocked.
      rewrite (node_removeRoutesLocked_from_added
                 (fun e => tcpip.Equal e (node.fields r))); [done| |exact Hall].
      unfold tcpip.Equal. by rewrite !bool_decide_eq_true_2. }
    split; [exact Hrun|]. by rewrite Hrun.
  - intros Hr. split.
    + unfold node.RemoveRoutes, node.removeRoutesLocked, node.AddRoute,
        node.addRouteLocked. simpl.
      rewrite bool_decide_eq_true_2; [done|].
      destruct r as [en f]. simpl in *. by subst en.
    + intros Hne.
      unfold node.RemoveRoutes, node.removeRoutesLocked.
      apply node_removeRoutesLocked_from_linked; [exact Hr|]. right.
      unfold node.AddRoute, node.addRouteLocked.
      rewrite node_addRouteLocked_from_length.
      destruct T; [done | simpl; lia].
Qed.

(** The same with the predicate of [Route.Equal] on the table of
    component A. *)
Lemma AddRoute_RemoveRoutes_Equal (s : Stack) x :
  (forall e, e ∈ routeTable s -> tcpip.Equal e x = false) ->
  GetRouteTable (RemoveRoutes (AddRoute s x) (fun e => tcpip.Equal e x)).1
    = routeTable s.
Proof.
  intros Hall. unfold RemoveRoutes, removeRoutesLocked.
  pose proof (removeRoutesLocked_from_fst (fun e => tcpip.Equal e x) 0
                (routeTable (AddRoute s x))) as Hfst.
  destruct (removeRoutesLocked_from _ 0 (routeTable (AddRoute s x))) as [rt c].
  simpl in *. subst rt. unfold addRouteLocked.
  destruct (addRouteLocked_from_split (tcpip.Prefix (tcpip.Destination x)) x
              (routeTable s)) as (l1 & l2 & HT & -> & _).
  rewrite List.filter_app. simpl.
  assert (tcpip.Equal x x = true) as ->
    by (unfold tcpip.Equal; by rewrite !bool_decide_eq_true_2).
  simpl. rewrite <- List.filter_app, <- HT.
  clear HT. induction (routeTable s) as [|e T IH]; simpl; [done|].
  rewrite (Hall e) by apply list_elem_of_here. simpl.
  rewrite IH; [done|]. intros y Hy. by apply Hall, list_elem_of_further.
Qed.

End RouteListLinks.

(** ** NIC lifecycle *)

Section NICFacts.

Context `{!NICPkg} `{!GoRuntime}.

Implicit Types (s : Stack) (id : tcpip.NICID) (n : nic.t).

Lemma rangeNICs_elem (m : gmap Z nic.t) k n :
  (k, n) ∈ rangeNICs m <-> m !! k = Some n.
Proof. rewrite (rangeNICs_perm m). apply elem_of_map_to_list. Qed.

Lemma existsb_rangeNICs (f : Z * nic.t -> bool) (m : gmap Z nic.t) :
  existsb f (rangeNICs m) = true <->
  exists k n, m !! k = Some n /\ f (k, n) = true.
Proof.
  rewrite existsb_exists. split.
  - intros ([k n] & Hin & Hf). exists k, n.
    split; [|exact Hf]. by apply rangeNICs_elem, list_elem_of_In.
  - intros (k & n & Hm & Hf). exists (k, n).
    split; [|exact Hf]. by apply list_elem_of_In, rangeNICs_elem.
Qed.

(** C7.  [CreateNICWithOptions] returns [InvalidNICID] for the id 0; for
    any other id it returns [DuplicateNICID] when the id is already in the
    NIC map or when the name in the options is not empty and is the name
    of a NIC of the stack.  In each of these cases the stack is returned
    as it was and no call leaves it. *)
Theorem CreateNICWithOptions_rejects s id ep opts :
  (id = 0 ->
   CreateNICWithOptions s id ep opts = Ret (s, [], Some tcpip.ErrInvalidNICID)) /\
  (id <> 0 ->
   is_Some (nics s !! id) \/
   (NICOptions.Name opts <> EmptyString /\
    exists k n, nics s !! k = Some n /\ nic.Name n = NICOptions.Name opts) ->
   CreateNICWithOptions s id ep opts = Ret (s, [], Some tcpip.ErrDuplicateNICID)).
Proof.
  unfold CreateNICWithOptions. split.
  - intros ->. reflexivity.
  - intros Hid Hdup.
    rewrite bool_decide_eq_false_2 by exact Hid.
    destruct (decide (is_Some (nics s !! id))) as [Hin|Hnotin].
    + by rewrite bool_decide_eq_true_2.
    + rewrite bool_decide_eq_false_2 by exact Hnotin.
      destruct Hdup as [Hin|(Hname & k & n & Hk & Hn)]; [done|].
      rewrite bool_decide_eq_false_2 by exact Hname. simpl.
      assert (existsb (fun '(_, n0) => bool_decide (nic.Name n0 = NICOptions.Name opts))
                      (rangeNICs (nics s)) = true) as ->; [|reflexivity].
      apply existsb_rangeNICs. exists k, n. split; [exact Hk|].
      by apply bool_decide_eq_true_2.
Qed.

(** The paths of [RemoveNIC] that reach the purge.  For a NIC that is
    present and has no coordinator, or whose coordinator lets it go
    without an error, [RemoveNIC] deletes the NIC and purges every route
    through it: afterwards [HasNIC] is false and no route of
    [GetRouteTable] names the id.  For an id that is not present it
    returns [UnknownNICID] and changes nothing. *)
Theorem RemoveNIC_spec s id :
  (forall n,
     nics s !! id = Some n ->
     (forall b, nic.Primary n = Some b -> DelNIC b n = None) ->
     let s' := (RemoveNIC s id).1.1 in
     HasNIC s' id = false /\
     nics s' = delete id (nics s) /\
     GetRouteTable s'
       = List.filter (fun r => negb (bool_decide (tcpip.NIC r = id))) (routeTable s) /\
     (forall r, r ∈ GetRouteTable s' -> tcpip.NIC r <> id)) /\
  (nics s !! id = None ->
   RemoveNIC s id = (s, [], Some tcpip.ErrUnknownNICID)).
Proof.
  unfold RemoveNIC, removeNICLocked. split.
  - intros n Hn Hdel. rewrite Hn.
    assert (match nic.Primary n with
            | Some b => ([CallDelNIC b id], DelNIC b n)
            | None => ([], None)
            end = (match nic.Primary n with
                   | Some b => [CallDelNIC b id]
                   | None => []
                   end, None)) as ->.
    { destruct (nic.Primary n) as [b|]; [|done]. by rewrite (Hdel b). }
    destruct (remove n true) as [deferAct err]. simpl.
    rewrite removeNICLocked_routes_filter.
    split; [|split; [done|split; [done|]]].
    + unfold HasNIC. simpl. apply bool_decide_eq_false_2.
      rewrite lookup_delete_eq. by intros [? ?].
    + intros r Hr. apply list_elem_of_In, filter_In in Hr as [_ Hr].
      apply negb_true_iff, bool_decide_eq_false in Hr. exact Hr.
  - intros ->. reflexivity.
Qed.

(** The path that does not: when the coordinator's [DelNIC] returns an
    error, [removeNICLocked] has deleted the NIC from the map and returns
    at once.  The route table is the one from before the call, with every
    route through the id still in it, and [nic.remove] is not called. *)
Lemma RemoveNIC_DelNIC_error s id n b err :
  nics s !! id = Some n ->
  nic.Primary n = Some b ->
  DelNIC b n = Some err ->
  RemoveNIC s id
    = (set_nics (delete id (nics s)) s, [CallDelNIC b id], Some err) /\
  GetRouteTable (RemoveNIC s id).1.1 = routeTable s.
Proof.
  intros Hn Hb Hdel. unfold RemoveNIC, removeNICLocked.
  rewrite Hn, Hb, Hdel. split; reflexivity.
Qed.

(** The NIC leaves the map even when the coordinator refuses. *)
Lemma RemoveNIC_HasNIC s id n :
  nics s !! id = Some n -> HasNIC (RemoveNIC s id).1.1 id = false.
Proof.
  intros Hn. unfold RemoveNIC, removeNICLocked. rewrite Hn.
  destruct (match nic.Primary n with
            | Some b => ([CallDelNIC b id], DelNIC b n)
            | None => ([], None)
            end) as [calls [err|]]; [|destruct (remove n true)];
    unfold HasNIC; simpl;
    apply bool_decide_eq_false_2; rewrite lookup_delete_eq; by intros [? ?].
Qed.

(** C10.  [SetNICStack] with the NIC's own stack as the peer returns the
    id and no error and has no effect: the store of stacks is the same, so
    the NIC is still in the map and the route table is as before, and no
    call is made, so the NIC is not removed from its link endpoint and the
    link endpoint is not closed. *)
Theorem SetNICStack_same_stack (h : gmap Z Stack) (sp : Z) s id :
  h !! sp = Some s ->
  is_Some (nics s !! id) ->
  SetNICStack h sp id sp = Ret (h, [], (id, None)).
Proof.
  intros Hs [n Hn]. unfold SetNICStack. rewrite Hs, Hn.
  by rewrite bool_decide_eq_true_2.
Qed.

End NICFacts.

(** ** Endpoint construction *)

Lemma New_rawFactory (opts : Options.t) :
  rawFactory (New opts) = Options.RawFactory opts.
Proof. reflexivity. Qed.

(** C8.  On a stack whose raw factory is nil, as [New] leaves it when the
    options carry none, [NewRawEndpoint] and [NewPacketEndpoint] return
    [NotPermitted] for all arguments and call neither a factory nor a
    protocol, so no endpoint is created. *)
Theorem raw_endpoints_not_permitted (s : Stack) :
  rawFactory s = None ->
  (forall transport network waiterQueue associated,
     NewRawEndpoint s transport network waiterQueue associated
       = ([], tcpip.Err tcpip.ErrNotPermitted)) /\
  (forall cooked netProto waiterQueue,
     NewPacketEndpoint s cooked netProto waiterQueue
       = ([], tcpip.Err tcpip.ErrNotPermitted)).
Proof.
  intros Hnil. unfold NewRawEndpoint, NewPacketEndpoint. rewrite Hnil.
  split; reflexivity.
Qed.

(** ** Local addresses and routing *)

Section RoutingFacts.

Context `{!header.Pkg} `{!tcpip.SubnetOps} `{!RoutePkg} `{!GoRuntime}.

Implicit Types (s : Stack) (id nicID : tcpip.NICID) (n : nic.t).

(** C9.  With a NIC of id [nicID], not 0, in the stack,
    [CheckLocalAddress] for IPv4 returns [nicID] for every address,
    whatever the NIC answers about the address.  The NIC is asked about
    the address only for another protocol, or when [nicID] is 0 and the
    NICs are searched. *)
Theorem CheckLocalAddress_IPv4_interface_only s nicID n :
  nicID <> 0 ->
  nics s !! nicID = Some n ->
  nic.id n = nicID ->
  (forall addr,
     CheckLocalAddress s nicID header.IPv4ProtocolNumber addr = nicID) /\
  (forall protocol addr,
     protocol <> header.IPv4ProtocolNumber ->
     CheckLocalAddress s nicID protocol addr
       = if nic.CheckLocalAddress n protocol addr then nicID else 0) /\
  (forall protocol addr,
     CheckLocalAddress s 0 protocol addr
       = match List.find (fun '(_, n') => nic.CheckLocalAddress n' protocol addr)
                         (rangeNICs (nics s)) with
         | Some (_, n') => nic.id n'
         | None => 0
         end).
Proof.
  intros Hid Hn Hnid. unfold CheckLocalAddress.
  rewrite (bool_decide_eq_false_2 _ Hid), Hn. simpl.
  split; [|split].
  - intros addr. by rewrite bool_decide_eq_true_2.
  - intros protocol addr Hp. rewrite bool_decide_eq_false_2 by exact Hp.
    by rewrite Hnid.
  - intros protocol addr. reflexivity.
Qed.

Lemma FindRoute_unfold_needRoute remoteAddr :
  negb (bool_decide (remoteAddr = header.IPv4Broadcast)
        || (header.IsV4MulticastAddress remoteAddr
            || header.IsV6MulticastAddress remoteAddr)
        || (header.IsV6LinkLocalUnicastAddress remoteAddr
            || header.IsV6LinkLocalMulticastAddress remoteAddr)
        || (header.IsV4LoopbackAddress remoteAddr
            || header.IsV6LoopbackAddress remoteAddr))
  = needRoute remoteAddr.
Proof. reflexivity. Qed.

(** [FindRoute] for a given interface and a remote that needs no route,
    once the protocol is known: the local route if one is tried and
    found, the direct branch otherwise. *)
Lemma FindRoute_no_route_needed s id localAddr remoteAddr netProto multicastLoop :
  CheckNetworkProtocol s netProto = true ->
  id <> 0 ->
  needRoute remoteAddr = false ->
  FindRoute s id localAddr remoteAddr netProto multicastLoop =
    match (if triesLocalRoute s remoteAddr
           then findLocalRouteRLocked s id localAddr remoteAddr netProto
           else None) with
    | Some r => Ret (tcpip.Ok r)
    | None => Ret (findRoute_direct s id localAddr remoteAddr netProto
                                    multicastLoop (isLoopback remoteAddr))
    end.
Proof.
  intros Hproto Hid Hneed. unfold FindRoute.
  rewrite Hproto. cbn [negb].
  rewrite FindRoute_unfold_needRoute, Hneed.
  rewrite (bool_decide_eq_false_2 _ Hid). cbn [negb andb].
  reflexivity.
Qed.

(** C1, as amended.  [FindRoute] returns [UnknownProtocol] for a protocol
    that is not registered.  For a registered protocol, an id other than 0
    and a remote that is link-local, local broadcast, multicast or
    loopback, and when no local route is returned first (the stack does
    not handle local traffic, or the remote is multicast or the local
    broadcast address, or no local route is found): if the NIC of that id
    is present, enabled and yields an address endpoint, the result is the
    route made with that NIC as outgoing NIC, the empty gateway and MTU 0;
    otherwise it is [BadLocalAddress] for a loopback remote and
    [NetworkUnreachable] for any other. *)
Theorem FindRoute_direct s id localAddr remoteAddr netProto multicastLoop :
  (CheckNetworkProtocol s netProto = false ->
   FindRoute s id localAddr remoteAddr netProto multicastLoop
     = Ret (tcpip.Err tcpip.ErrUnknownProtocol)) /\
  (CheckNetworkProtocol s netProto = true ->
   id <> 0 ->
   (isLinkLocal remoteAddr || isLocalBroadcast remoteAddr
    || isMulticast remoteAddr || isLoopback remoteAddr) = true ->
   triesLocalRoute s remoteAddr = false \/
   findLocalRouteRLocked s id localAddr remoteAddr netProto = None ->
   (forall n addressEndpoint,
      nics s !! id = Some n ->
      nic.Enabled n = true ->
      getAddressEP n localAddr remoteAddr [] netProto = Some addressEndpoint ->
      FindRoute s id localAddr remoteAddr netProto multicastLoop
        = Ret (tcpip.Ok (makeRoute netProto [] localAddr remoteAddr n n
                                   addressEndpoint (handleLocal s)
                                   multicastLoop 0))) /\
   ((forall n, nics s !! id = Some n -> nic.Enabled n = true ->
               getAddressEP n localAddr remoteAddr [] netProto = None) ->
    FindRoute s id localAddr remoteAddr netProto multicastLoop
      = Ret (tcpip.Err (if isLoopback remoteAddr
                        then tcpip.ErrBadLocalAddress
                        else tcpip.ErrNetworkUnreachable)))).
Proof.
  split.
  - intros Hproto. unfold FindRoute. by rewrite Hproto.
  - intros Hproto Hid Hclass Hlocal.
    assert (needRoute remoteAddr = false) as Hneed.
    { unfold needRoute. apply negb_false_iff.
      destruct (isLinkLocal remoteAddr), (isLocalBroadcast remoteAddr),
        (isMulticast remoteAddr), (isLoopback remoteAddr); done. }
    rewrite (FindRoute_no_route_needed _ _ _ _ _ _ Hproto Hid Hneed).
    assert ((if triesLocalRoute s remoteAddr
             then findLocalRouteRLocked s id localAddr remoteAddr netProto
             else None) = None) as ->.
    { destruct Hlocal as [-> | Hnone]; [done|].
      by destruct (triesLocalRoute s remoteAddr). }
    unfold findRoute_direct. split.
    + intros n ep Hn Hen Hep. by rewrite Hn, Hen, Hep.
    + intros Hnone.
      destruct (nics s !! id) as [n|] eqn:Hn; [|by destruct (isLoopback remoteAddr)].
      destruct (nic.Enabled n) eqn:Hen; [|by destruct (isLoopback remoteAddr)].
      rewrite (Hnone n eq_refl Hen).
      by destruct (isLoopback remoteAddr).
Qed.

(** When a local route is tried and found, it is what [FindRoute]
    returns. *)
Lemma FindRoute_local_route_first s id localAddr remoteAddr netProto multicastLoop r :
  CheckNetworkProtocol s netProto = true ->
  triesLocalRoute s remoteAddr = true ->
  findLocalRouteRLocked s id localAddr remoteAddr netProto = Some r ->
  FindRoute s id localAddr remoteAddr netProto multicastLoop = Ret (tcpip.Ok r).
Proof.
  intros Hproto Htries Hr. unfold FindRoute. rewrite Hproto. cbn [negb].
  change (handleLocal s
          && negb (header.IsV4MulticastAddress remoteAddr
                   || header.IsV6MulticastAddress remoteAddr)
          && negb (bool_decide (remoteAddr = header.IPv4Broadcast)))
    with (triesLocalRoute s remoteAddr).
  by rewrite Htries, Hr.
Qed.

End RoutingFacts.

(** * Worked instances *)

Section Examples.

#[local] Existing Instances sample.headerPkg sample.subnetOps sample.routePkg
  sample.goRuntime.

Import sample.

(** Three insertions into the empty table (scenario S4), then one more
    after a table was set from an unsorted slice. *)
Lemma route_table_stays_sorted_witness :
  (sortedByPrefix (routeTable stackEth0) \/
   existsb isSetRouteTable
     [OpAddRoute r0; OpAddRoute r8; OpAddRoute r16;
      OpSetRouteTable [r8; r24; r0]; OpAddRoute r8'] = true) /\
  sortedByPrefix
    (GetRouteTable
       (runRouteOps stackEth0
          [OpAddRoute r0; OpAddRoute r8; OpAddRoute r16;
           OpSetRouteTable [r8; r24; r0]; OpAddRoute r8'])).
Proof.
  split.
  - left. constructor.
  - apply route_table_stays_sorted. left. constructor.
Defined.

Example S4_longest_prefix_first :
  GetRouteTable (runRouteOps stackEth0 [OpAddRoute r0; OpAddRoute r8; OpAddRoute r16])
    = [r16; r8; r0].
Proof. reflexivity. Qed.

(** C4 as stated fails: the new route does not come before an existing
    entry of equal prefix length, it is put behind it. *)
Lemma AddRoute_equal_prefix_goes_behind :
  tcpip.Prefix (tcpip.Destination r8) <= tcpip.Prefix (tcpip.Destination r8') /\
  r8 ∈ routeTable (stackWith false ∅ [r8]) /\
  GetRouteTable (AddRoute (stackWith false ∅ [r8]) r8') = [r8; r8'] /\
  ~ appearsBefore r8' r8 (GetRouteTable (AddRoute (stackWith false ∅ [r8]) r8')).
Proof.
  split; [vm_compute; discriminate|].
  split; [apply list_elem_of_here|].
  split; [reflexivity|].
  intros (l1 & l2 & l3 & Heq). vm_compute in Heq.
  destruct l1 as [|x l1]; simpl in Heq.
  - discriminate Heq.
  - apply (f_equal length) in Heq. simpl in Heq.
    rewrite length_app in Heq. simpl in Heq.
    rewrite length_app in Heq. simpl in Heq. lia.
Qed.

Lemma AddRoute_position_witness :
  sortedByPrefix (routeTable (stackWith false ∅ [r16; r8; r0])) /\
  exists l1 l2,
    routeTable (stackWith false ∅ [r16; r8; r0]) = l1 ++ l2 /\
    GetRouteTable (AddRoute (stackWith false ∅ [r16; r8; r0]) r8') = l1 ++ r8' :: l2 /\
    Forall (fun e => tcpip.Prefix (tcpip.Destination r8')
                     <= tcpip.Prefix (tcpip.Destination e)) l1 /\
    Forall (fun e => tcpip.Prefix (tcpip.Destination e)
                     < tcpip.Prefix (tcpip.Destination r8')) l2.
Proof.
  assert (sortedByPrefix (routeTable (stackWith false ∅ [r16; r8; r0]))) as Hs.
  { repeat constructor; vm_compute; discriminate. }
  split; [exact Hs|].
  apply (AddRoute_position (stackWith false ∅ [r16; r8; r0]) r8' Hs).
Defined.


(** C6 as stated fails, however its [x == r] is read.  The table holds
    the route [r8] in the node at address 1, and [AddRoute] puts its copy
    of [r8] at address 2.  With Go's [==] the predicate is handed node
    copies that carry their links, none of which equals the unlinked
    [r8]: nothing is removed and the table has two entries.  With
    [Route.Equal], or with a comparison of the five fields, both entries
    are removed and the table is empty. *)
Lemma AddRoute_RemoveRoutes_duplicate :
  node.GetRouteTable [(1, r8)] = [fresh r8] /\
  node.RemoveRoutes (node.AddRoute [(1, r8)] 2 (fresh r8))
    (fun v => bool_decide (v = fresh r8))
    = ([(1, r8); (2, r8)], 0) /\
  node.GetRouteTable
    (node.RemoveRoutes (node.AddRoute [(1, r8)] 2 (fresh r8))
       (fun v => bool_decide (v = fresh r8))).1
    <> node.GetRouteTable [(1, r8)] /\
  node.RemoveRoutes (node.AddRoute [(1, r8)] 2 (fresh r8))
    (fun v => tcpip.Equal (node.fields v) r8)
    = ([], 2) /\
  node.RemoveRoutes (node.AddRoute [(1, r8)] 2 (fresh r8))
    (fun v => bool_decide (node.fields v = r8))
    = ([], 2) /\
  node.GetRouteTable
    (node.RemoveRoutes (node.AddRoute [(1, r8)] 2 (fresh r8))
       (fun v => tcpip.Equal (node.fields v) r8)).1
    <> node.GetRouteTable [(1, r8)] /\
  GetRouteTable
    (RemoveRoutes (AddRoute (stackWith false ∅ [r8]) r8)
                  (fun x => tcpip.Equal x r8)).1
    <> routeTable (stackWith false ∅ [r8]).
Proof.
  split; [reflexivity|].
  split; [vm_compute; reflexivity|].
  split; [vm_compute; discriminate|].
  split; [vm_compute; reflexivity|].
  split; [vm_compute; reflexivity|].
  split; vm_compute; discriminate.
Qed.

(** With Go's [==] the table need not hold the route already: from the
    table [r16; r0] nothing is removed either, and [r8] stays. *)
Example AddRoute_RemoveRoutes_struct_equality :
  node.RemoveRoutes (node.AddRoute [(1, r16); (2, r0)] 3 (fresh r8))
    (fun v => bool_decide (v = fresh r8))
    = ([(1, r16); (3, r8); (2, r0)], 0) /\
  node.GetRouteTable [(1, r16); (3, r8); (2, r0)]
    = [node.mkRoute (node.mkRouteEntry (Some 3) None) r16;
       node.mkRoute (node.mkRouteEntry (Some 2) (Some 1)) r8;
       node.mkRoute (node.mkRouteEntry None (Some 3)) r0].
Proof. split; vm_compute; reflexivity. Qed.

(** A route with the lookup key of an entry and another gateway is not in
    the table, and removing by [Route.Equal] takes the entry with it. *)
Example AddRoute_RemoveRoutes_same_key :
  (r8 ∉ [sample2.r8gw]) /\
  node.RemoveRoutes (node.AddRoute [(1, sample2.r8gw)] 2 (fresh r8))
    (fun v => tcpip.Equal (node.fields v) r8)
    = ([], 2).
Proof.
  split; [|vm_compute; reflexivity].
  rewrite not_elem_of_cons. split; [discriminate | apply not_elem_of_nil].
Qed.

Lemma AddRoute_RemoveRoutes_witness :
  (forall x, x ∈ ([(1, r16); (2, r0)] : node.RouteList).*2 ->
             tcpip.Equal x (node.fields (fresh r8)) = false) /\
  node.entry (fresh r8) = node.unlinked /\
  ([(1, r16); (2, r0)] : node.RouteList) <> [] /\
  node.RemoveRoutes (node.AddRoute [(1, r16); (2, r0)] 3 (fresh r8))
    (fun v => tcpip.Equal (node.fields v) (node.fields (fresh r8)))
    = ([(1, r16); (2, r0)], 1) /\
  node.RemoveRoutes (node.AddRoute [] 3 (fresh r8))
    (fun v => bool_decide (v = fresh r8))
    = ([], 1) /\
  node.RemoveRoutes (node.AddRoute [(1, r16); (2, r0)] 3 (fresh r8))
    (fun v => bool_decide (v = fresh r8))
    = (node.AddRoute [(1, r16); (2, r0)] 3 (fresh r8), 0).
Proof.
  assert (forall x, x ∈ ([(1, r16); (2, r0)] : node.RouteList).*2 ->
                    tcpip.Equal x (node.fields (fresh r8)) = false) as Hall.
  { intros x Hx. rewrite !fmap_cons in Hx. simpl in Hx.
    apply elem_of_cons in Hx as [->|Hx]; [reflexivity|].
    apply elem_of_cons in Hx as [->|Hx]; [reflexivity|].
    by apply elem_of_nil in Hx. }
  assert (node.entry (fresh r8) = node.unlinked) as Hr by reflexivity.
  assert (([(1, r16); (2, r0)] : node.RouteList) <> []) as Hne by discriminate.
  split; [exact Hall|]. split; [exact Hr|]. split; [exact Hne|].
  destruct (AddRoute_RemoveRoutes [(1, r16); (2, r0)] 3 (fresh r8))
    as [HEqual Hstruct].
  split; [exact (proj1 (HEqual Hall))|].
  destruct (Hstruct Hr) as [Hempty Hfull].
  split; [exact Hempty | exact (Hfull Hne)].
Defined.

End Examples.

Section NICExamples.

#[local] Existing Instances sample.headerPkg sample.subnetOps sample.routePkg
  sample.goRuntime.

Import sample.

(** Scenario S2 and the id 0. *)
Lemma CreateNICWithOptions_rejects_witness :
  @CreateNICWithOptions (nicPkg None) goRuntime stackEth0 0 200
     (NICOptions.mk "eth0" false)
    = Ret (stackEth0, [], Some tcpip.ErrInvalidNICID) /\
  @CreateNICWithOptions (nicPkg None) goRuntime stackEth0 2 200
     (NICOptions.mk "eth0" false)
    = Ret (stackEth0, [], Some tcpip.ErrDuplicateNICID) /\
  @CreateNICWithOptions (nicPkg None) goRuntime stackEth0 1 200
     (NICOptions.mk "" false)
    = Ret (stackEth0, [], Some tcpip.ErrDuplicateNICID).
Proof.
  split; [|split].
  - apply (proj1 (@CreateNICWithOptions_rejects (nicPkg None) goRuntime
                    stackEth0 0 200 (NICOptions.mk "eth0" false))).
    reflexivity.
  - apply (proj2 (@CreateNICWithOptions_rejects (nicPkg None) goRuntime
                    stackEth0 2 200 (NICOptions.mk "eth0" false))).
    + discriminate.
    + right. split; [discriminate|]. exists 1, eth0. split; reflexivity.
  - apply (proj2 (@CreateNICWithOptions_rejects (nicPkg None) goRuntime
                    stackEth0 1 200 (NICOptions.mk "" false))).
    + discriminate.
    + left. exists eth0. reflexivity.
Defined.

(** A fresh id and name: the NIC is added and enabled. *)
Example CreateNICWithOptions_accepts :
  exists s',
    @CreateNICWithOptions (nicPkg None) goRuntime stackEth0 2 200
       (NICOptions.mk "eth1" false)
      = Ret (s', [CallSetOnCloseAction 200 2; CallEnable 2], None) /\
    HasNIC s' 2 = true.
Proof. eexists. split; reflexivity. Qed.

(** C2 at its failing input.  NIC 7 is in the map with the coordinator
    50, whose [DelNIC] returns an error, and the table holds the route
    [r8] through NIC 7.  [RemoveNIC(7)] deletes the NIC, calls [DelNIC]
    and returns its error before the loop that purges the routes: [r8]
    stays in the table of a stack that has no NIC 7.  The comments on
    [RemoveNIC] and [removeNICLocked] promise the removal of the NIC and
    of all related routes, and [SetNICStack] purges them right after its
    own [delete]. *)
Lemma RemoveNIC_coordinator_error_keeps_routes :
  nics stackEth7 !! 7 = Some eth7 /\
  @RemoveNIC (nicPkg (Some (tcpip.ErrOther 1))) stackEth7 7
    = (set_nics ∅ stackEth7, [CallDelNIC 50 7], Some (tcpip.ErrOther 1)) /\
  HasNIC (@RemoveNIC (nicPkg (Some (tcpip.ErrOther 1))) stackEth7 7).1.1 7 = false /\
  GetRouteTable (@RemoveNIC (nicPkg (Some (tcpip.ErrOther 1))) stackEth7 7).1.1
    = [r24; r8] /\
  r8 ∈ GetRouteTable (@RemoveNIC (nicPkg (Some (tcpip.ErrOther 1))) stackEth7 7).1.1 /\
  tcpip.NIC r8 = 7 /\
  ~ (forall r,
       r ∈ GetRouteTable (@RemoveNIC (nicPkg (Some (tcpip.ErrOther 1))) stackEth7 7).1.1 ->
       tcpip.NIC r <> 7).
Proof.
  assert (r8 ∈ GetRouteTable
            (@RemoveNIC (nicPkg (Some (tcpip.ErrOther 1))) stackEth7 7).1.1) as Hin.
  { apply list_elem_of_further, list_elem_of_here. }
  split; [reflexivity|]. split; [reflexivity|].
  split; [vm_compute; reflexivity|]. split; [reflexivity|].
  split; [exact Hin|]. split; [reflexivity|].
  intros Hall. exact (Hall r8 Hin eq_refl).
Qed.

(** Scenario S3, with a coordinator that lets the NIC go. *)
Lemma RemoveNIC_spec_witness :
  nics stackEth7 !! 7 = Some eth7 /\
  (forall b, nic.Primary eth7 = Some b -> @DelNIC (nicPkg None) b eth7 = None) /\
  HasNIC (@RemoveNIC (nicPkg None) stackEth7 7).1.1 7 = false /\
  GetRouteTable (@RemoveNIC (nicPkg None) stackEth7 7).1.1 = [r24] /\
  @RemoveNIC (nicPkg None) stackEth7 9
    = (stackEth7, [], Some tcpip.ErrUnknownNICID).
Proof.
  assert (nics stackEth7 !! 7 = Some eth7) as Hn by reflexivity.
  assert (forall b, nic.Primary eth7 = Some b ->
                    @DelNIC (nicPkg None) b eth7 = None) as Hdel
    by (intros b _; reflexivity).
  split; [exact Hn|]. split; [exact Hdel|].
  destruct (proj1 (@RemoveNIC_spec (nicPkg None) stackEth7 7) eth7 Hn Hdel)
    as (Hhas & _ & Hroutes & _).
  split; [exact Hhas|]. split; [exact Hroutes|].
  apply (proj2 (@RemoveNIC_spec (nicPkg None) stackEth7 9)). reflexivity.
Defined.

Lemma SetNICStack_same_stack_witness :
  ({[ 1 := stackEth7; 2 := stackEth0 ]} : gmap Z Stack) !! 1 = Some stackEth7 /\
  is_Some (nics stackEth7 !! 7) /\
  @SetNICStack (nicPkg None) goRuntime {[ 1 := stackEth7; 2 := stackEth0 ]} 1 7 1
    = Ret ({[ 1 := stackEth7; 2 := stackEth0 ]}, [], (7, None)).
Proof.
  assert (({[ 1 := stackEth7; 2 := stackEth0 ]} : gmap Z Stack) !! 1
          = Some stackEth7) as Hs by reflexivity.
  assert (is_Some (nics stackEth7 !! 7)) as Hn by (exists eth7; reflexivity).
  split; [exact Hs|]. split; [exact Hn|].
  apply (@SetNICStack_same_stack (nicPkg None) goRuntime _ 1 stackEth7 7 Hs Hn).
Defined.

(** Moving the NIC to another stack does purge, detach and re-create. *)
Example SetNICStack_other_stack :
  exists h',
    @SetNICStack (nicPkg None) goRuntime
       {[ 1 := stackEth7; 2 := stackWith false ∅ [] ]} 1 7 2
      = Ret (h', [CallRemove 7 false; CallSetOnCloseAction 107 1; CallEnable 1],
             (1, None)) /\
    (GetRouteTable <$> h' !! 1) = Some [r24] /\
    (flip HasNIC 7 <$> h' !! 1) = Some false /\
    (flip HasNIC 1 <$> h' !! 2) = Some true.
Proof. eexists. repeat split; reflexivity. Qed.

(** Scenario S5. *)
Lemma raw_endpoints_not_permitted_witness :
  rawFactory (New (Options.mk [ipv4] [] false None)) = None /\
  NewRawEndpoint (New (Options.mk [ipv4] [] false None)) 6 2048 0 true
    = ([], tcpip.Err tcpip.ErrNotPermitted) /\
  NewPacketEndpoint (New (Options.mk [ipv4] [] false None)) true 2048 0
    = ([], tcpip.Err tcpip.ErrNotPermitted).
Proof.
  assert (rawFactory (New (Options.mk [ipv4] [] false None)) = None) as Hnil
    by reflexivity.
  split; [exact Hnil|].
  destruct (raw_endpoints_not_permitted _ Hnil) as [Hraw Hpacket].
  split; [apply Hraw | apply Hpacket].
Defined.

(** An address that the NIC does not own still gives the NIC's id for
    IPv4. *)
Lemma CheckLocalAddress_IPv4_interface_only_witness :
  (1 : Z) <> 0 /\
  nics stackEth0 !! 1 = Some eth0 /\
  nic.id eth0 = 1 /\
  nic.CheckLocalAddress eth0 2048 addrLoopback = false /\
  CheckLocalAddress stackEth0 1 header.IPv4ProtocolNumber addrLoopback = 1 /\
  CheckLocalAddress stackEth0 1 34525 addrLoopback = 0.
Proof.
  assert ((1 : Z) <> 0) as Hid by discriminate.
  assert (nics stackEth0 !! 1 = Some eth0) as Hn by reflexivity.
  assert (nic.id eth0 = 1) as Hnid by reflexivity.
  split; [exact Hid|]. split; [exact Hn|]. split; [exact Hnid|].
  split; [reflexivity|].
  destruct (CheckLocalAddress_IPv4_interface_only stackEth0 1 eth0 Hid Hn Hnid)
    as (Hv4 & Hother & _).
  split; [apply Hv4|].
  rewrite Hother by discriminate. reflexivity.
Defined.

End NICExamples.

Section RoutingExamples.

#[local] Existing Instances sample.headerPkg sample.subnetOps sample.routePkg
  sample.goRuntime.

Import sample.

(** C1 as stated fails on a stack that handles local traffic: for a
    loopback remote owned by another NIC, the NIC of the given id is
    present, enabled and yields an address endpoint, yet the route that
    comes back is the local route, and it leaves through the NIC that
    owns the remote address. *)
Lemma FindRoute_local_route_other_NIC :
  CheckNetworkProtocol stackLocal 2048 = true /\
  isLoopback addrLoopback = true /\
  nics stackLocal !! 1 = Some eth0 /\
  nic.Enabled eth0 = true /\
  getAddressEP eth0 addr10 addrLoopback [] 2048 = Some 0 /\
  FindRoute stackLocal 1 addr10 addrLoopback 2048 false
    = Ret (tcpip.Ok (makeLocalRoute 2048 addr10 addrLoopback lo eth0 0)) /\
  ~ (exists r,
       FindRoute stackLocal 1 addr10 addrLoopback 2048 false = Ret (tcpip.Ok r) /\
       nic.id (Route_outgoingNIC r) = 1).
Proof.
  assert (FindRoute stackLocal 1 addr10 addrLoopback 2048 false
          = Ret (tcpip.Ok (makeLocalRoute 2048 addr10 addrLoopback lo eth0 0)))
    as Hfind by (vm_compute; reflexivity).
  do 5 (split; [vm_compute; reflexivity|]).
  split; [exact Hfind|].
  intros (r & Hr & Hout). rewrite Hfind in Hr.
  injection Hr as <-. vm_compute in Hout. discriminate Hout.
Qed.

(** Scenario S6, and the two error cases on the same stack. *)
Lemma FindRoute_direct_witness :
  CheckNetworkProtocol stackEth0 2048 = true /\
  (1 : Z) <> 0 /\
  (isLinkLocal addrMulticast || isLocalBroadcast addrMulticast
   || isMulticast addrMulticast || isLoopback addrMulticast) = true /\
  triesLocalRoute stackEth0 addrMulticast = false /\
  FindRoute stackEth0 1 addr10 addrMulticast 2048 false
    = Ret (tcpip.Ok (makeRoute 2048 [] addr10 addrMulticast eth0 eth0 0
                               false false 0)) /\
  FindRoute stackEth0 3 addr10 addrMulticast 2048 false
    = Ret (tcpip.Err tcpip.ErrNetworkUnreachable) /\
  FindRoute stackEth0 3 addr10 addrLoopback 2048 false
    = Ret (tcpip.Err tcpip.ErrBadLocalAddress) /\
  FindRoute stackEth0 1 addr10 addrMulticast 34525 false
    = Ret (tcpip.Err tcpip.ErrUnknownProtocol).
Proof.
  assert (CheckNetworkProtocol stackEth0 2048 = true) as Hproto
    by (vm_compute; reflexivity).
  assert ((1 : Z) <> 0) as Hid1 by discriminate.
  assert ((3 : Z) <> 0) as Hid3 by discriminate.
  assert ((isLinkLocal addrMulticast || isLocalBroadcast addrMulticast
           || isMulticast addrMulticast || isLoopback addrMulticast) = true)
    as Hmc by (vm_compute; reflexivity).
  assert ((isLinkLocal addrLoopback || isLocalBroadcast addrLoopback
           || isMulticast addrLoopback || isLoopback addrLoopback) = true)
    as Hlo by (vm_compute; reflexivity).
  assert (forall a, triesLocalRoute stackEth0 a = false) as Htries
    by (intros a; reflexivity).
  split; [exact Hproto|]. split; [exact Hid1|]. split; [exact Hmc|].
  split; [apply Htries|].
  split; [|split; [|split]].
  - apply (proj1 (proj2 (FindRoute_direct stackEth0 1 addr10 addrMulticast 2048 false)
                    Hproto Hid1 Hmc (or_introl (Htries _))) eth0 0);
      vm_compute; reflexivity.
  - apply (proj2 (proj2 (FindRoute_direct stackEth0 3 addr10 addrMulticast 2048 false)
                    Hproto Hid3 Hmc (or_introl (Htries _)))).
    intros n Hn. vm_compute in Hn. discriminate Hn.
  - apply (proj2 (proj2 (FindRoute_direct stackEth0 3 addr10 addrLoopback 2048 false)
                    Hproto Hid3 Hlo (or_introl (Htries _)))).
    intros n Hn. vm_compute in Hn. discriminate Hn.
  - apply (proj1 (FindRoute_direct stackEth0 1 addr10 addrMulticast 34525 false)).
    vm_compute. reflexivity.
Defined.

(** With the table consulted: a unicast remote is routed by the longest
    matching prefix. *)
Example FindRoute_longest_prefix :
  FindRoute (stackWith false {[ 1 := eth0; 7 := eth7 ]} [r8; r0]) 0 []
            [x0a; x02; x03; x04] 2048 false
    = Ret (tcpip.Ok (makeRoute 2048 [] [] [x0a; x02; x03; x04] eth7 eth7 0
                               false false 0)) /\
  FindRoute (stackWith false {[ 1 := eth0; 7 := eth7 ]} [r8; r0]) 0 []
            [x08; x08; x08; x08] 2048 false
    = Ret (tcpip.Ok (makeRoute 2048 [] [] [x08; x08; x08; x08] eth0 eth0 0
                               false false 0)) /\
  FindRoute (stackWith false {[ 1 := eth0; 7 := eth7 ]} [r8]) 0 []
            [x08; x08; x08; x08] 2048 false
    = Ret (tcpip.Err tcpip.ErrHostUnreachable).
Proof. repeat split; vm_compute; reflexivity. Qed.

End RoutingExamples.

(** * Further properties of the route table *)

Section RouteTableMore.

Implicit Types (T : tcpip.RouteList) (r e : tcpip.Route) (s : Stack).

Lemma addRouteLocked_perm r T : addRouteLocked r T ≡ₚ r :: T.
Proof.
  unfold addRouteLocked.
  destruct (addRouteLocked_from_split (tcpip.Prefix (tcpip.Destination r)) r T)
    as (l1 & l2 & -> & -> & _).
  symmetry. apply Permutation_middle.
Qed.

Lemma setRouteTable_perm_from acc new :
  foldl (fun acc r => addRouteLocked r acc) acc new ≡ₚ new ++ acc.
Proof.
  revert acc. induction new as [|r new IH]; simpl; intros acc; [done|].
  rewrite IH, addRouteLocked_perm. symmetry. apply Permutation_middle.
Qed.

(** A route whose prefix is no longer than any in the table goes to the
    back. *)
Lemma addRouteLocked_back r T :
  Forall (fun e => tcpip.Prefix (tcpip.Destination r)
                   <= tcpip.Prefix (tcpip.Destination e)) T ->
  addRouteLocked r T = T ++ [r].
Proof.
  unfold addRouteLocked.
  induction T as [|e T IH]; simpl; intros Hall; [done|].
  apply Forall_cons in Hall as [He Hall].
  destruct (Z.ltb_spec (tcpip.Prefix (tcpip.Destination e))
                       (tcpip.Prefix (tcpip.Destination r))); [lia|].
  by rewrite IH.
Qed.

Lemma setRouteTable_sorted_from_id acc new :
  sortedByPrefix (acc ++ new) ->
  foldl (fun acc r => addRouteLocked r acc) acc new = acc ++ new.
Proof.
  revert acc. induction new as [|r new IH]; simpl; intros acc Hs.
  - by rewrite app_nil_r.
  - rewrite addRouteLocked_back.
    + rewrite IH; rewrite <- app_assoc; [done | exact Hs].
    + apply StronglySorted_app in Hs as (Hcross & _ & _).
      apply Forall_forall. intros e He.
      apply (Hcross e r He). apply list_elem_of_here.
Qed.

Lemma filter_addRouteLocked_from_false (f : tcpip.Route -> bool) p r n :
  f r = false ->
  List.filter f (addRouteLocked_from p r n) = List.filter f n.
Proof.
  intros Hf.
  destruct (addRouteLocked_from_split p r n) as (l1 & l2 & -> & -> & _).
  rewrite !List.filter_app. simpl. by rewrite Hf.
Qed.

Lemma filter_addRouteLocked_from_true (f : tcpip.Route -> bool) p r n :
  f r = true ->
  Forall (fun e => f e = false) n ->
  List.filter f (addRouteLocked_from p r n) = [r].
Proof.
  intros Hf Hn.
  destruct (addRouteLocked_from_split p r n) as (l1 & l2 & -> & -> & _).
  apply Forall_app in Hn as [H1 H2].
  rewrite List.filter_app. simpl. rewrite Hf.
  assert (forall l, Forall (fun e => f e = false) l -> List.filter f l = []) as Hnil.
  { induction 1 as [|x l Hx _ IH]; simpl; [done|]. by rewrite Hx. }
  by rewrite (Hnil l1 H1), (Hnil l2 H2).
Qed.

Lemma Equal_refl r : tcpip.Equal r r = true.
Proof. unfold tcpip.Equal. by rewrite !bool_decide_eq_true_2. Qed.

Lemma filter_negb_Forall (f : tcpip.Route -> bool) T :
  Forall (fun e => f e = false) (List.filter (fun e => negb (f e)) T).
Proof.
  apply Forall_forall. intros e He.
  apply list_elem_of_In, filter_In in He as [_ He]. by apply negb_true_iff.
Qed.

Lemma filter_filter_negb (f : tcpip.Route -> bool) T :
  List.filter (fun e => negb (f e)) (List.filter (fun e => negb (f e)) T)
  = List.filter (fun e => negb (f e)) T.
Proof.
  induction T as [|e T IH]; simpl; [done|].
  destruct (f e) eqn:He; simpl; [done|]. by rewrite He, IH.
Qed.


(** X1.  [SetRouteTable] installs the routes of its argument, each as often
    as it occurs there and none of the previous table, sorted longest
    prefix first. *)
Theorem SetRouteTable_sorts s (table : list tcpip.Route) :
  GetRouteTable (SetRouteTable s table) ≡ₚ table /\
  sortedByPrefix (GetRouteTable (SetRouteTable s table)).
Proof.
  split.
  - simpl. unfold setRouteTable.
    rewrite setRouteTable_perm_from. by rewrite app_nil_r.
  - apply setRouteTable_sorted.
Qed.

(** X2.  A slice that is already sorted longest prefix first is installed
    as it is, so [SetRouteTable(GetRouteTable())] gives back the same
    table. *)
Theorem SetRouteTable_GetRouteTable s (table : list tcpip.Route) :
  sortedByPrefix table ->
  GetRouteTable (SetRouteTable s table) = table.
Proof.
  intros Hs. simpl. unfold setRouteTable.
  by rewrite setRouteTable_sorted_from_id.
Qed.

Lemma ReplaceRoute_unfold s r :
  ReplaceRoute s r
  = set_routeTable
      (addRouteLocked r
         (List.filter (fun e => negb (tcpip.Equal e r)) (routeTable s))) s.
Proof.
  unfold ReplaceRoute, removeRoutesLocked.
  pose proof (removeRoutesLocked_from_fst (fun rt => tcpip.Equal rt r) 0
                (routeTable s)) as Hfst.
  destruct (removeRoutesLocked_from _ 0 (routeTable s)) as [rt c].
  simpl in Hfst. by subst rt.
Qed.

(** X3.  [ReplaceRoute] leaves exactly one entry with the lookup key of the
    route, the route itself; the entries with another key are the ones
    that were there, in their order; a sorted table stays sorted. *)
Theorem ReplaceRoute_spec s r :
  List.filter (fun e => tcpip.Equal e r) (GetRouteTable (ReplaceRoute s r)) = [r] /\
  List.filter (fun e => negb (tcpip.Equal e r)) (GetRouteTable (ReplaceRoute s r))
    = List.filter (fun e => negb (tcpip.Equal e r)) (routeTable s) /\
  (sortedByPrefix (routeTable s) ->
   sortedByPrefix (GetRouteTable (ReplaceRoute s r))).
Proof.
  unfold ReplaceRoute, removeRoutesLocked.
  pose proof (removeRoutesLocked_from_fst (fun rt => tcpip.Equal rt r) 0
                (routeTable s)) as Hfst.
  destruct (removeRoutesLocked_from _ 0 (routeTable s)) as [rt c].
  simpl in *. subst rt. unfold addRouteLocked.
  split; [|split].
  - apply filter_addRouteLocked_from_true; [apply Equal_refl|].
    apply (filter_negb_Forall (fun e => tcpip.Equal e r)).
  - rewrite filter_addRouteLocked_from_false
      by (by rewrite Equal_refl).
    apply (filter_filter_negb (fun e => tcpip.Equal e r)).
  - intros Hs. apply addRouteLocked_sorted. by apply sortedByPrefix_filter.
Qed.

(** X4.  [ReplaceRoute] is idempotent. *)
Theorem ReplaceRoute_idempotent s r :
  ReplaceRoute (ReplaceRoute s r) r = ReplaceRoute s r.
Proof.
  rewrite (ReplaceRoute_unfold (ReplaceRoute s r)).
  rewrite (ReplaceRoute_unfold s). simpl.
  unfold set_routeTable. simpl. f_equal.
  unfold addRouteLocked at 2.
  rewrite filter_addRouteLocked_from_false by (by rewrite Equal_refl).
  by rewrite (filter_filter_negb (fun e => tcpip.Equal e r)).
Qed.

Lemma RemoveRoutes_fst s (p : tcpip.Route -> bool) :
  (RemoveRoutes s p).1
  = set_routeTable (List.filter (fun r => negb (p r)) (routeTable s)) s.
Proof.
  unfold RemoveRoutes, removeRoutesLocked.
  pose proof (removeRoutesLocked_from_fst p 0 (routeTable s)) as Hfst.
  destruct (removeRoutesLocked_from p 0 (routeTable s)) as [rt c].
  simpl in *. by subst rt.
Qed.







End RouteTableMore.

(** * Further properties of the NIC map *)

Section NICMore.

Context `{!NICPkg} `{!CoordinatorPkg} `{!GoRuntime}.

Implicit Types (s : Stack) (id : tcpip.NICID) (n : nic.t).

Lemma wrap_int32_small z : - 2 ^ 31 <= z < 2 ^ 31 -> wrap_int32 z = z.
Proof. intros Hz. unfold wrap_int32. rewrite Z.mod_small; lia. Qed.

(** X7.  While the generator is below the largest [int32], [NextNICID]
    returns the next number, which is positive and larger than every id
    it returned before; at the largest [int32] it panics. *)
Theorem NextNICID_fresh s :
  0 <= nicIDGen s < 2 ^ 31 ->
  (nicIDGen s < 2 ^ 31 - 1 ->
   (NextNICID s).2 = Ret (nicIDGen s + 1) /\
   nicIDGen (NextNICID s).1 = nicIDGen s + 1 /\
   nics (NextNICID s).1 = nics s /\
   routeTable (NextNICID s).1 = routeTable s) /\
  (nicIDGen s = 2 ^ 31 - 1 ->
   exists msg, (NextNICID s).2 = Panic msg).
Proof.
  intros Hrange. unfold NextNICID. simpl. split.
  - intros Hlt. rewrite wrap_int32_small by lia.
    destruct (Z.ltb_spec (nicIDGen s + 1) 0); [lia|]. done.
  - intros ->. eexists. vm_compute. reflexivity.
Qed.

Lemma find_rangeNICs_Some (f : Z * nic.t -> bool) (m : gmap Z nic.t) k n :
  List.find f (rangeNICs m) = Some (k, n) -> m !! k = Some n /\ f (k, n) = true.
Proof.
  intros Hfind. apply find_some in Hfind as [Hin Hf].
  split; [|exact Hf]. by apply rangeNICs_elem, list_elem_of_In.
Qed.

Lemma find_rangeNICs_None (f : Z * nic.t -> bool) (m : gmap Z nic.t) k n :
  List.find f (rangeNICs m) = None -> m !! k = Some n -> f (k, n) = false.
Proof.
  intros Hfind Hk. apply (find_none _ _ Hfind).
  by apply list_elem_of_In, rangeNICs_elem.
Qed.

Lemma nameTaken_false s (name : string) :
  (forall k m, nics s !! k = Some m -> nic.Name m <> name) ->
  existsb (fun '(_, n0) => bool_decide (nic.Name n0 = name)) (rangeNICs (nics s))
  = false.
Proof.
  intros Hfree. apply not_true_is_false. intros Hex.
  apply existsb_rangeNICs in Hex as (k & m & Hk & Hm).
  apply bool_decide_eq_true in Hm. by apply (Hfree k m).
Qed.

(** X8.  For an id other than 0 that is not in the map and a name that is
    empty or not in use, and when the default forwarding settings apply
    to the new NIC, [CreateNICWithOptions] puts the NIC into the map under
    that id and registers the close callback, leaving the other NICs and
    the route table as they are.  When enabling the NIC fails, the error
    is returned and the NIC is in the map all the same. *)
Theorem CreateNICWithOptions_adds s id ep opts n :
  id <> 0 ->
  nics s !! id = None ->
  NICOptions.Name opts = EmptyString \/
  (forall k m, nics s !! k = Some m -> nic.Name m <> NICOptions.Name opts) ->
  applyDefaultForwarding (newNIC s id ep opts)
                         (rangeProtos (defaultForwardingEnabled s)) = Ret n ->
  exists s' calls err,
    CreateNICWithOptions s id ep opts = Ret (s', calls, err) /\
    nics s' = <[id := if NICOptions.Disabled opts then n else (enable n).1]> (nics s) /\
    err = (if NICOptions.Disabled opts then None else (enable n).2) /\
    HasNIC s' id = true /\
    (forall id', id' <> id -> nics s' !! id' = nics s !! id') /\
    routeTable s' = routeTable s /\
    head calls = Some (CallSetOnCloseAction ep id).
Proof.
  intros Hid Hfresh Hname Hfwd. unfold CreateNICWithOptions.
  rewrite (bool_decide_eq_false_2 _ Hid).
  rewrite bool_decide_eq_false_2 by (rewrite Hfresh; by intros [? ?]).
  assert (negb (bool_decide (NICOptions.Name opts = EmptyString))
          && existsb (fun '(_, n0) => bool_decide (nic.Name n0 = NICOptions.Name opts))
                     (rangeNICs (nics s)) = false) as ->.
  { destruct Hname as [-> | Hfree]; [done|].
    rewrite (nameTaken_false s _ Hfree). apply andb_false_r. }
  rewrite Hfwd. simpl.
  destruct (NICOptions.Disabled opts); simpl.
  - eexists _, _, _. split; [reflexivity|]. simpl.
    split; [done|]. split; [done|]. split.
    { unfold HasNIC. simpl. apply bool_decide_eq_true_2.
      rewrite lookup_insert_eq. by eexists. }
    split; [|done].
    intros id' Hne. by rewrite lookup_insert_ne.
  - destruct (enable n) as [n' err]. simpl.
    eexists _, _, _. split; [reflexivity|]. simpl.
    split; [done|]. split; [done|]. split.
    { unfold HasNIC. simpl. apply bool_decide_eq_true_2.
      rewrite lookup_insert_eq. by eexists. }
    split; [|done].
    intros id' Hne. by rewrite lookup_insert_ne.
Qed.

(** What a returning [CreateNICWithOptions] does to the NIC map: nothing,
    or one insertion at the id. *)
Lemma CreateNICWithOptions_nics s id ep opts s' calls err :
  CreateNICWithOptions s id ep opts = Ret (s', calls, err) ->
  (s' = s /\ calls = [] /\
   (err = Some tcpip.ErrInvalidNICID \/ err = Some tcpip.ErrDuplicateNICID) /\
   (id = 0 \/ is_Some (nics s !! id) \/
    (NICOptions.Name opts <> EmptyString /\
     exists k m, nics s !! k = Some m /\ nic.Name m = NICOptions.Name opts))) \/
  (id <> 0 /\ nics s !! id = None /\
   (NICOptions.Name opts = EmptyString \/
    forall k m, nics s !! k = Some m -> nic.Name m <> NICOptions.Name opts) /\
   exists n n',
     applyDefaultForwarding (newNIC s id ep opts)
                            (rangeProtos (defaultForwardingEnabled s)) = Ret n /\
     (n' = n \/ n' = (enable n).1) /\
     s' = set_nics (<[id := n']> (nics s)) s).
Proof.
  unfold CreateNICWithOptions.
  destruct (decide (id = 0)) as [->|Hid].
  { rewrite bool_decide_eq_true_2 by done. intros [= <- <- <-].
    left. repeat split; auto. }
  rewrite (bool_decide_eq_false_2 _ Hid).
  destruct (decide (is_Some (nics s !! id))) as [Hin|Hnotin].
  { rewrite bool_decide_eq_true_2 by done. intros [= <- <- <-].
    left. repeat split; auto. }
  rewrite (bool_decide_eq_false_2 _ Hnotin).
  destruct (negb (bool_decide (NICOptions.Name opts = EmptyString))
            && existsb (fun '(_, n0) => bool_decide (nic.Name n0 = NICOptions.Name opts))
                       (rangeNICs (nics s))) eqn:Hname.
  { intros [= <- <- <-]. left. repeat split; auto.
    apply andb_true_iff in Hname as [Hne Hex].
    right. right. split.
    - apply negb_true_iff, bool_decide_eq_false in Hne. exact Hne.
    - apply existsb_rangeNICs in Hex as (k & m & Hk & Hm).
      exists k, m. split; [exact Hk|]. by apply bool_decide_eq_true in Hm. }
  destruct (applyDefaultForwarding _ _) as [n|msg] eqn:Hfwd; simpl; [|discriminate].
  assert (nics s !! id = None) as Hnone.
  { destruct (nics s !! id) eqn:E; [|done]. exfalso. apply Hnotin. by eexists. }
  assert (NICOptions.Name opts = EmptyString \/
          forall k m, nics s !! k = Some m -> nic.Name m <> NICOptions.Name opts)
    as Hfree.
  { apply andb_false_iff in Hname as [Hempty | Hex].
    - left. apply negb_false_iff, bool_decide_eq_true in Hempty. exact Hempty.
    - right. intros k m Hk Hm.
      assert (existsb (fun '(_, n0) => bool_decide (nic.Name n0 = NICOptions.Name opts))
                      (rangeNICs (nics s)) = true) as Htrue.
      { apply existsb_rangeNICs. exists k, m. split; [done|].
        by apply bool_decide_eq_true_2. }
      congruence. }
  destruct (NICOptions.Disabled opts); simpl.
  - intros [= <- <- <-]. right. split; [done|]. split; [done|].
    split; [exact Hfree|]. exists n, n. auto.
  - destruct (enable n) as [n' e] eqn:Hen. intros [= <- <- <-].
    right. split; [done|]. split; [done|]. split; [exact Hfree|].
    exists n, n'. split; [done|]. split; [|done]. right. by rewrite Hen.
Qed.

(** X9.  Whatever a first [CreateNICWithOptions] for an id other than 0
    returned, a second one for the same id and options is refused with
    [DuplicateNICID] and changes nothing. *)
Theorem CreateNICWithOptions_twice s id ep ep' opts s' calls err :
  id <> 0 ->
  CreateNICWithOptions s id ep opts = Ret (s', calls, err) ->
  CreateNICWithOptions s' id ep' opts = Ret (s', [], Some tcpip.ErrDuplicateNICID).
Proof.
  intros Hid Hfirst.
  apply CreateNICWithOptions_nics in Hfirst
    as [(-> & _ & _ & Hwhy) | (_ & _ & _ & n & n' & _ & _ & ->)].
  - unfold CreateNICWithOptions.
    rewrite (bool_decide_eq_false_2 _ Hid).
    destruct Hwhy as [Hzero | [Hin | (Hne & k & m & Hk & Hm)]]; [done | |].
    + by rewrite bool_decide_eq_true_2.
    + destruct (bool_decide (is_Some (nics s !! id))); [done|].
      rewrite (bool_decide_eq_false_2 _ Hne). simpl.
      assert (existsb (fun '(_, n0) => bool_decide (nic.Name n0 = NICOptions.Name opts))
                      (rangeNICs (nics s)) = true) as ->; [|done].
      apply existsb_rangeNICs. exists k, m. split; [done|].
      by apply bool_decide_eq_true_2.
  - unfold CreateNICWithOptions.
    rewrite (bool_decide_eq_false_2 _ Hid). simpl.
    rewrite bool_decide_eq_true_2; [done|].
    rewrite lookup_insert_eq. by eexists.
Qed.

(** X10.  Removing a NIC that [CreateNICWithOptions] has just added gives
    back the NIC map as it was before the creation, also when the NIC's
    coordinator or teardown reports an error. *)
Theorem CreateNICWithOptions_RemoveNIC s id ep opts s' calls err :
  HasNIC s id = false ->
  CreateNICWithOptions s id ep opts = Ret (s', calls, err) ->
  HasNIC s' id = true ->
  nics (RemoveNIC s' id).1.1 = nics s.
Proof.
  intros Hnot Hcreate Hhas.
  apply bool_decide_eq_false in Hnot.
  apply CreateNICWithOptions_nics in Hcreate
    as [(-> & _) | (_ & Hnone & _ & n & n' & _ & _ & ->)].
  - apply bool_decide_eq_true in Hhas. contradiction.
  - unfold RemoveNIC, removeNICLocked. simpl. rewrite lookup_insert_eq.
    destruct (match nic.Primary n' with
              | Some b => ([CallDelNIC b id], DelNIC b n')
              | None => ([], None)
              end) as [cs [e|]]; [|destruct (remove n' true)]; simpl;
      by rewrite delete_insert_id.
Qed.

End NICMore.

Section NICInvariants.

Context `{!NICPkg} `{!CoordinatorPkg} `{!GoRuntime}.

Implicit Types (s : Stack) (id : tcpip.NICID) (n : nic.t).

Lemma applyDefaultForwarding_identity n protos n' :
  keepsIdentity ->
  applyDefaultForwarding n protos = Ret n' ->
  nic.id n' = nic.id n /\ nic.Name n' = nic.Name n.
Proof.
  intros (_ & Hfwd & _). revert n.
  induction protos as [|proto rest IH]; simpl; intros n.
  - by intros [= ->].
  - pose proof (Hfwd n proto true) as [Hi Hn].
    destruct (setForwarding n proto true) as [n1 [b|e]]; [|discriminate].
    simpl in *. intros Hrest. apply IH in Hrest as [-> ->]. done.
Qed.

Lemma RemoveNIC_nics s id :
  nics (RemoveNIC s id).1.1 = delete id (nics s).
Proof.
  unfold RemoveNIC, removeNICLocked.
  destruct (nics s !! id) as [n|] eqn:Hn.
  - destruct (match nic.Primary n with
              | Some b => ([CallDelNIC b id], DelNIC b n)
              | None => ([], None)
              end) as [cs [e|]]; [|destruct (remove n true)]; done.
  - simpl. symmetry. by apply delete_id.
Qed.

(** X11.  [CreateNICWithOptions] and [RemoveNIC] keep the NIC map well
    formed (every NIC under its own id, none under 0) and the non-empty
    names unique, given that a new NIC carries the id and name it was made
    with and that [setForwarding] and [enable] change neither. *)
Theorem NIC_map_invariants s id ep opts :
  keepsIdentity ->
  nicsWellFormed s ->
  namesUnique s ->
  (forall s' calls err,
     CreateNICWithOptions s id ep opts = Ret (s', calls, err) ->
     nicsWellFormed s' /\ namesUnique s') /\
  (nicsWellFormed (RemoveNIC s id).1.1 /\ namesUnique (RemoveNIC s id).1.1).
Proof.
  intros Hkeep Hwf Huniq. split.
  - intros s' calls err Hcreate.
    apply CreateNICWithOptions_nics in Hcreate
      as [(-> & _) | (Hid & Hnone & Hfree & n & n' & Hfwd & Hn' & ->)]; [done|].
    pose proof Hkeep as (Hnew & _ & Hen).
    destruct (Hnew s id ep opts) as [Hnewid Hnewname].
    destruct (applyDefaultForwarding_identity _ _ _ Hkeep Hfwd) as [Hi Hn].
    assert (nic.id n' = id /\ nic.Name n' = NICOptions.Name opts) as [Hid' Hname'].
    { destruct Hn' as [-> | ->].
      - by rewrite Hi, Hn.
      - destruct (Hen n) as [-> ->]. by rewrite Hi, Hn. }
    split.
    + intros k m. simpl. rewrite lookup_insert.
      case_decide as Hk; [|apply Hwf].
      intros [= <-]. by subst k.
    + intros i j a b. simpl. rewrite !lookup_insert.
      case_decide as Hi'; case_decide as Hj'; try congruence.
      * intros [= <-] Hb Hne Heq. exfalso.
        rewrite Hname' in Hne, Heq.
        destruct Hfree as [Hempty | Hfree]; [done|].
        by apply (Hfree j b Hb).
      * intros Ha [= <-] Hne Heq. exfalso.
        rewrite Hname' in Heq.
        destruct Hfree as [Hempty | Hfree]; [congruence|].
        by apply (Hfree i a Ha).
      * apply Huniq.
  - unfold nicsWellFormed, namesUnique. rewrite RemoveNIC_nics. split.
    + intros k m Hk. apply lookup_delete_Some in Hk as [_ Hk]. by apply Hwf.
    + intros i j a b Ha Hb.
      apply lookup_delete_Some in Ha as [_ Ha].
      apply lookup_delete_Some in Hb as [_ Hb].
      by apply Huniq.
Qed.

End NICInvariants.

Section NICNames.

Context `{!NICPkg} `{!CoordinatorPkg} `{!GoRuntime}.

Implicit Types (s : Stack) (id : tcpip.NICID) (n : nic.t).

(** X12.  [SetNICName] on a NIC of the stack always succeeds, also when
    another NIC has that name already; afterwards [FindNICNameFromID]
    gives the new name for this id and the old answers for the others,
    and a NIC with that (non-empty) name can no longer be created.  On an
    id that is not in the map it returns [UnknownNICID] and changes
    nothing. *)
Theorem SetNICName_FindNICNameFromID s id (name : string) :
  (is_Some (nics s !! id) ->
   (SetNICName s id name).2 = None /\
   FindNICNameFromID (SetNICName s id name).1 id = name /\
   (forall id', id' <> id ->
      FindNICNameFromID (SetNICName s id name).1 id' = FindNICNameFromID s id') /\
   (forall id', HasNIC (SetNICName s id name).1 id' = HasNIC s id') /\
   routeTable (SetNICName s id name).1 = routeTable s /\
   (name <> EmptyString ->
    forall id2 ep disabled,
      id2 <> 0 ->
      CreateNICWithOptions (SetNICName s id name).1 id2 ep
                           (NICOptions.mk name disabled)
        = Ret ((SetNICName s id name).1, [], Some tcpip.ErrDuplicateNICID))) /\
  (nics s !! id = None ->
   SetNICName s id name = (s, Some tcpip.ErrUnknownNICID)).
Proof.
  unfold SetNICName. split.
  - intros [n Hn]. rewrite Hn. simpl.
    split; [done|]. split.
    { unfold FindNICNameFromID. simpl. by rewrite lookup_insert_eq. }
    split.
    { intros id' Hne. unfold FindNICNameFromID. simpl.
      by rewrite lookup_insert_ne. }
    split.
    { intros id'. unfold HasNIC. simpl.
      destruct (decide (id' = id)) as [->|Hne].
      - rewrite lookup_insert_eq, Hn.
        rewrite !bool_decide_eq_true_2; [done | by eexists | by eexists].
      - by rewrite lookup_insert_ne. }
    split; [done|].
    intros Hname id2 ep disabled Hid2. unfold CreateNICWithOptions.
    rewrite (bool_decide_eq_false_2 _ Hid2).
    destruct (bool_decide (is_Some _)); [done|].
    simpl. rewrite (bool_decide_eq_false_2 _ Hname). simpl.
    match goal with
    | |- context [existsb ?f ?l] =>
        assert (existsb f l = true) as ->; [|done]
    end.
    apply existsb_rangeNICs. exists id, (nic_set_name name n).
    split; [by rewrite lookup_insert_eq|].
    by apply bool_decide_eq_true_2.
  - intros ->. done.
Qed.

(** X13.  [GetLinkEndpointByName] returns nil exactly when no NIC has the
    name; what it returns is the link endpoint of a NIC with that name,
    and of the NIC with that name when there is only one. *)
Theorem GetLinkEndpointByName_spec s (name : string) :
  (GetLinkEndpointByName s name = None <->
   forall k m, nics s !! k = Some m -> nic.Name m <> name) /\
  (forall ep,
     GetLinkEndpointByName s name = Some ep ->
     exists k m, nics s !! k = Some m /\ nic.Name m = name /\
                 nic.NetworkLinkEndpoint m = ep) /\
  (forall k m,
     nics s !! k = Some m -> nic.Name m = name ->
     (forall k' m', nics s !! k' = Some m' -> nic.Name m' = name -> k' = k) ->
     GetLinkEndpointByName s name = Some (nic.NetworkLinkEndpoint m)).
Proof.
  unfold GetLinkEndpointByName.
  destruct (List.find _ (rangeNICs (nics s))) as [[k0 m0]|] eqn:Hfind.
  - apply find_rangeNICs_Some in Hfind as [Hk0 Hm0].
    apply bool_decide_eq_true in Hm0.
    split; [|split].
    + split; [discriminate|]. intros Hnone. exfalso. by apply (Hnone k0 m0).
    + intros ep [= <-]. by exists k0, m0.
    + intros k m Hk Hm Honly.
      assert (k0 = k) as -> by (by apply (Honly k0 m0)).
      rewrite Hk in Hk0. by injection Hk0 as ->.
  - split; [|split].
    + split; [|done]. intros _ k m Hk Hm.
      pose proof (find_rangeNICs_None _ _ k m Hfind Hk) as Hf.
      apply bool_decide_eq_false in Hf. contradiction.
    + discriminate.
    + intros k m Hk Hm _.
      pose proof (find_rangeNICs_None _ _ k m Hfind Hk) as Hf.
      apply bool_decide_eq_false in Hf. contradiction.
Qed.

(** X14.  When [SetNICStack] with another stack as the peer returns,
    whatever it returns, the NIC has left the stack it was in: it is not
    in that stack's map, the routes through it are purged, and it was
    removed without closing its link endpoint. *)
Theorem SetNICStack_leaves (h h' : gmap Z Stack) (sp peer : Z) s id calls res :
  h !! sp = Some s ->
  sp <> peer ->
  is_Some (nics s !! id) ->
  SetNICStack h sp id peer = Ret (h', calls, res) ->
  exists s',
    h' !! sp = Some s' /\
    HasNIC s' id = false /\
    GetRouteTable s'
      = List.filter (fun r => negb (bool_decide (tcpip.NIC r = id))) (routeTable s) /\
    (forall id', id' <> id -> HasNIC s' id' = HasNIC s id') /\
    head calls = Some (CallRemove id false).
Proof.
  intros Hs Hne [n Hn]. unfold SetNICStack. rewrite Hs, Hn.
  rewrite (bool_decide_eq_false_2 _ Hne).
  pose proof (RemoveRoutes_fst (set_nics (delete id (nics s)) s)
                (fun r => bool_decide (tcpip.NIC r = id))) as Hfst.
  destruct (RemoveRoutes _ _) as [st2 c]. simpl in Hfst. subst st2.
  destruct (remove n false) as [deferAct err].
  set (s1 := set_routeTable _ _).
  assert (HasNIC s1 id = false /\
          GetRouteTable s1
            = List.filter (fun r => negb (bool_decide (tcpip.NIC r = id)))
                          (routeTable s) /\
          (forall id', id' <> id -> HasNIC s1 id' = HasNIC s id')) as Hs1.
  { subst s1. unfold HasNIC. simpl. split; [|split; [done|]].
    - apply bool_decide_eq_false_2. rewrite lookup_delete_eq. by intros [? ?].
    - intros id' Hid'. by rewrite lookup_delete_ne. }
  destruct err as [e|].
  - intros [= <- <- <-]. exists s1.
    split; [by rewrite lookup_insert_eq|].
    destruct Hs1 as (? & ? & ?). done.
  - rewrite lookup_insert_ne by done.
    destruct (h !! peer) as [p|]; [|discriminate].
    destruct (NextNICID p) as [p1 [id'|msg]]; simpl; [|discriminate].
    destruct (CreateNICWithOptions p1 id' _ _) as [[[p2 calls2] err2]|msg];
      simpl; [|discriminate].
    intros [= <- <- <-]. exists s1.
    split; [by rewrite lookup_insert_ne, lookup_insert_eq|].
    destruct Hs1 as (? & ? & ?). done.
Qed.

(** X15.  [SetNICCoordinator] succeeds only for a NIC whose own link
    endpoint is not a coordinator and a NIC [mid] of the same stack whose
    link endpoint is one; it then records that coordinator, which is the
    one [RemoveNIC] later detaches the NIC from.  When it returns an error
    the stack is unchanged. *)
Theorem SetNICCoordinator_spec s id mid :
  (forall s',
     SetNICCoordinator s id mid = (s', None) ->
     exists n m b,
       nics s !! id = Some n /\
       asCoordinatorNIC (nic.NetworkLinkEndpoint n) = None /\
       nics s !! mid = Some m /\
       asCoordinatorNIC (nic.NetworkLinkEndpoint m) = Some b /\
       AddNIC b n = None /\
       nics s' = <[id := nic_set_Primary (Some b) n]> (nics s) /\
       head (RemoveNIC s' id).1.2 = Some (CallDelNIC b id)) /\
  (forall s' err, SetNICCoordinator s id mid = (s', Some err) -> s' = s) /\
  (forall n b,
     nics s !! id = Some n ->
     asCoordinatorNIC (nic.NetworkLinkEndpoint n) = Some b ->
     SetNICCoordinator s id mid = (s, Some tcpip.ErrNoSuchFile)).
Proof.
  unfold SetNICCoordinator. split; [|split].
  - intros s'.
    destruct (nics s !! id) as [n|] eqn:Hn; [|discriminate].
    destruct (asCoordinatorNIC (nic.NetworkLinkEndpoint n)) eqn:Hnc; [discriminate|].
    destruct (nics s !! mid) as [m|] eqn:Hm; [|discriminate].
    destruct (asCoordinatorNIC (nic.NetworkLinkEndpoint m)) as [b|] eqn:Hmc;
      [|discriminate].
    destruct (AddNIC b n) eqn:Hadd; [discriminate|].
    intros [= <-]. exists n, m, b. repeat (split; [done|]).
    unfold RemoveNIC, removeNICLocked. simpl. rewrite lookup_insert_eq. simpl.
    destruct (DelNIC b _); [done|].
    by destruct (remove _ true).
  - intros s' err.
    destruct (nics s !! id) as [n|]; [|by intros [= <-]].
    destruct (asCoordinatorNIC (nic.NetworkLinkEndpoint n)); [by intros [= <-]|].
    destruct (nics s !! mid) as [m|]; [|by intros [= <-]].
    destruct (asCoordinatorNIC (nic.NetworkLinkEndpoint m)) as [b|];
      [|by intros [= <-]].
    destruct (AddNIC b n); [by intros [= <-]|discriminate].
  - intros n b Hn Hb. by rewrite Hn, Hb.
Qed.

End NICNames.

Section ForwardingAndConfig.

Context `{!NICPkg} `{!CoordinatorPkg} `{!GoRuntime}.

Implicit Types (s : Stack) (id : tcpip.NICID) (n : nic.t).

Lemma setForwardingAllNICs_dom protocol enable_ doneOnce (m m' : gmap Z nic.t)
    (l : list (Z * nic.t)) r :
  (forall k v, (k, v) ∈ l -> is_Some (m !! k)) ->
  setForwardingAllNICs protocol enable_ doneOnce m l = Ret (m', r) ->
  forall k, is_Some (m' !! k) <-> is_Some (m !! k).
Proof.
  revert m doneOnce. induction l as [|[id n] rest IH]; simpl; intros m doneOnce Hin.
  - by intros [= <- <-].
  - assert (forall n' k, is_Some (<[id := n']> m !! k) <-> is_Some (m !! k)) as Hins.
    { intros n' k. rewrite lookup_insert. case_decide as Hk; [|done].
      subst k. split; [|by eexists]. intros _. apply (Hin id n).
      apply list_elem_of_here. }
    destruct (setForwarding n protocol enable_) as [n' [b|err]].
    + intros Hrest k. rewrite <- (Hins n' k).
      revert Hrest k. apply IH. intros k v Hkv. apply Hins.
      apply (Hin k v). by apply list_elem_of_further.
    + destruct doneOnce; [discriminate|]. intros [= <- <-] k. apply Hins.
Qed.

(** X16.  When [SetForwardingDefaultAndAllNICs] returns no error, the
    protocol is in the default set exactly if forwarding was enabled, and
    the other protocols are in it as before; when it returns an error the
    default set is unchanged.  Either way the same NIC ids are in the map
    and the route table is the same.  On a stack without NICs it returns
    no error. *)
Theorem SetForwardingDefaultAndAllNICs_spec s (protocol : Z) (enable_ : bool) :
  (forall s' r,
     SetForwardingDefaultAndAllNICs s protocol enable_ = Ret (s', r) ->
     (r = None ->
      forall q, q ∈ defaultForwardingEnabled s' <->
                (q = protocol /\ enable_ = true) \/
                (q <> protocol /\ q ∈ defaultForwardingEnabled s)) /\
     (r <> None -> defaultForwardingEnabled s' = defaultForwardingEnabled s) /\
     (forall id, HasNIC s' id = HasNIC s id) /\
     routeTable s' = routeTable s) /\
  (nics s = ∅ ->
   exists s', SetForwardingDefaultAndAllNICs s protocol enable_ = Ret (s', None)).
Proof.
  unfold SetForwardingDefaultAndAllNICs. split.
  - intros s' r.
    destruct (setForwardingAllNICs _ _ _ _ _) as [[m e]|msg] eqn:Hloop;
      simpl; [|discriminate].
    assert (forall k, is_Some (m !! k) <-> is_Some (nics s !! k)) as Hdom.
    { eapply setForwardingAllNICs_dom; [|exact Hloop].
      intros k v Hkv. apply rangeNICs_elem in Hkv. by eexists. }
    assert (forall x, (forall id, HasNIC (set_nics m x) id = HasNIC s id)) as Hhas.
    { intros x id. unfold HasNIC. simpl.
      apply bool_decide_ext, Hdom. }
    destruct e as [err|]; intros [= <- <-].
    + split; [discriminate|]. split; [done|]. split; [apply Hhas | done].
    + split.
      { intros _ q. simpl. clear Hloop Hdom Hhas. destruct enable_.
        - rewrite elem_of_union, elem_of_singleton.
          destruct (decide (q = protocol)); intuition congruence.
        - rewrite elem_of_difference, elem_of_singleton.
          destruct (decide (q = protocol)); intuition congruence. }
      split; [done|]. split; [|done].
      intros id. apply (Hhas s).
  - intros Hempty.
    assert (rangeNICs (nics s) = []) as ->.
    { apply Permutation_nil_r. rewrite rangeNICs_perm, Hempty.
      by rewrite map_to_list_empty. }
    simpl. by eexists.
Qed.

Lemma foldl_insert_lookup (m : gmap Z nic.t) (l : list (Z * nic.t)) k :
  NoDup (l.*1) ->
  foldl (fun acc kv => <[kv.1 := kv.2]> acc) m l !! k
  = match (list_to_map l : gmap Z nic.t) !! k with
    | Some v => Some v
    | None => m !! k
    end.
Proof.
  revert m. induction l as [|[k0 v0] l IH]; simpl; intros m Hnd; [done|].
  apply NoDup_cons in Hnd as [Hk0 Hnd].
  rewrite IH by done.
  destruct (decide (k = k0)) as [->|Hne].
  - rewrite (not_elem_of_list_to_map_1 l k0 Hk0).
    by rewrite !lookup_insert_eq.
  - by rewrite !lookup_insert_ne.
Qed.

Lemma replaceConfig_nics_spec s (l : list (Z * nic.t)) :
  0 <= nicIDGen s ->
  nicIDGen s + Z.of_nat (length l) < 2 ^ 31 ->
  exists s',
    replaceConfig_nics s l = Ret s' /\
    nics s' = foldl (fun acc kv => <[kv.1 := kv.2]> acc) (nics s) l /\
    nicIDGen s' = nicIDGen s + Z.of_nat (length l) /\
    routeTable s' = routeTable s.
Proof.
  revert s. induction l as [|[id n] rest IH]; simpl; intros s Hpos Hlen.
  - exists s. split; [done|]. split; [done|]. split; [lia | done].
  - unfold NextNICID. simpl.
    rewrite wrap_int32_small by lia.
    destruct (Z.ltb_spec (nicIDGen s + 1) 0); [lia|]. simpl.
    destruct (IH (set_nicIDGen (nicIDGen s + 1)
                    (set_nics (<[id := n]> (nics s)) s)))
      as (s' & Hrun & Hnics & Hgen & Hrt); simpl; [lia | lia |].
    exists s'. split; [exact Hrun|]. split; [exact Hnics|].
    split; [simpl in Hgen; lia | exact Hrt].
Qed.

(** X17.  As long as the id generator has room for one id per NIC,
    [ReplaceConfig] gives the stack the NIC map of the loaded stack and
    its routes, sorted (the very table if it was sorted), and advances the
    generator by the number of NICs.  With a nil stack it panics. *)
Theorem ReplaceConfig_spec s (st : Stack) :
  0 <= nicIDGen s ->
  nicIDGen s + Z.of_nat (size (nics st)) < 2 ^ 31 ->
  (exists s',
     ReplaceConfig s (Some st) = Ret s' /\
     nics s' = nics st /\
     nicIDGen s' = nicIDGen s + Z.of_nat (size (nics st)) /\
     GetRouteTable s' ≡ₚ GetRouteTable st /\
     sortedByPrefix (GetRouteTable s') /\
     (sortedByPrefix (routeTable st) -> GetRouteTable s' = GetRouteTable st)) /\
  (exists msg, ReplaceConfig s None = Panic msg).
Proof.
  intros Hpos Hlen. split; [|by eexists].
  unfold ReplaceConfig.
  assert (length (rangeNICs (nics st)) = size (nics st)) as Hlength.
  { rewrite (Permutation_length (rangeNICs_perm (nics st))).
    apply length_map_to_list. }
  destruct (replaceConfig_nics_spec
              (set_nics ∅ (SetRouteTable s (GetRouteTable st)))
              (rangeNICs (nics st)))
    as (s' & Hrun & Hnics & Hgen & Hrt); simpl; [lia | lia |].
  exists s'. split; [exact Hrun|]. simpl in *.
  split; [|split; [lia|]].
  - apply map_eq. intros k. rewrite Hnics.
    assert (NoDup ((rangeNICs (nics st)).*1)) as Hnd.
    { rewrite (rangeNICs_perm (nics st)). apply NoDup_fst_map_to_list. }
    rewrite foldl_insert_lookup by exact Hnd.
    rewrite (list_to_map_proper _ (map_to_list (nics st)) Hnd
               (rangeNICs_perm (nics st))).
    rewrite list_to_map_to_list, lookup_empty.
    by destruct (nics st !! k).
  - unfold GetRouteTable. rewrite Hrt. split; [|split].
    + unfold setRouteTable. rewrite setRouteTable_perm_from.
      by rewrite app_nil_r.
    + apply setRouteTable_sorted.
    + intros Hs. unfold setRouteTable.
      by rewrite setRouteTable_sorted_from_id.
Qed.

End ForwardingAndConfig.

(** * Further properties of address checks and routing *)

Section RoutingMore.

Context `{!header.Pkg} `{!tcpip.SubnetOps} `{!RoutePkg} `{!GoRuntime}.

Implicit Types (s : Stack) (id nicID : tcpip.NICID) (n : nic.t).

(** X18.  On a well-formed NIC map, [CheckLocalAddress] without a NIC id
    returns 0 when no NIC has the address, and otherwise the non-zero id
    of a NIC that has it, in whatever order the map is ranged over. *)
Theorem CheckLocalAddress_any_NIC s (protocol : Z) (addr : tcpip.Address) :
  nicsWellFormed s ->
  ((forall k n, nics s !! k = Some n ->
                nic.CheckLocalAddress n protocol addr = false) ->
   CheckLocalAddress s 0 protocol addr = 0) /\
  ((exists k n, nics s !! k = Some n /\
                nic.CheckLocalAddress n protocol addr = true) ->
   exists k n,
     nics s !! k = Some n /\
     nic.CheckLocalAddress n protocol addr = true /\
     CheckLocalAddress s 0 protocol addr = k /\ k <> 0).
Proof.
  intros Hwf. unfold CheckLocalAddress. simpl.
  destruct (List.find _ (rangeNICs (nics s))) as [[k0 n0]|] eqn:Hfind.
  - apply find_some in Hfind as [Hin Hown].
    apply list_elem_of_In, rangeNICs_elem in Hin.
    destruct (Hwf k0 n0 Hin) as [Hk0 Hnz]. split.
    + intros Hnone. rewrite (Hnone k0 n0 Hin) in Hown. discriminate.
    + intros _. exists k0, n0. by rewrite Hk0.
  - split; [done|]. intros (k & n & Hk & Hown). exfalso.
    assert (In (k, n) (rangeNICs (nics s))) as Hin
      by (by apply list_elem_of_In, rangeNICs_elem).
    pose proof (find_none _ _ Hfind (k, n) Hin) as Hf. simpl in Hf. congruence.
Qed.

Lemma findRoute_table_skip s id localAddr remoteAddr netProto multicastLoop
    needRoute_ onlyGlobal chosen (l1 rest : tcpip.RouteList) :
  Forall (fun route => routeUnusable s remoteAddr route = true) l1 ->
  findRoute_table s id localAddr remoteAddr netProto multicastLoop needRoute_
                  onlyGlobal chosen (l1 ++ rest)
  = findRoute_table s id localAddr remoteAddr netProto multicastLoop needRoute_
                    onlyGlobal chosen rest.
Proof.
  induction 1 as [|route l1 Hroute _ IH]; simpl; [done|].
  unfold routeUnusable in Hroute.
  destruct (negb (bool_decide (tcpip.BitLen remoteAddr = 0))
            && negb (tcpip.Contains (tcpip.Destination route) remoteAddr));
    [exact IH|].
  simpl in Hroute.
  destruct (nics s !! tcpip.NIC route) as [n|]; [|exact IH].
  rewrite Hroute. exact IH.
Qed.

Lemma FindRoute_table_branch s id localAddr remoteAddr netProto multicastLoop :
  CheckNetworkProtocol s netProto = true ->
  triesLocalRoute s remoteAddr = false \/
  findLocalRouteRLocked s id localAddr remoteAddr netProto = None ->
  id = 0 \/ needRoute remoteAddr = true ->
  FindRoute s id localAddr remoteAddr netProto multicastLoop =
    (out <-! findRoute_table s id localAddr remoteAddr netProto multicastLoop
               (needRoute remoteAddr)
               (negb (header.IsV6LinkLocalUnicastAddress localAddr)
                && negb (isLinkLocal remoteAddr))
               tcpip.Route_zero (routeTable s);
     match out with
     | (Some r, _) => Ret (tcpip.Ok r)
     | (None, chosenRoute) =>
         findRoute_chosen s id localAddr remoteAddr netProto multicastLoop
                          (needRoute remoteAddr) chosenRoute
     end).
Proof.
  intros Hproto Hlocal Hbranch. unfold FindRoute.
  rewrite Hproto. cbn [negb].
  rewrite FindRoute_unfold_needRoute.
  change (handleLocal s
          && negb (header.IsV4MulticastAddress remoteAddr
                   || header.IsV6MulticastAddress remoteAddr)
          && negb (bool_decide (remoteAddr = header.IPv4Broadcast)))
    with (triesLocalRoute s remoteAddr).
  assert ((if triesLocalRoute s remoteAddr
           then findLocalRouteRLocked s id localAddr remoteAddr netProto
           else None) = None) as ->.
  { destruct Hlocal as [-> | Hnone]; [done|].
    by destruct (triesLocalRoute s remoteAddr). }
  assert (negb (bool_decide (id = 0)) && negb (needRoute remoteAddr) = false) as ->.
  { destruct Hbranch as [-> | ->]; [done|]. apply andb_false_r. }
  reflexivity.
Qed.

(** X19.  When no local route comes first and the table is consulted (no
    NIC id given, or a remote that needs a route), the first entry in
    table order that contains the remote address and whose NIC is enabled
    decides, if that NIC is the one asked for and has an address endpoint:
    the route goes out through it, with the entry's gateway when a route
    is needed and its MTU.  The table being sorted, this is the longest
    matching prefix. *)
Theorem FindRoute_first_match s id localAddr remoteAddr netProto multicastLoop
    (l1 l2 : tcpip.RouteList) (route : tcpip.Route) n addressEndpoint r :
  CheckNetworkProtocol s netProto = true ->
  triesLocalRoute s remoteAddr = false \/
  findLocalRouteRLocked s id localAddr remoteAddr netProto = None ->
  id = 0 \/ needRoute remoteAddr = true ->
  routeTable s = l1 ++ route :: l2 ->
  Forall (fun e => routeUnusable s remoteAddr e = true) l1 ->
  routeUnusable s remoteAddr route = false ->
  nics s !! tcpip.NIC route = Some n ->
  id = 0 \/ id = tcpip.NIC route ->
  getAddressEP n localAddr remoteAddr (tcpip.SourceHint route) netProto
    = Some addressEndpoint ->
  constructAndValidateRoute netProto addressEndpoint n n
    (if needRoute remoteAddr then tcpip.Gateway route else [])
    localAddr remoteAddr (handleLocal s) multicastLoop (tcpip.MTU route)
    = Some r ->
  FindRoute s id localAddr remoteAddr netProto multicastLoop = Ret (tcpip.Ok r).
Proof.
  intros Hproto Hlocal Hbranch Htable Hl1 Husable Hn Hid Hep Hr.
  rewrite (FindRoute_table_branch _ _ _ _ _ _ Hproto Hlocal Hbranch).
  rewrite Htable, findRoute_table_skip by exact Hl1.
  simpl. unfold routeUnusable in Husable.
  apply orb_false_iff in Husable as [Hcontains Hen].
  rewrite Hcontains, Hn. rewrite Hn in Hen. rewrite Hen.
  assert (bool_decide (id = 0) || bool_decide (id = tcpip.NIC route) = true) as ->.
  { destruct Hid as [-> | ->].
    - done.
    - rewrite (bool_decide_eq_true_2 (tcpip.NIC route = tcpip.NIC route)) by done.
      apply orb_true_r. }
  by rewrite Hep, Hr.
Qed.

(** X20.  When no local route comes first, the table is consulted and none
    of its entries both contains the remote address and names an enabled
    NIC of the stack (an empty table, say), [FindRoute] fails:
    with [HostUnreachable] for a remote that needs a route, with
    [BadLocalAddress] for the IPv6 loopback address, and with
    [NetworkUnreachable] otherwise. *)
Theorem FindRoute_no_usable_entry s id localAddr remoteAddr netProto multicastLoop :
  CheckNetworkProtocol s netProto = true ->
  triesLocalRoute s remoteAddr = false \/
  findLocalRouteRLocked s id localAddr remoteAddr netProto = None ->
  id = 0 \/ needRoute remoteAddr = true ->
  Forall (fun e => routeUnusable s remoteAddr e = true) (routeTable s) ->
  FindRoute s id localAddr remoteAddr netProto multicastLoop
    = Ret (tcpip.Err
             (if needRoute remoteAddr then tcpip.ErrHostUnreachable
              else if header.IsV6LoopbackAddress remoteAddr
                   then tcpip.ErrBadLocalAddress
                   else tcpip.ErrNetworkUnreachable)).
Proof.
  intros Hproto Hlocal Hbranch Hall.
  rewrite (FindRoute_table_branch _ _ _ _ _ _ Hproto Hlocal Hbranch).
  rewrite <- (app_nil_r (routeTable s)).
  rewrite findRoute_table_skip by exact Hall.
  simpl. unfold findRoute_chosen.
  assert (tcpip.Equal tcpip.Route_zero tcpip.Route_zero = true) as ->
    by reflexivity.
  simpl. by destruct (needRoute remoteAddr), (header.IsV6LoopbackAddress remoteAddr).
Qed.

End RoutingMore.

(** * The protocols of a new stack *)

Section NewStack.

Lemma foldl_insert_keys {A} (f : A -> Z) (l : list A) (m : gmap Z A) k :
  is_Some (foldl (fun m p => <[f p := p]> m) m l !! k) <->
  is_Some (m !! k) \/ exists p, p ∈ l /\ f p = k.
Proof.
  revert m. induction l as [|p l IH]; simpl; intros m.
  - split; [by left|]. intros [Hm | (p & Hp & _)]; [done|].
    by apply elem_of_nil in Hp.
  - rewrite IH, lookup_insert. split.
    + intros [Hm | (q & Hq & Hk)].
      * case_decide as Hp; [|by left].
        right. exists p. split; [apply list_elem_of_here | done].
      * right. exists q. split; [by apply list_elem_of_further | done].
    + intros [Hm | (q & Hq & Hk)].
      * left. case_decide; [by eexists | done].
      * apply elem_of_cons in Hq as [-> | Hq].
        -- left. rewrite decide_True by done. by eexists.
        -- right. by exists q.
Qed.

(** X21.  A stack made by [New] knows exactly the network and transport
    protocols that the options list, has no NIC and no route, and
    [NewEndpoint] for a transport protocol that is not listed returns
    [UnknownProtocol]. *)
Theorem New_registry (opts : Options.t) :
  (forall p,
     CheckNetworkProtocol (New opts) p = true <->
     exists np, np ∈ Options.NetworkProtocols opts /\ NetworkProtocol.Number np = p) /\
  (forall t,
     is_Some (TransportProtocolInstance (New opts) t) <->
     exists tp, tp ∈ Options.TransportProtocols opts /\
                TransportProtocol.Number tp = t) /\
  (forall t network waiterQueue,
     (forall tp, tp ∈ Options.TransportProtocols opts ->
                 TransportProtocol.Number tp <> t) ->
     NewEndpoint (New opts) t network waiterQueue
       = tcpip.Err tcpip.ErrUnknownProtocol) /\
  (forall id, HasNIC (New opts) id = false) /\
  GetRouteTable (New opts) = [].
Proof.
  assert (forall t,
            is_Some (transportProtocols (New opts) !! t) <->
            exists tp, tp ∈ Options.TransportProtocols opts /\
                       TransportProtocol.Number tp = t) as Htp.
  { intros t. simpl. rewrite foldl_insert_keys, lookup_empty.
    split; [intros [[? ?] | ?]; done | by right]. }
  split; [|split; [exact Htp|split; [|split; [|done]]]].
  - intros p. unfold CheckNetworkProtocol. rewrite bool_decide_eq_true. simpl.
    rewrite foldl_insert_keys, lookup_empty.
    split; [intros [[? ?] | ?]; done | by right].
  - intros t network waiterQueue Hnone. unfold NewEndpoint.
    match goal with
    | |- match ?x with _ => _ end = _ => destruct x as [tp|] eqn:Ht
    end.
    + exfalso. destruct (proj1 (Htp t)) as (tp' & Hin & Hnum).
      { exists tp. exact Ht. }
      by apply (Hnone tp').
    + reflexivity.
  - intros id. unfold HasNIC. simpl. apply bool_decide_eq_false_2.
    rewrite lookup_empty. by intros [? ?].
Qed.

End NewStack.

(** * Address and protocol of a transport endpoint *)

Section AddrNetProtoFacts.

Context `{!header.Pkg} `{!AddrPkg}.

(** X22.  When [AddrNetProtoLocked] succeeds, the protocol it returns is
    the endpoint's own, or IPv4 for an IPv6 endpoint that is not
    IPv6-only; when it fails it returns the zero address and protocol 0. *)
Theorem AddrNetProtoLocked_protocol (t : TransportEndpointInfo)
    (addr : FullAddress) (v6only bind : bool) a p :
  (AddrNetProtoLocked t addr v6only bind = Ret (a, p, None) ->
   p = NetProto t \/
   (p = header.IPv4ProtocolNumber /\ NetProto t = IPv6ProtocolNumber /\
    v6only = false)) /\
  (forall err,
     AddrNetProtoLocked t addr v6only bind = Ret (a, p, Some err) ->
     a = FullAddress_zero /\ p = 0).
Proof.
  unfold AddrNetProtoLocked.
  destruct (addrNetProto_unwrap t addr) as [[netProto addr']|msg]; simpl;
    [|split; [discriminate | intros err; discriminate]].
  destruct (addrNetProto_family t addr') as [e|];
    [split; [discriminate | by intros err [= <- <- _]]|].
  destruct (decide (netProto = NetProto t)) as [Heq|Hne].
  - rewrite (bool_decide_eq_true_2 _ Heq).
    split; [|intros err; discriminate].
    intros [= _ <-]. by left.
  - rewrite (bool_decide_eq_false_2 _ Hne).
    destruct (bool_decide (netProto = header.IPv4ProtocolNumber)) eqn:H4;
      [|split; [discriminate | by intros err [= <- <- _]]].
    destruct (bool_decide (NetProto t = IPv6ProtocolNumber)) eqn:H6; simpl;
      [|split; [discriminate | by intros err [= <- <- _]]].
    apply bool_decide_eq_true in H4, H6.
    destruct v6only.
    + split; [discriminate | by intros err [= <- <- _]].
    + split; [|intros err; discriminate].
      intros [= _ <-]. by right.
Qed.

(** X23.  [AddrNetProtoLocked] refuses an address of the other family than
    the endpoint's local address: an IPv6-sized address that is not
    IPv4-mapped on an IPv4-sized local address with
    [InvalidEndpointState], an IPv4-sized address on an IPv6-sized local
    address with [NetworkUnreachable].  It refuses an IPv4-sized address
    on an IPv6 endpoint with [v6only] set whatever the local address is:
    the check of the families comes first, so the error is
    [NetworkUnreachable] when the local address is IPv6-sized and
    [HostUnreachable] when it is not.  The sizes and the protocol numbers
    of IPv4 and IPv6 are taken to differ. *)
Theorem AddrNetProtoLocked_refuses (t : TransportEndpointInfo)
    (addr : FullAddress) (v6only bind : bool) :
  IPv4AddressSizeBits <> IPv6AddressSizeBits ->
  (tcpip.BitLen (LocalAddress (ID t)) = IPv4AddressSizeBits ->
   tcpip.BitLen (Addr addr) = IPv6AddressSizeBits ->
   IsV4MappedAddress (Addr addr) = false ->
   AddrNetProtoLocked t addr v6only bind
     = Ret (FullAddress_zero, 0, Some ErrInvalidEndpointState)) /\
  (tcpip.BitLen (LocalAddress (ID t)) = IPv6AddressSizeBits ->
   tcpip.BitLen (Addr addr) = IPv4AddressSizeBits ->
   AddrNetProtoLocked t addr v6only bind
     = Ret (FullAddress_zero, 0, Some tcpip.ErrNetworkUnreachable)) /\
  (NetProto t = IPv6ProtocolNumber ->
   header.IPv4ProtocolNumber <> IPv6ProtocolNumber ->
   tcpip.BitLen (Addr addr) = IPv4AddressSizeBits ->
   v6only = true ->
   AddrNetProtoLocked t addr v6only bind
     = Ret (FullAddress_zero, 0,
            Some (if bool_decide (tcpip.BitLen (LocalAddress (ID t))
                                  = IPv6AddressSizeBits)
                  then tcpip.ErrNetworkUnreachable
                  else tcpip.ErrHostUnreachable))).
Proof.
  intros Hsizes. unfold AddrNetProtoLocked, addrNetProto_unwrap.
  split; [|split].
  - intros Hlocal Haddr Hmapped.
    rewrite bool_decide_eq_false_2 by congruence.
    rewrite (bool_decide_eq_true_2 _ Haddr), Hmapped. simpl.
    unfold addrNetProto_family.
    by rewrite (bool_decide_eq_true_2 _ Hlocal), (bool_decide_eq_true_2 _ Haddr).
  - intros Hlocal Haddr.
    rewrite (bool_decide_eq_true_2 _ Haddr). simpl.
    unfold addrNetProto_family.
    rewrite bool_decide_eq_false_2 by congruence.
    by rewrite (bool_decide_eq_true_2 _ Hlocal), (bool_decide_eq_true_2 _ Haddr).
  - intros H6 Hprotos Haddr ->.
    rewrite (bool_decide_eq_true_2 _ Haddr). simpl.
    unfold addrNetProto_family.
    rewrite (bool_decide_eq_false_2 (tcpip.BitLen (Addr addr) = IPv6AddressSizeBits))
      by congruence.
    destruct (decide (tcpip.BitLen (LocalAddress (ID t)) = IPv6AddressSizeBits))
      as [Hlocal|Hlocal].
    { rewrite (bool_decide_eq_false_2
                 (tcpip.BitLen (LocalAddress (ID t)) = IPv4AddressSizeBits))
        by congruence.
      by rewrite (bool_decide_eq_true_2 _ Hlocal), (bool_decide_eq_true_2 _ Haddr). }
    rewrite (bool_decide_eq_false_2 _ Hlocal).
    assert ((if bool_decide (tcpip.BitLen (LocalAddress (ID t)) = IPv4AddressSizeBits)
             then None else None) = (None : option tcpip.Error)) as ->
      by (by destruct (bool_decide _)).
    rewrite H6.
    rewrite (bool_decide_eq_false_2 _ Hprotos).
    by rewrite !bool_decide_eq_true_2.
Qed.

End AddrNetProtoFacts.

(** * Use of a NIC id after its removal *)

Section AfterRemoval.

Context `{!NICPkg} `{!CoordinatorPkg} `{!GoRuntime} `{!RoutePkg}.

(** X24.  Once [RemoveNIC] has run for an id, with whatever result, the
    operations on that NIC all report that it is gone and leave the stack
    alone: [UnknownNICID] from [EnableNIC], [SetNICName],
    [SetNICForwarding], [NICForwarding], [SetNICCoordinator], [SetNICStack]
    and a further [RemoveNIC]; [NoSuchFile] from [GetNICByID]; false from
    [CheckNIC]; the empty name; no multicast route. *)
Theorem after_RemoveNIC (s : Stack) (id : tcpip.NICID) :
  let s' := (RemoveNIC s id).1.1 in
  EnableNIC s' id = (s', Some tcpip.ErrUnknownNICID) /\
  (forall name, SetNICName s' id name = (s', Some tcpip.ErrUnknownNICID)) /\
  (forall protocol enable_,
     SetNICForwarding s' id protocol enable_
       = (s', tcpip.Err tcpip.ErrUnknownNICID)) /\
  (forall protocol,
     NICForwarding s' id protocol = tcpip.Err tcpip.ErrUnknownNICID) /\
  (forall mid, SetNICCoordinator s' id mid = (s', Some tcpip.ErrUnknownNICID)) /\
  (forall (h : gmap Z Stack) sp peer,
     h !! sp = Some s' ->
     SetNICStack h sp id peer = Ret (h, [], (0, Some tcpip.ErrUnknownNICID))) /\
  RemoveNIC s' id = (s', [], Some tcpip.ErrUnknownNICID) /\
  GetNICByID s' id = tcpip.Err tcpip.ErrNoSuchFile /\
  CheckNIC s' id = false /\
  FindNICNameFromID s' id = EmptyString /\
  (forall remoteAddr netProto,
     NewRouteForMulticast s' id remoteAddr netProto = None).
Proof.
  intros s'.
  assert (nics s' !! id = None) as Hgone.
  { subst s'. rewrite RemoveNIC_nics. apply lookup_delete_eq. }
  unfold EnableNIC, SetNICName, SetNICForwarding, NICForwarding,
    SetNICCoordinator, GetNICByID, CheckNIC, FindNICNameFromID,
    NewRouteForMulticast, RemoveNIC, removeNICLocked.
  rewrite !Hgone. repeat (split; [done|]).
  split; [|done].
  intros h sp peer Hsp. unfold SetNICStack. by rewrite Hsp, Hgone.
Qed.

End AfterRemoval.

(** * Worked instances of the further properties *)

Section MoreExamples.

#[local] Existing Instances sample.headerPkg sample.subnetOps sample.routePkg
  sample.goRuntime sample2.coordinatorPkg sample2.addrPkg.

#[local] Instance sample_nicPkg : NICPkg := sample.nicPkg None.

Import sample sample2.

Lemma stackEth0_nics k m :
  nics stackEth0 !! k = Some m -> k = 1 /\ m = eth0.
Proof.
  change (nics stackEth0) with ({[ 1 := eth0 ]} : gmap Z nic.t).
  intros Hk. apply lookup_singleton_Some in Hk as [<- <-]. done.
Qed.

Lemma SetRouteTable_GetRouteTable_witness :
  sortedByPrefix (GetRouteTable stackRoutes) /\
  GetRouteTable (SetRouteTable stackEth7 (GetRouteTable stackRoutes))
    = GetRouteTable stackRoutes.
Proof.
  assert (sortedByPrefix (GetRouteTable stackRoutes)) as Hs.
  { repeat constructor; vm_compute; discriminate. }
  split; [exact Hs|].
  apply (SetRouteTable_GetRouteTable stackEth7 _ Hs).
Defined.

Lemma ReplaceRoute_spec_witness :
  sortedByPrefix (routeTable stackRoutes) /\
  GetRouteTable (ReplaceRoute stackRoutes r8gw) = [r16; r8gw; r0] /\
  List.filter (fun e => tcpip.Equal e r8gw)
              (GetRouteTable (ReplaceRoute stackRoutes r8gw)) = [r8gw] /\
  sortedByPrefix (GetRouteTable (ReplaceRoute stackRoutes r8gw)).
Proof.
  assert (sortedByPrefix (routeTable stackRoutes)) as Hs.
  { repeat constructor; vm_compute; discriminate. }
  split; [exact Hs|]. split; [reflexivity|].
  destruct (ReplaceRoute_spec stackRoutes r8gw) as (Hone & _ & Hsorted).
  split; [exact Hone | exact (Hsorted Hs)].
Defined.


Lemma NextNICID_fresh_witness :
  0 <= nicIDGen stackEth0 < 2 ^ 31 /\
  nicIDGen stackEth0 < 2 ^ 31 - 1 /\
  (NextNICID stackEth0).2 = Ret 1 /\
  (NextNICID (NextNICID stackEth0).1).2 = Ret 2 /\
  nicIDGen stackFull = 2 ^ 31 - 1 /\
  exists msg, (NextNICID stackFull).2 = Panic msg.
Proof.
  assert (0 <= nicIDGen stackEth0 < 2 ^ 31) as H0
    by (vm_compute; split; [discriminate | reflexivity]).
  assert (nicIDGen stackEth0 < 2 ^ 31 - 1) as H1 by (vm_compute; reflexivity).
  assert (0 <= nicIDGen stackFull < 2 ^ 31) as H2
    by (vm_compute; split; [discriminate | reflexivity]).
  assert (nicIDGen stackFull = 2 ^ 31 - 1) as H3 by reflexivity.
  split; [exact H0|]. split; [exact H1|].
  split; [exact (proj1 (proj1 (NextNICID_fresh stackEth0 H0) H1))|].
  split; [reflexivity|]. split; [exact H3|].
  exact (proj2 (NextNICID_fresh stackFull H2) H3).
Defined.

Lemma CreateNICWithOptions_adds_witness :
  (2 : Z) <> 0 /\
  nics stackEth0 !! 2 = None /\
  (forall k m, nics stackEth0 !! k = Some m -> nic.Name m <> "eth1") /\
  exists s' calls err,
    CreateNICWithOptions stackEth0 2 200 (NICOptions.mk "eth1" false)
      = Ret (s', calls, err) /\
    HasNIC s' 2 = true /\
    routeTable s' = routeTable stackEth0.
Proof.
  assert ((2 : Z) <> 0) as Hid by discriminate.
  assert (nics stackEth0 !! 2 = None) as Hfresh by reflexivity.
  assert (forall k m, nics stackEth0 !! k = Some m -> nic.Name m <> "eth1")
    as Hname.
  { intros k m Hk. apply stackEth0_nics in Hk as [_ ->]. discriminate. }
  assert (applyDefaultForwarding
            (newNIC stackEth0 2 200 (NICOptions.mk "eth1" false))
            (rangeProtos (defaultForwardingEnabled stackEth0))
          = Ret (nicWith 2 "eth1" 200 None false [])) as Hfwd
    by (vm_compute; reflexivity).
  split; [exact Hid|]. split; [exact Hfresh|]. split; [exact Hname|].
  destruct (CreateNICWithOptions_adds stackEth0 2 200
              (NICOptions.mk "eth1" false)
              (nicWith 2 "eth1" 200 None false [])
              Hid Hfresh (or_intror Hname) Hfwd)
    as (s' & calls & err & Hrun & _ & _ & Hhas & _ & Hrt & _).
  exists s', calls, err. split; [exact Hrun|]. split; [exact Hhas | exact Hrt].
Defined.

Lemma CreateNICWithOptions_twice_witness :
  (2 : Z) <> 0 /\
  exists s' calls err,
    CreateNICWithOptions stackEth0 2 200 (NICOptions.mk "eth1" false)
      = Ret (s', calls, err) /\
    CreateNICWithOptions s' 2 201 (NICOptions.mk "eth1" false)
      = Ret (s', [], Some tcpip.ErrDuplicateNICID).
Proof.
  assert ((2 : Z) <> 0) as Hid by discriminate.
  split; [exact Hid|].
  destruct (CreateNICWithOptions stackEth0 2 200 (NICOptions.mk "eth1" false))
    as [[[s' calls] err]|msg] eqn:Hrun;
    [|vm_compute in Hrun; discriminate Hrun].
  exists s', calls, err. split; [reflexivity|].
  apply (CreateNICWithOptions_twice stackEth0 2 200 201
           (NICOptions.mk "eth1" false) s' calls err Hid Hrun).
Defined.

Lemma CreateNICWithOptions_RemoveNIC_witness :
  HasNIC stackEth0 2 = false /\
  exists s' calls err,
    CreateNICWithOptions stackEth0 2 200 (NICOptions.mk "eth1" false)
      = Ret (s', calls, err) /\
    HasNIC s' 2 = true /\
    nics (RemoveNIC s' 2).1.1 = nics stackEth0.
Proof.
  assert (HasNIC stackEth0 2 = false) as Hnot by reflexivity.
  split; [exact Hnot|].
  destruct (CreateNICWithOptions stackEth0 2 200 (NICOptions.mk "eth1" false))
    as [[[s' calls] err]|msg] eqn:Hrun;
    [|vm_compute in Hrun; discriminate Hrun].
  assert (HasNIC s' 2 = true) as Hhas.
  { vm_compute in Hrun. injection Hrun as <- _ _. reflexivity. }
  exists s', calls, err. split; [reflexivity|]. split; [exact Hhas|].
  apply (CreateNICWithOptions_RemoveNIC stackEth0 2 200
           (NICOptions.mk "eth1" false) s' calls err Hnot Hrun Hhas).
Defined.

Lemma sample_keepsIdentity : keepsIdentity.
Proof. repeat split. Qed.

Lemma stackEth0_invariants : nicsWellFormed stackEth0 /\ namesUnique stackEth0.
Proof.
  split.
  - intros k m Hk. apply stackEth0_nics in Hk as [-> ->].
    split; [reflexivity | discriminate].
  - intros i j n m Hi Hj _ _.
    apply stackEth0_nics in Hi as [-> _].
    by apply stackEth0_nics in Hj as [-> _].
Qed.

Lemma NIC_map_invariants_witness :
  keepsIdentity /\ nicsWellFormed stackEth0 /\ namesUnique stackEth0 /\
  exists s' calls err,
    CreateNICWithOptions stackEth0 2 200 (NICOptions.mk "eth1" false)
      = Ret (s', calls, err) /\
    nicsWellFormed s' /\ namesUnique s'.
Proof.
  split; [exact sample_keepsIdentity|].
  split; [exact (proj1 stackEth0_invariants)|].
  split; [exact (proj2 stackEth0_invariants)|].
  destruct (CreateNICWithOptions stackEth0 2 200 (NICOptions.mk "eth1" false))
    as [[[s' calls] err]|msg] eqn:Hrun;
    [|vm_compute in Hrun; discriminate Hrun].
  exists s', calls, err. split; [reflexivity|].
  apply (proj1 (NIC_map_invariants stackEth0 2 200 (NICOptions.mk "eth1" false)
                  sample_keepsIdentity (proj1 stackEth0_invariants)
                  (proj2 stackEth0_invariants)) s' calls err Hrun).
Defined.

Lemma SetNICName_FindNICNameFromID_witness :
  is_Some (nics stackLocal !! 1) /\
  (SetNICName stackLocal 1 "lo").2 = None /\
  FindNICNameFromID (SetNICName stackLocal 1 "lo").1 1 = "lo" /\
  FindNICNameFromID (SetNICName stackLocal 1 "lo").1 2 = "lo" /\
  nics stackLocal !! 5 = None /\
  SetNICName stackLocal 5 "lo" = (stackLocal, Some tcpip.ErrUnknownNICID).
Proof.
  assert (is_Some (nics stackLocal !! 1)) as Hin by (exists eth0; reflexivity).
  assert (nics stackLocal !! 5 = None) as Hout by reflexivity.
  destruct (proj1 (SetNICName_FindNICNameFromID stackLocal 1 "lo") Hin)
    as (Herr & Hname & _).
  split; [exact Hin|]. split; [exact Herr|]. split; [exact Hname|].
  split; [reflexivity|]. split; [exact Hout|].
  exact (proj2 (SetNICName_FindNICNameFromID stackLocal 5 "lo") Hout).
Defined.

Lemma GetLinkEndpointByName_spec_witness :
  (forall k m, nics stackEth0 !! k = Some m -> nic.Name m <> "eth9") /\
  GetLinkEndpointByName stackEth0 "eth9" = None /\
  GetLinkEndpointByName stackEth0 "eth0" = Some 100 /\
  exists k m, nics stackEth0 !! k = Some m /\ nic.Name m = "eth0" /\
              nic.NetworkLinkEndpoint m = 100.
Proof.
  assert (forall k m, nics stackEth0 !! k = Some m -> nic.Name m <> "eth9")
    as Hfree.
  { intros k m Hk. apply stackEth0_nics in Hk as [_ ->]. discriminate. }
  assert (GetLinkEndpointByName stackEth0 "eth0" = Some 100) as Hfound
    by reflexivity.
  split; [exact Hfree|].
  split; [exact (proj2 (proj1 (GetLinkEndpointByName_spec stackEth0 "eth9")) Hfree)|].
  split; [exact Hfound|].
  exact (proj1 (proj2 (GetLinkEndpointByName_spec stackEth0 "eth0")) 100 Hfound).
Defined.

Lemma SetNICStack_leaves_witness :
  twoStacks !! 1 = Some stackEth7 /\
  (1 : Z) <> 2 /\
  is_Some (nics stackEth7 !! 7) /\
  exists h' calls res,
    SetNICStack twoStacks 1 7 2 = Ret (h', calls, res) /\
    exists s',
      h' !! 1 = Some s' /\ HasNIC s' 7 = false /\ GetRouteTable s' = [r24].
Proof.
  assert (twoStacks !! 1 = Some stackEth7) as Hs by reflexivity.
  assert ((1 : Z) <> 2) as Hne by discriminate.
  assert (is_Some (nics stackEth7 !! 7)) as Hn by (exists eth7; reflexivity).
  split; [exact Hs|]. split; [exact Hne|]. split; [exact Hn|].
  destruct (SetNICStack twoStacks 1 7 2) as [[[h' calls] res]|msg] eqn:Hrun;
    [|vm_compute in Hrun; discriminate Hrun].
  exists h', calls, res. split; [reflexivity|].
  destruct (SetNICStack_leaves twoStacks h' 1 2 stackEth7 7 calls res
              Hs Hne Hn Hrun) as (s' & Hs' & Hhas & Hrt & _).
  exists s'. split; [exact Hs'|]. split; [exact Hhas | exact Hrt].
Defined.

Lemma SetNICCoordinator_spec_witness :
  nics stackBridge !! 3 = Some br0 /\
  asCoordinatorNIC (nic.NetworkLinkEndpoint br0) = Some 900 /\
  SetNICCoordinator stackBridge 3 1 = (stackBridge, Some tcpip.ErrNoSuchFile) /\
  exists s',
    SetNICCoordinator stackBridge 1 3 = (s', None) /\
    head (RemoveNIC s' 1).1.2 = Some (CallDelNIC 900 1).
Proof.
  assert (nics stackBridge !! 3 = Some br0) as Hbr by reflexivity.
  assert (asCoordinatorNIC (nic.NetworkLinkEndpoint br0) = Some 900) as Hco
    by reflexivity.
  split; [exact Hbr|]. split; [exact Hco|].
  split.
  { exact (proj2 (proj2 (SetNICCoordinator_spec stackBridge 3 1)) br0 900 Hbr Hco). }
  destruct (SetNICCoordinator stackBridge 1 3) as [s' [err|]] eqn:Hrun;
    [vm_compute in Hrun; discriminate Hrun|].
  exists s'. split; [reflexivity|].
  destruct (proj1 (SetNICCoordinator_spec stackBridge 1 3) s' Hrun)
    as (n & m & b & Hn & _ & Hm & Hb & _ & _ & Hdel).
  assert (b = 900) as <-; [|exact Hdel].
  pose proof (eq_trans (eq_sym Hm) Hbr) as Heq. injection Heq as ->.
  pose proof (eq_trans (eq_sym Hb) Hco) as Heq. by injection Heq.
Defined.

Lemma SetForwardingDefaultAndAllNICs_spec_witness :
  exists s' r,
    SetForwardingDefaultAndAllNICs stackEth0 2048 true = Ret (s', r) /\
    r = None /\
    (2048 ∈ defaultForwardingEnabled s') /\
    HasNIC s' 1 = true.
Proof.
  destruct (SetForwardingDefaultAndAllNICs stackEth0 2048 true)
    as [[s' r]|msg] eqn:Hrun; [|vm_compute in Hrun; discriminate Hrun].
  assert (r = None) as Hr.
  { vm_compute in Hrun. by injection Hrun as _ <-. }
  exists s', r. split; [reflexivity|]. split; [exact Hr|].
  destruct (proj1 (SetForwardingDefaultAndAllNICs_spec stackEth0 2048 true)
              s' r Hrun) as (Hdef & _ & Hhas & _).
  split.
  - apply (Hdef Hr 2048). left. split; reflexivity.
  - rewrite (Hhas 1). reflexivity.
Defined.

Lemma ReplaceConfig_spec_witness :
  0 <= nicIDGen stackEth0 /\
  nicIDGen stackEth0 + Z.of_nat (size (nics stackEth7)) < 2 ^ 31 /\
  exists s',
    ReplaceConfig stackEth0 (Some stackEth7) = Ret s' /\
    nics s' = nics stackEth7 /\
    nicIDGen s' = 1 /\
    HasNIC s' 1 = false.
Proof.
  assert (0 <= nicIDGen stackEth0) as Hpos by (vm_compute; discriminate).
  assert (nicIDGen stackEth0 + Z.of_nat (size (nics stackEth7)) < 2 ^ 31) as Hlen
    by (vm_compute; reflexivity).
  split; [exact Hpos|]. split; [exact Hlen|].
  destruct (proj1 (ReplaceConfig_spec stackEth0 stackEth7 Hpos Hlen))
    as (s' & Hrun & Hnics & Hgen & _).
  exists s'. split; [exact Hrun|]. split; [exact Hnics|].
  split; [rewrite Hgen; reflexivity|].
  unfold HasNIC. rewrite Hnics. reflexivity.
Defined.

Lemma stackLocal_wellFormed : nicsWellFormed stackLocal.
Proof.
  intros k m.
  change (nics stackLocal) with (<[1 := eth0]> (<[2 := lo]> ∅) : gmap Z nic.t).
  rewrite lookup_insert. case_decide as H1.
  - intros [= <-]. subst k. split; [reflexivity | discriminate].
  - rewrite lookup_insert. case_decide as H2.
    + intros [= <-]. subst k. split; [reflexivity | discriminate].
    + by rewrite lookup_empty.
Qed.

Lemma CheckLocalAddress_any_NIC_witness :
  nicsWellFormed stackLocal /\
  (exists k n, nics stackLocal !! k = Some n /\
               nic.CheckLocalAddress n 2048 addrLoopback = true) /\
  CheckLocalAddress stackLocal 0 2048 addrLoopback = 2 /\
  (forall k n, nics stackLocal !! k = Some n ->
               nic.CheckLocalAddress n 2048 addr8888 = false) /\
  CheckLocalAddress stackLocal 0 2048 addr8888 = 0.
Proof.
  assert (exists k n, nics stackLocal !! k = Some n /\
                      nic.CheckLocalAddress n 2048 addrLoopback = true) as Hsome
    by (exists 2, lo; split; reflexivity).
  assert (forall k n, nics stackLocal !! k = Some n ->
                      nic.CheckLocalAddress n 2048 addr8888 = false) as Hnone.
  { intros k n.
    change (nics stackLocal) with (<[1 := eth0]> (<[2 := lo]> ∅) : gmap Z nic.t).
    rewrite lookup_insert. case_decide; [by intros [= <-]|].
    rewrite lookup_insert. case_decide; [by intros [= <-]|].
    by rewrite lookup_empty. }
  split; [exact stackLocal_wellFormed|]. split; [exact Hsome|].
  split; [reflexivity|]. split; [exact Hnone|].
  exact (proj1 (CheckLocalAddress_any_NIC stackLocal 2048 addr8888
                  stackLocal_wellFormed) Hnone).
Defined.

Lemma FindRoute_first_match_witness :
  routeTable stackTwo = [r8] ++ r0 :: [] /\
  Forall (fun e => routeUnusable stackTwo addr8888 e = true) [r8] /\
  routeUnusable stackTwo addr8888 r0 = false /\
  FindRoute stackTwo 0 [] addr8888 2048 false
    = Ret (tcpip.Ok (makeRoute 2048 [] [] addr8888 eth0 eth0 0 false false 0)).
Proof.
  assert (Forall (fun e => routeUnusable stackTwo addr8888 e = true) [r8]) as Hl1
    by (repeat constructor).
  assert (routeUnusable stackTwo addr8888 r0 = false) as Hr0 by reflexivity.
  split; [reflexivity|]. split; [exact Hl1|]. split; [exact Hr0|].
  apply (FindRoute_first_match stackTwo 0 [] addr8888 2048 false
           [r8] [] r0 eth0 0
           (makeRoute 2048 [] [] addr8888 eth0 eth0 0 false false 0));
    try reflexivity; try exact Hl1; try exact Hr0; by left.
Defined.

Lemma FindRoute_no_usable_entry_witness :
  Forall (fun e => routeUnusable stackEth0 addr8888 e = true) (routeTable stackEth0) /\
  FindRoute stackEth0 0 [] addr8888 2048 false
    = Ret (tcpip.Err tcpip.ErrHostUnreachable) /\
  FindRoute stackEth0 0 [] addrLoopback 2048 false
    = Ret (tcpip.Err tcpip.ErrNetworkUnreachable).
Proof.
  assert (forall a, Forall (fun e => routeUnusable stackEth0 a e = true)
                           (routeTable stackEth0)) as Hall
    by (intros a; constructor).
  assert (CheckNetworkProtocol stackEth0 2048 = true) as Hproto
    by (vm_compute; reflexivity).
  assert (forall a, triesLocalRoute stackEth0 a = false) as Htries
    by (intros a; reflexivity).
  split; [exact (Hall addr8888)|]. split.
  - exact (FindRoute_no_usable_entry stackEth0 0 [] addr8888 2048 false
             Hproto (or_introl (Htries _)) (or_introl eq_refl) (Hall addr8888)).
  - exact (FindRoute_no_usable_entry stackEth0 0 [] addrLoopback 2048 false
             Hproto (or_introl (Htries _)) (or_introl eq_refl) (Hall addrLoopback)).
Defined.

(** Scenario S1. *)
Lemma New_registry_witness :
  (forall tp, tp ∈ Options.TransportProtocols (Options.mk [ipv4] [] false None) ->
              TransportProtocol.Number tp <> 6) /\
  NewEndpoint (New (Options.mk [ipv4] [] false None)) 6 2048 0
    = tcpip.Err tcpip.ErrUnknownProtocol /\
  CheckNetworkProtocol (New (Options.mk [ipv4] [] false None)) 2048 = true.
Proof.
  assert (forall tp,
            tp ∈ Options.TransportProtocols (Options.mk [ipv4] [] false None) ->
            TransportProtocol.Number tp <> 6) as Hnone.
  { intros tp Htp. by apply elem_of_nil in Htp. }
  destruct (New_registry (Options.mk [ipv4] [] false None))
    as (Hnet & _ & Hep & _).
  split; [exact Hnone|]. split; [exact (Hep 6 2048 0 Hnone)|].
  apply Hnet. exists ipv4. split; [apply list_elem_of_here | reflexivity].
Defined.

Lemma AddrNetProtoLocked_protocol_witness :
  AddrNetProtoLocked (udp6 []) (mkFullAddress 0 mapped10 53 []) false false
    = Ret (mkFullAddress 0 addr10 53 [], 2048, None) /\
  ((2048 : Z) = NetProto (udp6 []) \/
   ((2048 : Z) = header.IPv4ProtocolNumber /\
    NetProto (udp6 []) = IPv6ProtocolNumber /\ false = false)).
Proof.
  assert (AddrNetProtoLocked (udp6 []) (mkFullAddress 0 mapped10 53 []) false false
          = Ret (mkFullAddress 0 addr10 53 [], 2048, None)) as Hrun
    by (vm_compute; reflexivity).
  split; [exact Hrun|].
  exact (proj1 (AddrNetProtoLocked_protocol (udp6 [])
                  (mkFullAddress 0 mapped10 53 []) false false
                  (mkFullAddress 0 addr10 53 []) 2048) Hrun).
Defined.

Lemma AddrNetProtoLocked_refuses_witness :
  IPv4AddressSizeBits <> IPv6AddressSizeBits /\
  header.IPv4ProtocolNumber <> IPv6ProtocolNumber /\
  AddrNetProtoLocked (udp4 addr10) (mkFullAddress 0 IPv6Loopback 53 []) false false
    = Ret (FullAddress_zero, 0, Some ErrInvalidEndpointState) /\
  AddrNetProtoLocked (udp6 IPv6Loopback) (mkFullAddress 0 addr10 53 []) false false
    = Ret (FullAddress_zero, 0, Some tcpip.ErrNetworkUnreachable) /\
  AddrNetProtoLocked (udp6 []) (mkFullAddress 0 addr10 53 []) true false
    = Ret (FullAddress_zero, 0, Some tcpip.ErrHostUnreachable) /\
  AddrNetProtoLocked (udp6 IPv6Loopback) (mkFullAddress 0 addr10 53 []) true false
    = Ret (FullAddress_zero, 0, Some tcpip.ErrNetworkUnreachable).
Proof.
  assert (IPv4AddressSizeBits <> IPv6AddressSizeBits) as Hsizes by discriminate.
  assert (header.IPv4ProtocolNumber <> IPv6ProtocolNumber) as Hprotos
    by discriminate.
  split; [exact Hsizes|]. split; [exact Hprotos|]. split; [|split; [|split]].
  - apply (proj1 (AddrNetProtoLocked_refuses (udp4 addr10)
                    (mkFullAddress 0 IPv6Loopback 53 []) false false Hsizes));
      reflexivity.
  - apply (proj1 (proj2 (AddrNetProtoLocked_refuses (udp6 IPv6Loopback)
                           (mkFullAddress 0 addr10 53 []) false false Hsizes)));
      reflexivity.
  - exact (proj2 (proj2 (AddrNetProtoLocked_refuses (udp6 [])
                           (mkFullAddress 0 addr10 53 []) true false Hsizes))
             eq_refl Hprotos eq_refl eq_refl).
  - exact (proj2 (proj2 (AddrNetProtoLocked_refuses (udp6 IPv6Loopback)
                           (mkFullAddress 0 addr10 53 []) true false Hsizes))
             eq_refl Hprotos eq_refl eq_refl).
Defined.

Lemma after_RemoveNIC_witness :
  HasNIC stackEth7 7 = true /\
  EnableNIC (RemoveNIC stackEth7 7).1.1 7
    = ((RemoveNIC stackEth7 7).1.1, Some tcpip.ErrUnknownNICID) /\
  GetNICByID (RemoveNIC stackEth7 7).1.1 7 = tcpip.Err tcpip.ErrNoSuchFile.
Proof.
  destruct (after_RemoveNIC stackEth7 7)
    as (Hen & _ & _ & _ & _ & _ & _ & Hget & _).
  split; [reflexivity|]. split; [exact Hen | exact Hget].
Defined.

End MoreExamples.
